(** * FloatChat: the ARGO ingestion pipeline

    A shallow embedding of the ingestion path of the repository:

    - [data_processing/netcdf_processor.py]: [NetCDFProcessor]
      ([validate_file], [calculate_file_hash], [extract_profile_metadata],
      [extract_measurements], [process_file]);
    - [database/connection.py]: [DatabaseManager] ([insert_profile],
      [insert_measurements], [get_profile_id_by_hash], [get_profiles],
      [get_measurements_by_profile], [get_total_records],
      [search_profiles_by_location], [get_summary_statistics]);
    - [pages/1_Data_Ingestion.py]: [store_data_in_database] and the loop
      of [main] over the uploaded files;
    - [pages/3_AI_Chat.py]: the look-ups of [generate_visualizations].

    Python exceptions are explicit: a computation that may raise has type
    [result A], and every [try]/[except] of the source is a [try_except].
    Dictionaries with computed keys are [gmap string _]; the profile
    metadata, whose keys are all literal, is a record of optional fields
    ([None] is "key absent").  NumPy values are IEEE binary64 floats
    ([PrimFloat.float]) or byte strings; arrays are scalar (0-d) or
    one-dimensional.  The tables of the relational store are lists of rows
    in insertion order, with the [SERIAL] counters next to them. *)

From Stdlib Require Import ZArith Lia Bool String Ascii List Floats.
From Stdlib Require Import Sorted.
From Stdlib Require QArith Uint63.
From stdpp Require Import gmap strings list.

Local Open Scope Z_scope.

(* ===================================================================== *)
(** * Python prelude *)
(* ===================================================================== *)

Module Py.

(** The exception classes that occur on the modelled paths.  All of them
    derive from [Exception], so [except Exception] catches each one. *)
Inductive exn : Type :=
| ValueError
| TypeError
| KeyError (key : string)
| IndexError
| OverflowError
| OSError
| IntegrityError (pgerror : string)   (* psycopg2.IntegrityError, [str(e)] *)
| DataError.                          (* psycopg2.DataError *)

Inductive result (A : Type) : Type :=
| Ok (a : A)
| Raise (e : exn).
Arguments Ok {A} a.
Arguments Raise {A} e.

Definition bind {A B} (c : result A) (k : A -> result B) : result B :=
  match c with
  | Ok a => k a
  | Raise e => Raise e
  end.

(** [try: body except ...: handler]; the handler re-raises what its
    [except] clauses do not name. *)
Definition try_except {A} (body : result A) (handler : exn -> result A)
  : result A :=
  match body with
  | Ok a => Ok a
  | Raise e => handler e
  end.

Definition raises {A} (c : result A) : bool :=
  match c with Ok _ => false | Raise _ => true end.

(** Python strings and [bytes] objects are both [string] here (a list of
    8-bit characters). *)
Definition ascii_lower (c : ascii) : ascii :=
  let n := nat_of_ascii c in
  if ((65 <=? n)%nat && (n <=? 90)%nat)%bool
  then ascii_of_nat (n + 32) else c.

(** [str.lower], on the ASCII letters. *)
Fixpoint lower (s : string) : string :=
  match s with
  | EmptyString => EmptyString
  | String c r => String (ascii_lower c) (lower r)
  end.

(** [s.rfind(c)]: the index of the last [c] in [s], or [-1]. *)
Fixpoint rfind_from (c : ascii) (s : string) (i acc : Z) : Z :=
  match s with
  | EmptyString => acc
  | String a r => rfind_from c r (i + 1) (if Ascii.eqb a c then i else acc)
  end.
Definition rfind (c : ascii) (s : string) : Z := rfind_from c s 0 (-1).

(** [s[i:j]] for [0 <= i], [0 <= j]. *)
Definition slice (s : string) (i j : Z) : string :=
  substring (Z.to_nat i) (Z.to_nat (j - i)) s.
Definition slice_from (s : string) (i : Z) : string :=
  substring (Z.to_nat i) (String.length s - Z.to_nat i) s.

(** Whether some character of [s] differs from [c]. *)
Fixpoint some_other (c : ascii) (s : string) : bool :=
  match s with
  | EmptyString => false
  | String a r => negb (Ascii.eqb a c) || some_other c r
  end.

(** [os.path.splitext] on POSIX ([genericpath._splitext] with [sep = '/'],
    no [altsep], [extsep = '.']): the extension starts at the last dot of
    the last path component, unless that component has only leading
    dots before it. *)
Definition splitext (p : string) : string * string :=
  let sepIndex := rfind "/"%char p in
  let dotIndex := rfind "."%char p in
  if (sepIndex <? dotIndex)
     && some_other "."%char (slice p (sepIndex + 1) dotIndex)
  then (slice p 0 dotIndex, slice_from p dotIndex)
  else (p, EmptyString).

(** [x in l] for a list of strings. *)
Definition str_in (x : string) (l : list string) : bool :=
  existsb (String.eqb x) l.

(** [needle in s] for strings. *)
Fixpoint contains (needle s : string) : bool :=
  String.prefix needle s
  || match s with
     | EmptyString => false
     | String _ r => contains needle r
     end.

End Py.
Import Py.

Module PyNotations.
Notation "'let!' x ':=' c 'in' k" := (Py.bind c (fun x => k))
  (at level 10, x pattern, c at level 100, k at level 200).
End PyNotations.
Import PyNotations.

(* ===================================================================== *)
(** * NumPy, xarray and pandas values *)
(* ===================================================================== *)

Module Np.

(** An element of a decoded variable: a float (xarray decodes the
    physical variables, fill values becoming NaN), or a byte string (the
    character variables of the format, such as the [*_QC] flags). *)
Inductive scalar : Type :=
| SFloat (f : float)
| SBytes (b : string).

(** [ds[name].values]: a scalar (0-d) array or a one-dimensional one. *)
Inductive ndarray : Type :=
| Arr0 (x : scalar)
| Arr1 (xs : list scalar).

(** [hasattr(a, 'item')]: every [numpy.ndarray] has the method. *)
Definition hasattr_item (a : ndarray) : bool := true.

(** [a.item()]: the element of an array of size 1, [ValueError]
    otherwise. *)
Definition item (a : ndarray) : result scalar :=
  match a with
  | Arr0 x => Ok x
  | Arr1 [x] => Ok x
  | Arr1 _ => Raise ValueError
  end.

(** [len(a)]: [TypeError] on a 0-d array. *)
Definition len (a : ndarray) : result nat :=
  match a with
  | Arr0 _ => Raise TypeError
  | Arr1 xs => Ok (length xs)
  end.

(** [a[i]] for [0 <= i]. *)
Definition getitem (a : ndarray) (i : nat) : result scalar :=
  match a with
  | Arr0 _ => Raise IndexError
  | Arr1 xs => match xs !! i with
               | Some x => Ok x
               | None => Raise IndexError
               end
  end.

Definition isnan (x : scalar) : result bool :=
  match x with
  | SFloat f => Ok (PrimFloat.is_nan f)
  | SBytes _ => Raise TypeError
  end.

Definition isinf (x : scalar) : result bool :=
  match x with
  | SFloat f => Ok (PrimFloat.is_infinity f)
  | SBytes _ => Raise TypeError
  end.

Definition is_finite (f : float) : bool :=
  negb (PrimFloat.is_nan f) && negb (PrimFloat.is_infinity f).

(** The integer part of a finite float, towards zero. *)
Definition trunc (f : float) : option Z :=
  match Prim2SF f with
  | S754_zero _ => Some 0
  | S754_finite s m e =>
      let a := match e with
               | Z0 => Zpos m
               | Zpos k => Z.shiftl (Zpos m) (Zpos k)
               | Zneg k => Z.shiftr (Zpos m) (Zpos k)
               end in
      Some (if s then - a else a)
  | S754_infinity _ | S754_nan => None
  end.

Definition is_space (c : ascii) : bool :=
  let n := nat_of_ascii c in
  ((n =? 32) || ((9 <=? n) && (n <=? 13)))%nat.

Definition is_digit (c : ascii) : bool :=
  let n := nat_of_ascii c in ((48 <=? n) && (n <=? 57))%nat.

Definition digit (c : ascii) : Z := Z.of_nat (nat_of_ascii c) - 48.

(** Decimal digits, single underscores allowed between two digits. *)
Fixpoint digits_from (l : list ascii) (acc : Z) (after_digit : bool)
  : option Z :=
  match l with
  | [] => if after_digit then Some acc else None
  | c :: r =>
      if is_digit c then digits_from r (10 * acc + digit c) true
      else if Ascii.eqb c "_"%char && after_digit
           then match r with
                | d :: _ => if is_digit d then digits_from r acc false
                            else None
                | [] => None
                end
           else None
  end.

Fixpoint lstrip (l : list ascii) : list ascii :=
  match l with
  | c :: r => if is_space c then lstrip r else l
  | [] => []
  end.

(** [int(b)] for a [bytes] object, base 10: surrounding white space, an
    optional sign, digits. *)
Definition int_of_bytes (b : string) : result Z :=
  let l := rev (lstrip (rev (lstrip (list_ascii_of_string b)))) in
  let parsed :=
    match l with
    | c :: r =>
        if Ascii.eqb c "-"%char then Z.opp <$> digits_from r 0 false
        else if Ascii.eqb c "+"%char then digits_from r 0 false
        else digits_from l 0 false
    | [] => None
    end in
  match parsed with
  | Some z => Ok z
  | None => Raise ValueError
  end.

(** [int(x)]. *)
Definition py_int (x : scalar) : result Z :=
  match x with
  | SFloat f =>
      if PrimFloat.is_nan f then Raise ValueError
      else match trunc f with
           | Some z => Ok z
           | None => Raise OverflowError
           end
  | SBytes b => int_of_bytes b
  end.

(** [xr.Dataset]: the sizes of the named dimensions and the decoded
    variables. *)
Record Dataset : Type := {
  dims : gmap string nat;
  variables : gmap string ndarray;
}.

(** [name in ds.variables]. *)
Definition has_variable (ds : Dataset) (name : string) : bool :=
  match variables ds !! name with
  | Some _ => true
  | None => false
  end.

(** Times are nanoseconds since 1970-01-01T00:00, as in [pd.Timestamp]. *)
Definition int64 (z : Z) : bool := (- 2 ^ 63 <? z) && (z <? 2 ^ 63).

(** [pd.Timestamp('1950-01-01')]: 7305 days before 1970-01-01. *)
Definition base_date : Z := - (7305 * 86400 * 1000000000).

(** [ts + td]. *)
Definition Timestamp_add (ts td : Z) : result Z :=
  if int64 (ts + td) then Ok (ts + td) else Raise OverflowError.

(** [pd.Timedelta(days=d)] as pandas 2 computes it: the float is scaled
    to nanoseconds, [int()] truncates it ([ValueError] on NaN,
    [OverflowError] on an infinity), and the count must fit 64 bits. *)
Definition Timedelta_days_ns (d : float) : result Z :=
  let ns := (d * 24 * 3600 * 1000000000)%float in
  if PrimFloat.is_nan ns then Raise ValueError
  else match trunc ns with
       | Some z => if int64 z then Ok z else Raise OverflowError
       | None => Raise OverflowError
       end.

End Np.
Import Np.

(* ===================================================================== *)
(** * data_processing/netcdf_processor.py *)
(* ===================================================================== *)

Module NetCDFProcessor.

(** What the processor sees of the file system.  [open_rb p] is
    [open(p, "rb")]: it raises, or gives the results of the successive
    [f.read(4096)] calls (after the last listed one, [read] returns
    the empty [bytes], the end of the file).  Closing a file or a
    dataset does not raise. *)
Record FileSystem : Type := {
  path_exists : string -> bool;               (* os.path.exists *)
  open_dataset : string -> result Dataset;    (* xr.open_dataset *)
  open_rb : string -> result (list (result string));
}.

(** The values of a measurement dictionary. *)
Inductive value : Type :=
| VNone
| VFloat (f : float)
| VInt (z : Z).

(** The profile metadata dictionary: [None] is an absent key. *)
Record metadata : Type := {
  platform_number : option string;
  float_id : option string;
  cycle_number : option Z;
  latitude : option float;
  longitude : option float;
  measurement_date : option Z;
  data_center : option string;
  file_hash : option string;
}.

(** [{}] *)
Definition no_metadata : metadata :=
  {| platform_number := None; float_id := None; cycle_number := None;
     latitude := None; longitude := None; measurement_date := None;
     data_center := None; file_hash := None |}.

(** [profile_metadata['file_hash'] = h] *)
Definition set_file_hash (h : string) (m : metadata) : metadata :=
  {| platform_number := platform_number m; float_id := float_id m;
     cycle_number := cycle_number m; latitude := latitude m;
     longitude := longitude m; measurement_date := measurement_date m;
     data_center := data_center m; file_hash := Some h |}.

(** [__init__] *)
Definition supported_formats : list string := [".nc"; ".netcdf"]%string.
Definition required_variables : list string := ["PRES"; "TEMP"; "PSAL"]%string.

(** [except Exception as e: log; return default] *)
Definition except_return {A} (default : A) (e : exn) : result A := Ok default.

(** ** validate_file *)

Definition validate_file_try (fs : FileSystem) (file_path : string)
  : result bool :=
  if negb (path_exists fs file_path) then Ok false
  else
    let '(_, ext) := splitext file_path in
    if negb (str_in (lower ext) supported_formats) then Ok false
    else
      let! ds := open_dataset fs file_path in
      if negb (existsb (has_variable ds) required_variables) then Ok false
      else Ok true.

Definition validate_file (fs : FileSystem) (file_path : string)
  : result bool :=
  try_except (validate_file_try fs file_path) (except_return false).

Section Processor.

(** Library functions the processor calls, taken as they are:
    [hashlib.md5(data).hexdigest()], [str(x)] of a NumPy element,
    [float(b)] of a byte string, [pd.Timedelta(days=d)] in
    nanoseconds, and the reading of [datetime.now()]. *)
Variable md5_hexdigest : string -> string.
Variable py_str : scalar -> string.
Variable float_of_bytes : string -> result float.
Variable Timedelta_days : float -> result Z.
Variable now : Z.

(** [database.schema.validate_measurement_data], which is not part of
    the sources at hand: any function of the measurement dictionary
    that answers or raises. *)
Variable validate_measurement_data : gmap string value -> result bool.

(** ** calculate_file_hash *)

(** [for chunk in iter(lambda: f.read(4096), b''): hash_md5.update(chunk)];
    the state of the hash object is the bytes it was fed. *)
Fixpoint update_chunks (reads : list (result string)) (hash_md5 : string)
  : result string :=
  match reads with
  | [] => Ok hash_md5
  | Ok chunk :: rest =>
      if String.eqb chunk EmptyString then Ok hash_md5
      else update_chunks rest (hash_md5 +:+ chunk)
  | Raise e :: _ => Raise e
  end.

Definition calculate_file_hash (fs : FileSystem) (file_path : string)
  : result string :=
  let hash_md5 := EmptyString in
  try_except
    (let! f := open_rb fs file_path in
     let! hash_md5 := update_chunks f hash_md5 in
     Ok (md5_hexdigest hash_md5))
    (except_return EmptyString).

(** ** extract_profile_metadata *)

(** [float(x)] *)
Definition py_float (x : scalar) : result float :=
  match x with
  | SFloat f => Ok f
  | SBytes b => float_of_bytes b
  end.

(** [pd.Timedelta(days=x)] *)
Definition Timedelta (x : scalar) : result Z :=
  match x with
  | SFloat d => Timedelta_days d
  | SBytes _ => Raise TypeError
  end.

(** [x.item() if hasattr(x, 'item') else (x[0] if len(x) > 0 else d)] *)
Definition item_or_first (a : ndarray) (default : scalar) : result scalar :=
  if hasattr_item a then item a
  else
    let! n := len a in
    if (0 <? n)%nat then getitem a 0 else Ok default.

Definition extract_profile_metadata_try (ds : Dataset) : result metadata :=
  (* Platform information *)
  let! platform_number :=
    match variables ds !! "PLATFORM_NUMBER"%string with
    | Some platform_num =>
        if hasattr_item platform_num
        then let! x := item platform_num in Ok (Some (py_str x))
        else
          let! n := len platform_num in
          if (0 <? n)%nat
          then let! x := getitem platform_num 0 in Ok (Some (py_str x))
          else Ok (Some EmptyString)
    | None => Ok None
    end in
  (* Float ID *)
  let float_id := default "unknown"%string platform_number in
  (* Cycle number *)
  let! cycle_number :=
    match variables ds !! "CYCLE_NUMBER"%string with
    | Some cycle_num =>
        if hasattr_item cycle_num
        then let! x := item cycle_num in py_int x
        else
          let! n := len cycle_num in
          if (0 <? n)%nat
          then let! x := getitem cycle_num 0 in py_int x
          else Ok 0
    | None => Ok 0
    end in
  (* Location *)
  let! latitude :=
    match variables ds !! "LATITUDE"%string with
    | Some lat =>
        let! x := (if hasattr_item lat then item lat else getitem lat 0) in
        let! f := py_float x in Ok (Some f)
    | None => Ok None
    end in
  let! longitude :=
    match variables ds !! "LONGITUDE"%string with
    | Some lon =>
        let! x := (if hasattr_item lon then item lon else getitem lon 0) in
        let! f := py_float x in Ok (Some f)
    | None => Ok None
    end in
  (* Date/Time *)
  let! measurement_date :=
    match variables ds !! "JULD"%string with
    | Some juld =>
        let! julian_day := item_or_first juld (SFloat 0) in
        let! nan := isnan julian_day in
        if negb nan then
          let! td := Timedelta julian_day in
          Timestamp_add base_date td
        else Ok now
    | None => Ok now
    end in
  (* Data center *)
  let! data_center :=
    if has_variable ds "DATA_CENTRE" || has_variable ds "DATA_CENTER" then
      let dc_var := if has_variable ds "DATA_CENTRE"
                    then "DATA_CENTRE"%string else "DATA_CENTER"%string in
      match variables ds !! dc_var with
      | Some dc =>
          if hasattr_item dc
          then let! x := item dc in Ok (py_str x)
          else
            let! n := len dc in
            if (0 <? n)%nat
            then let! x := getitem dc 0 in Ok (py_str x)
            else Ok "unknown"%string
      | None => Raise (KeyError dc_var)
      end
    else Ok "unknown"%string in
  Ok {| platform_number := platform_number;
        float_id := Some float_id;
        cycle_number := Some cycle_number;
        latitude := latitude;
        longitude := longitude;
        measurement_date := Some measurement_date;
        data_center := Some data_center;
        file_hash := None |}.

Definition extract_profile_metadata (ds : Dataset) : result metadata :=
  try_except (extract_profile_metadata_try ds) (except_return no_metadata).

(** ** extract_measurements *)

(** [measurement[var_name]] for one variable at level [i]. *)
Definition level_value (var_data : ndarray) (i : nat) : result value :=
  let! n := len var_data in
  if (i <? n)%nat then
    let! value := getitem var_data i in
    let! nan := isnan value in
    let! finite := (if negb nan then let! inf := isinf value in Ok (negb inf)
                    else Ok false) in
    if finite then let! f := py_float value in Ok (VFloat f)
    else Ok VNone
  else Ok VNone.

(** [for var_name, var_data in variables.items(): ...] *)
Fixpoint level_values (vars : list (string * ndarray)) (i : nat)
  (measurement : gmap string value) : result (gmap string value) :=
  match vars with
  | [] => Ok measurement
  | (var_name, var_data) :: rest =>
      let! v := level_value var_data i in
      level_values rest i (<[var_name := v]> measurement)
  end.

(** [measurement.get('pressure') is not None] and the assignment of
    the depth. *)
Definition set_depth (measurement : gmap string value)
  : gmap string value :=
  match measurement !! "pressure"%string with
  | None | Some VNone => measurement
  | Some pressure => <["depth"%string := pressure]> measurement
  end.

(** The quality flag of level [i]. *)
Definition quality_flag_at (quality_flags : gmap string ndarray) (i : nat)
  : result Z :=
  let qc_flag := 1 in
  match quality_flags !! "PRES"%string with
  | Some pres_qc =>
      let! n := len pres_qc in
      if (i <? n)%nat then
        try_except
          (let! x := getitem pres_qc i in py_int x)
          (fun e => match e with
                    | ValueError | TypeError => Ok 1
                    | _ => Raise e
                    end)
      else Ok qc_flag
  | None => Ok qc_flag
  end.

(** The body of [for i in range(n_levels)] up to the validation. *)
Definition build_measurement (vars : list (string * ndarray))
  (quality_flags : gmap string ndarray) (i : nat)
  : result (gmap string value) :=
  let! measurement := level_values vars i ∅ in
  let measurement := set_depth measurement in
  let! qc_flag := quality_flag_at quality_flags i in
  Ok (<["quality_flag"%string := VInt qc_flag]> measurement).

Fixpoint build_measurements (vars : list (string * ndarray))
  (quality_flags : gmap string ndarray) (levels : list nat)
  (measurements : list (gmap string value))
  : result (list (gmap string value)) :=
  match levels with
  | [] => Ok measurements
  | i :: rest =>
      let! measurement := build_measurement vars quality_flags i in
      let! valid := validate_measurement_data measurement in
      build_measurements vars quality_flags rest
        (if valid then measurements ++ [measurement] else measurements)
  end.

(** The number of levels; [None] when it cannot be determined. *)
Definition get_n_levels (ds : Dataset) : result (option nat) :=
  match dims ds !! "N_LEVELS"%string with
  | Some n => Ok (Some n)
  | None =>
      match variables ds !! "PRES"%string with
      | Some pres => let! n := len pres in Ok (Some n)
      | None => Ok None
      end
  end.

(** The optional parameters present in the file, in the order the
    source adds them to [variables]. *)
Definition optional_variables (ds : Dataset) : list (string * ndarray) :=
  omap (fun '(name, key) => (fun a => (key, a)) <$> variables ds !! name)
    [("DOXY", "oxygen"); ("NITRATE", "nitrate");
     ("PH_IN_SITU_TOTAL", "ph"); ("CHLA", "chlorophyll")]%string.

Definition qc_parameters : list string :=
  ["PRES"; "TEMP"; "PSAL"; "DOXY"; "NITRATE"; "PH_IN_SITU_TOTAL";
   "CHLA"]%string.

Definition get_quality_flags (ds : Dataset) : gmap string ndarray :=
  foldl (fun quality_flags param =>
           match variables ds !! (param +:+ "_QC")%string with
           | Some qc => <[param := qc]> quality_flags
           | None => quality_flags
           end) ∅ qc_parameters.

Definition extract_measurements_try (ds : Dataset)
  : result (list (gmap string value)) :=
  let! n_levels := get_n_levels ds in
  match n_levels with
  | None => Ok []
  | Some n_levels =>
      match variables ds !! "PRES"%string with
      | None => Ok []
      | Some pres =>
          match variables ds !! "TEMP"%string with
          | None => Ok []
          | Some temp =>
              match variables ds !! "PSAL"%string with
              | None => Ok []
              | Some psal =>
                  let vars := [("pressure"%string, pres);
                               ("temperature"%string, temp);
                               ("salinity"%string, psal)]
                                ++ optional_variables ds in
                  let quality_flags := get_quality_flags ds in
                  build_measurements vars quality_flags
                    (seq 0 n_levels) []
              end
          end
      end
  end.

Definition extract_measurements (ds : Dataset)
  : result (list (gmap string value)) :=
  try_except (extract_measurements_try ds) (except_return []).

(** ** process_file *)

Definition process_file (fs : FileSystem) (file_path : string)
  : result (metadata * list (gmap string value)) :=
  try_except
    (let! valid := validate_file fs file_path in
     if negb valid then Raise ValueError
     else
       let! file_hash := calculate_file_hash fs file_path in
       let! ds := open_dataset fs file_path in
       let! profile_metadata := extract_profile_metadata ds in
       let profile_metadata := set_file_hash file_hash profile_metadata in
       let! measurements := extract_measurements ds in
       Ok (profile_metadata, measurements))
    (fun e => Raise e).

End Processor.

(** ** Notions used to state the properties *)

(** Whether a read fails before the end of the file is reached. *)
Fixpoint read_fails (reads : list (result string)) : bool :=
  match reads with
  | [] => false
  | Ok chunk :: rest =>
      if String.eqb chunk EmptyString then false else read_fails rest
  | Raise _ :: _ => true
  end.

(** The bytes of the file cannot be read: opening it fails, or a read
    does. *)
Definition unreadable (fs : FileSystem) (file_path : string) : bool :=
  match open_rb fs file_path with
  | Raise _ => true
  | Ok reads => read_fails reads
  end.

(** The quality flag of level [i] in the words of the specification:
    the pressure quality-control value at [i] when the companion array
    is present, covers [i] and the value parses as an integer; 1
    otherwise. *)
Definition specified_quality_flag (ds : Dataset) (i : nat) : Z :=
  match variables ds !! "PRES_QC"%string with
  | Some (Arr1 qc) =>
      match qc !! i with
      | Some x => match py_int x with
                  | Ok z => z
                  | Raise _ => 1
                  end
      | None => 1
      end
  | _ => 1
  end.

(** The numeric fields of a measurement dictionary. *)
Definition numeric_fields : list string :=
  ["pressure"; "temperature"; "salinity"; "depth";
   "oxygen"; "nitrate"; "ph"; "chlorophyll"]%string.

(** A field that is a finite float, [None], or not there. *)
Definition finite_or_absent (v : option value) : bool :=
  match v with
  | None | Some VNone => true
  | Some (VFloat f) => is_finite f
  | Some (VInt _) => false
  end.

End NetCDFProcessor.

(* ===================================================================== *)
(** * database/connection.py *)
(* ===================================================================== *)

Module DatabaseManager.
Import NetCDFProcessor.

(** ** The schema of [_initialize_schema] *)

(** A value of a [DECIMAL(precision, scale)] column: NaN, or the number
    [unscaled / 10^scale]. *)
Inductive numeric : Type :=
| NaN
| Dec (unscaled : Z).

(** A row of [argo_profiles] ([created_at], which only the engine
    writes, is left out).  The parameters bound by [insert_profile] are
    never [None], so no column of an inserted row is NULL. *)
Record profile_row : Type := {
  p_id : Z;                       (* SERIAL PRIMARY KEY *)
  p_float_id : string;            (* VARCHAR(50) NOT NULL *)
  p_cycle_number : Z;             (* INTEGER *)
  p_latitude : numeric;           (* DECIMAL(10, 6) *)
  p_longitude : numeric;          (* DECIMAL(10, 6) *)
  p_measurement_date : Z;         (* TIMESTAMP *)
  p_platform_number : string;     (* VARCHAR(50) *)
  p_data_center : string;         (* VARCHAR(10) *)
  p_file_hash : string;           (* VARCHAR(64) UNIQUE *)
}.

(** A row of [argo_measurements]; [None] is NULL. *)
Record measurement_row : Type := {
  m_id : Z;                       (* SERIAL PRIMARY KEY *)
  m_profile_id : option Z;        (* INTEGER REFERENCES argo_profiles(id) *)
  m_pressure : option numeric;    (* DECIMAL(10, 4), as the seven below *)
  m_temperature : option numeric;
  m_salinity : option numeric;
  m_depth : option numeric;
  m_oxygen : option numeric;
  m_nitrate : option numeric;
  m_ph : option numeric;
  m_chlorophyll : option numeric;
  m_quality_flag : option Z;      (* INTEGER DEFAULT 1 *)
}.

(** The store behind the connection: the two tables in insertion order
    and the next value of each [SERIAL] sequence.  The connection is
    auto-committing and stays up. *)
Record database : Type := {
  argo_profiles : list profile_row;
  argo_profiles_id_seq : Z;
  argo_measurements : list measurement_row;
  argo_measurements_id_seq : Z;
}.

Definition empty_database : database :=
  {| argo_profiles := []; argo_profiles_id_seq := 1;
     argo_measurements := []; argo_measurements_id_seq := 1 |}.

(** ** Column types *)

Fixpoint all_spaces (s : string) : bool :=
  match s with
  | EmptyString => true
  | String c r => Ascii.eqb c " "%char && all_spaces r
  end.

(** Assignment to [VARCHAR(n)]: an over-long value is an error unless
    the excess is spaces, which are cut. *)
Definition varchar (n : nat) (s : string) : result string :=
  if (String.length s <=? n)%nat then Ok s
  else if all_spaces (substring n (String.length s - n) s)
       then Ok (substring 0 n s)
       else Raise DataError.

(** Assignment to [INTEGER]. *)
Definition integer (z : Z) : result Z :=
  if (- 2 ^ 31 <=? z) && (z <? 2 ^ 31) then Ok z else Raise DataError.

(** The finite float [f] times [10^scale], rounded to the nearest
    integer, half away from zero. *)
Definition round_half_away (scale : Z) (f : float) : Z :=
  match Prim2SF f with
  | S754_finite s m e =>
      let n := Zpos m * 10 ^ scale in
      let a := match e with
               | Zneg k => Z.shiftr (n + 2 ^ (Zpos k - 1)) (Zpos k)
               | _ => n * 2 ^ e
               end in
      if s then - a else a
  | _ => 0
  end.

(** Assignment of a float to an [INTEGER] column: the literal is a
    numeric one, rounded half away from zero. *)
Definition integer_of_float (f : float) : result Z :=
  if is_finite f then integer (round_half_away 0 f) else Raise DataError.

Section Engine.

(** psycopg2 writes a finite float as its shortest decimal literal,
    which the engine rounds to the scale of the column:
    [round_literal scale f] is the unscaled result. *)
Variable round_literal : Z -> float -> Z.

(** Assignment of a float to [DECIMAL(precision, scale)]: NaN is a
    value of the type, an infinity is not, and the rounded value must
    have at most [precision] digits. *)
Definition decimal (precision scale : Z) (f : float) : result numeric :=
  if PrimFloat.is_nan f then Ok NaN
  else if PrimFloat.is_infinity f then Raise DataError
  else
    let n := round_literal scale f in
    if Z.abs n <? 10 ^ precision then Ok (Dec n) else Raise DataError.

(** A measurement value assigned to a [DECIMAL(10, 4)] column. *)
Definition decimal_10_4 (v : value) : result (option numeric) :=
  match v with
  | VNone => Ok None
  | VFloat f => let! d := decimal 10 4 f in Ok (Some d)
  | VInt z => if Z.abs z <? 10 ^ 6 then Ok (Some (Dec (z * 10 ^ 4)))
              else Raise DataError
  end.

(** A measurement value assigned to an [INTEGER] column. *)
Definition integer_of_value (v : value) : result (option Z) :=
  match v with
  | VNone => Ok None
  | VInt z => let! z := integer z in Ok (Some z)
  | VFloat f => let! z := integer_of_float f in Ok (Some z)
  end.

(** ** Queries *)

(** [%(key)s]: psycopg2 raises [KeyError] for a parameter that the
    dictionary does not have. *)
Definition param {A} (key : string) (v : option A) : result A :=
  match v with
  | Some a => Ok a
  | None => Raise (KeyError key)
  end.

Definition dq : string := String (ascii_of_nat 34) EmptyString.
Definition nl : string := String (ascii_of_nat 10) EmptyString.

(** The message of the engine for a second row with the same
    [file_hash]; the constraint of a [UNIQUE] column is named
    [<table>_<column>_key]. *)
Definition unique_violation (h : string) : exn :=
  IntegrityError
    ("duplicate key value violates unique constraint " +:+ dq
     +:+ "argo_profiles_file_hash_key" +:+ dq +:+ nl
     +:+ "DETAIL:  Key (file_hash)=(" +:+ h +:+ ") already exists."
     +:+ nl).

Definition has_file_hash (h : string) (r : profile_row) : bool :=
  String.eqb (p_file_hash r) h.

(** [get_profile_id_by_hash]:
    [SELECT id FROM argo_profiles WHERE file_hash = %s], [fetchone()]. *)
Definition get_profile_id_by_hash (db : database) (file_hash : string)
  : option Z :=
  p_id <$> find (has_file_hash file_hash) (argo_profiles db).

Definition take_profile_id (db : database) : database :=
  {| argo_profiles := argo_profiles db;
     argo_profiles_id_seq := argo_profiles_id_seq db + 1;
     argo_measurements := argo_measurements db;
     argo_measurements_id_seq := argo_measurements_id_seq db |}.

Definition add_profile_row (r : profile_row) (db : database) : database :=
  {| argo_profiles := argo_profiles db ++ [r];
     argo_profiles_id_seq := argo_profiles_id_seq db;
     argo_measurements := argo_measurements db;
     argo_measurements_id_seq := argo_measurements_id_seq db |}.

(** The bound and coerced values of the [INSERT] of [insert_profile],
    as a row with the given identifier. *)
Definition profile_values (id : Z) (profile_data : metadata)
  : result profile_row :=
  let! float_id := param "float_id" (float_id profile_data) in
  let! cycle_number := param "cycle_number" (cycle_number profile_data) in
  let! latitude := param "latitude" (latitude profile_data) in
  let! longitude := param "longitude" (longitude profile_data) in
  let! measurement_date :=
    param "measurement_date" (measurement_date profile_data) in
  let! platform_number :=
    param "platform_number" (platform_number profile_data) in
  let! data_center := param "data_center" (data_center profile_data) in
  let! file_hash := param "file_hash" (file_hash profile_data) in
  let! float_id := varchar 50 float_id in
  let! cycle_number := integer cycle_number in
  let! latitude := decimal 10 6 latitude in
  let! longitude := decimal 10 6 longitude in
  let! platform_number := varchar 50 platform_number in
  let! data_center := varchar 10 data_center in
  let! file_hash := varchar 64 file_hash in
  Ok {| p_id := id; p_float_id := float_id;
        p_cycle_number := cycle_number; p_latitude := latitude;
        p_longitude := longitude; p_measurement_date := measurement_date;
        p_platform_number := platform_number;
        p_data_center := data_center; p_file_hash := file_hash |}.

(** [cursor.execute(insert_query, profile_data)] and [fetchone()[0]].
    The sequence value drawn for a row that the unique index then
    refuses is not given back. *)
Definition execute_insert_profile (db : database) (profile_data : metadata)
  : database * result Z :=
  match profile_values (argo_profiles_id_seq db) profile_data with
  | Raise e => (db, Raise e)
  | Ok row =>
      let db := take_profile_id db in
      if existsb (has_file_hash (p_file_hash row)) (argo_profiles db)
      then (db, Raise (unique_violation (p_file_hash row)))
      else (add_profile_row row db, Ok (p_id row))
  end.

(** [insert_profile] *)
Definition insert_profile (db : database) (profile_data : metadata)
  : database * result (option Z) :=
  match execute_insert_profile db profile_data with
  | (db, Ok profile_id) => (db, Ok (Some profile_id))
  | (db, Raise (IntegrityError e)) =>
      if contains "file_hash" e
      then (db, let! h := param "file_hash" (file_hash profile_data) in
                Ok (get_profile_id_by_hash db h))
      else (db, Raise (IntegrityError e))
  | (db, Raise e) => (db, Raise e)
  end.

(** [INSERT INTO argo_measurements ...] for one dictionary: the bound
    and coerced values as a row with the given identifier. *)
Definition measurement_values (id : Z) (measurement : gmap string value)
  : result measurement_row :=
  let get key := param key (measurement !! key) in
  let! profile_id := get "profile_id"%string in
  let! pressure := get "pressure"%string in
  let! temperature := get "temperature"%string in
  let! salinity := get "salinity"%string in
  let! depth := get "depth"%string in
  let! oxygen := get "oxygen"%string in
  let! nitrate := get "nitrate"%string in
  let! ph := get "ph"%string in
  let! chlorophyll := get "chlorophyll"%string in
  let! quality_flag := get "quality_flag"%string in
  let! profile_id := integer_of_value profile_id in
  let! pressure := decimal_10_4 pressure in
  let! temperature := decimal_10_4 temperature in
  let! salinity := decimal_10_4 salinity in
  let! depth := decimal_10_4 depth in
  let! oxygen := decimal_10_4 oxygen in
  let! nitrate := decimal_10_4 nitrate in
  let! ph := decimal_10_4 ph in
  let! chlorophyll := decimal_10_4 chlorophyll in
  let! quality_flag := integer_of_value quality_flag in
  Ok {| m_id := id; m_profile_id := profile_id; m_pressure := pressure;
        m_temperature := temperature; m_salinity := salinity;
        m_depth := depth; m_oxygen := oxygen; m_nitrate := nitrate;
        m_ph := ph; m_chlorophyll := chlorophyll;
        m_quality_flag := quality_flag |}.

Definition take_measurement_id (db : database) : database :=
  {| argo_profiles := argo_profiles db;
     argo_profiles_id_seq := argo_profiles_id_seq db;
     argo_measurements := argo_measurements db;
     argo_measurements_id_seq := argo_measurements_id_seq db + 1 |}.

Definition add_measurement_row (r : measurement_row) (db : database)
  : database :=
  {| argo_profiles := argo_profiles db;
     argo_profiles_id_seq := argo_profiles_id_seq db;
     argo_measurements := argo_measurements db ++ [r];
     argo_measurements_id_seq := argo_measurements_id_seq db |}.

(** [REFERENCES argo_profiles(id)]: a non-NULL [profile_id] must be
    the identifier of a profile row. *)
Definition references_profile (db : database) (profile_id : option Z)
  : bool :=
  match profile_id with
  | None => true
  | Some id => existsb (fun r => p_id r =? id) (argo_profiles db)
  end.

Definition foreign_key_violation : exn :=
  IntegrityError
    ("insert or update on table " +:+ dq +:+ "argo_measurements" +:+ dq
     +:+ " violates foreign key constraint " +:+ dq
     +:+ "argo_measurements_profile_id_fkey" +:+ dq +:+ nl).

Definition execute_insert_measurement (db : database)
  (measurement : gmap string value) : database * result unit :=
  match measurement_values (argo_measurements_id_seq db) measurement with
  | Raise e => (db, Raise e)
  | Ok row =>
      let db := take_measurement_id db in
      if references_profile db (m_profile_id row)
      then (add_measurement_row row db, Ok tt)
      else (db, Raise foreign_key_violation)
  end.

(** [cursor.executemany]: one statement per dictionary, each
    committed on its own; the first failure stops the loop. *)
Fixpoint executemany (db : database)
  (measurements : list (gmap string value)) : database * result unit :=
  match measurements with
  | [] => (db, Ok tt)
  | measurement :: rest =>
      match execute_insert_measurement db measurement with
      | (db, Ok _) => executemany db rest
      | (db, Raise e) => (db, Raise e)
      end
  end.

Definition value_of_id (profile_id : option Z) : value :=
  match profile_id with
  | Some id => VInt id
  | None => VNone
  end.

(** [insert_measurements] *)
Definition insert_measurements (db : database) (profile_id : option Z)
  (measurements : list (gmap string value)) : database * result unit :=
  let measurements :=
    map (fun measurement =>
           <["profile_id"%string := value_of_id profile_id]> measurement)
      measurements in
  executemany db measurements.

End Engine.

(** ** Notions used to state the properties *)

(** What the binding and the coercion of the values can raise. *)
Definition binding_error (e : exn) : Prop :=
  (exists key, e = KeyError key) \/ e = DataError.

(** What holds of every store that the manager has built: identifiers
    come from the sequence, which starts at 1, and a stored file hash
    fits its column. *)
Definition well_formed (db : database) : Prop :=
  0 < argo_profiles_id_seq db
  /\ Forall (fun r => 0 < p_id r < argo_profiles_id_seq db
                      /\ (String.length (p_file_hash r) <= 64)%nat)
       (argo_profiles db).

End DatabaseManager.

(* ===================================================================== *)
(** * pages/1_Data_Ingestion.py *)
(* ===================================================================== *)

Module DataIngestion.
Import NetCDFProcessor DatabaseManager.

(** The collaborators of the page that are not part of the sources at
    hand: [pd.DataFrame] and [DataFrame.to_dict('records')], the
    [DataTransformer] and the [FAISSManager].  Each is any function that
    answers or raises; the vector index, which nothing here reads, has
    no state of its own. *)
Record Components : Type := {
  DataFrame : Type;
  Summary : Type;
  pd_DataFrame : list (gmap string value) -> DataFrame;
  to_dict_records : DataFrame -> list (gmap string value);
  clean_measurements : DataFrame -> result DataFrame;
  interpolate_missing_depth : DataFrame -> result DataFrame;
  create_profile_summary : DataFrame -> metadata -> result Summary;
  add_profile : Summary -> option Z -> result unit;
  save_index : result unit;
}.

(** Computations on the store that may raise. *)
Definition Db (A : Type) : Type := database -> database * result A.

Definition ret {A} (a : A) : Db A := fun db => (db, Ok a).
Definition lift {A} (c : result A) : Db A := fun db => (db, c).
Definition bindDb {A B} (c : Db A) (k : A -> Db B) : Db B :=
  fun db => match c db with
            | (db, Ok a) => k a db
            | (db, Raise e) => (db, Raise e)
            end.

Notation "'let*' x ':=' c 'in' k" := (bindDb c (fun x => k))
  (at level 10, x pattern, c at level 100, k at level 200).

(** The entry of [results] for one uploaded file. *)
Inductive file_result : Type :=
| skipped (profile_id : Z)
| success (profile_id : option Z) (measurement_count : nat)
| error (e : exn).

(** [if existing_profile:] *)
Definition truthy (profile_id : option Z) : bool :=
  match profile_id with
  | Some id => negb (id =? 0)
  | None => false
  end.

Section Page.

Variable round_literal : Z -> float -> Z.
Variable st : Components.

(** [store_data_in_database]; its [except] clause logs and re-raises. *)
Definition store_data_in_database (profile_metadata : metadata)
  (measurements : list (gmap string value)) : Db (option Z) :=
  let* profile_id :=
    (fun db => insert_profile round_literal db profile_metadata) in
  match measurements with
  | _ :: _ =>
      let measurements_df := pd_DataFrame st measurements in
      let* cleaned_measurements :=
        lift (clean_measurements st measurements_df) in
      let* cleaned_measurements :=
        lift (interpolate_missing_depth st cleaned_measurements) in
      let clean_measurements_list :=
        to_dict_records st cleaned_measurements in
      let* _ := (fun db => insert_measurements round_literal db profile_id
                             clean_measurements_list) in
      let* profile_summary :=
        lift (create_profile_summary st cleaned_measurements
                profile_metadata) in
      let* _ := lift (add_profile st profile_summary profile_id) in
      let* _ := lift (save_index st) in
      ret profile_id
  | [] => ret profile_id
  end.

(** The body of the loop of [main] over the uploaded files, for one
    file; [processed] is what [process_uploaded_file] did. *)
Definition process_one (skip_duplicates : bool)
  (processed : result (metadata * list (gmap string value)))
  (db : database) : database * file_result :=
  let attempt : Db file_result :=
    let* data := lift processed in
    let '(profile_metadata, measurements) := data in
    let* existing_profile :=
      (if skip_duplicates then
         let* h := lift (param "file_hash" (file_hash profile_metadata)) in
         fun db => (db, Ok (get_profile_id_by_hash db h))
       else ret None) in
    match existing_profile with
    | Some id =>
        if truthy existing_profile then ret (skipped id)
        else
          let* profile_id :=
            store_data_in_database profile_metadata measurements in
          ret (success profile_id (length measurements))
    | None =>
        let* profile_id :=
          store_data_in_database profile_metadata measurements in
        ret (success profile_id (length measurements))
    end in
  match attempt db with
  | (db, Ok r) => (db, r)
  | (db, Raise e) => (db, error e)
  end.

End Page.

End DataIngestion.

(* ===================================================================== *)
(** * search_profiles_by_location *)
(* ===================================================================== *)

Module LocationSearch.
Import DatabaseManager.

(** The engine computes the query in [double precision], binary64, and
    checks the result of each operation; an error in one of them ends the
    query.  The latitude, the longitude and the radius of the call are
    doubles: the adapter writes each as its shortest decimal literal,
    which the engine reads back as the same double where [radians] and
    the comparison take it.  The errors of the engine reach Python as
    [DataError]. *)

(** [float8_mul], [float8_pl] and [float8_mi] of the engine: an infinite
    result of finite operands is an overflow, a zero product of
    operands that are not zero an underflow, and each is an error. *)
Definition float8_mul (val1 val2 : float) : result float :=
  let r := PrimFloat.mul val1 val2 in
  if is_infinity r && negb (is_infinity val1) && negb (is_infinity val2)
  then Raise DataError
  else if PrimFloat.eqb r 0 && negb (PrimFloat.eqb val1 0)
          && negb (PrimFloat.eqb val2 0)
       then Raise DataError
       else Ok r.

Definition float8_pl (val1 val2 : float) : result float :=
  let r := PrimFloat.add val1 val2 in
  if is_infinity r && negb (is_infinity val1) && negb (is_infinity val2)
  then Raise DataError
  else Ok r.

Definition float8_mi (val1 val2 : float) : result float :=
  let r := PrimFloat.sub val1 val2 in
  if is_infinity r && negb (is_infinity val1) && negb (is_infinity val2)
  then Raise DataError
  else Ok r.

(** [float8_le]: NaN is above every number and equal to itself. *)
Definition float8_le (val1 val2 : float) : bool :=
  if is_nan val2 then true
  else negb (is_nan val1) && PrimFloat.leb val1 val2.

(** A [DECIMAL(10, 6)] value as [double precision]: the nearest double
    of [unscaled / 10^6]; the unscaled value has at most ten digits, so
    it is a double itself. *)
Definition float8_of_Z (n : Z) : float :=
  if n <? 0 then PrimFloat.opp (PrimFloat.of_uint63 (Uint63.of_Z (- n)))
  else PrimFloat.of_uint63 (Uint63.of_Z n).

Definition float8_of_numeric (d : numeric) : float :=
  match d with
  | Dec n => PrimFloat.div (float8_of_Z n) 1000000
  | NaN => nan
  end.

(** The constant 0.0174532925199432957692 of the engine, the double
    nearest to pi / 180. *)
Definition RADIANS_PER_DEGREE : float := 0x1.1df46a2529d39p-6%float.

(** [radians(x)] *)
Definition radians (arg1 : float) : result float :=
  float8_mul arg1 RADIANS_PER_DEGREE.

Section Engine.

(** [cos], [sin] and [acos] of the C library, on doubles. *)
Variable cos : float -> float.
Variable sin : float -> float.
Variable acos : float -> float.

(** [cos(x)] and [sin(x)] of the engine: NaN for NaN, an error for an
    infinite argument. *)
Definition dcos (arg1 : float) : result float :=
  if is_nan arg1 then Ok nan
  else if is_infinity arg1 then Raise DataError
  else
    let r := cos arg1 in
    if is_infinity r then Raise DataError else Ok r.

Definition dsin (arg1 : float) : result float :=
  if is_nan arg1 then Ok nan
  else if is_infinity arg1 then Raise DataError
  else
    let r := sin arg1 in
    if is_infinity r then Raise DataError else Ok r.

(** [acos(x)] of the engine: NaN for NaN, and the error [input is out of
    range] for an argument below -1 or above 1. *)
Definition dacos (arg1 : float) : result float :=
  if is_nan arg1 then Ok nan
  else if PrimFloat.ltb arg1 (-1) || PrimFloat.ltb 1 arg1
       then Raise DataError
       else
         let r := acos arg1 in
         if is_infinity r then Raise DataError else Ok r.

(** The argument of [acos] in the distance expression:
    [cos(radians(%s)) * cos(radians(latitude)) *
     cos(radians(longitude) - radians(%s)) + sin(radians(%s)) *
     sin(radians(latitude))]. *)
Definition acos_argument (p1 p2 p3 : float) (latitude longitude : float)
  : result float :=
  let! r1 := radians p1 in
  let! c1 := dcos r1 in
  let! r_latitude := radians latitude in
  let! c2 := dcos r_latitude in
  let! c12 := float8_mul c1 c2 in
  let! r_longitude := radians longitude in
  let! r2 := radians p2 in
  let! difference := float8_mi r_longitude r2 in
  let! c3 := dcos difference in
  let! c123 := float8_mul c12 c3 in
  let! r3 := radians p3 in
  let! s1 := dsin r3 in
  let! r_latitude := radians latitude in
  let! s2 := dsin r_latitude in
  let! s12 := float8_mul s1 s2 in
  float8_pl c123 s12.

(** The distance expression, which the text of the query has twice:
    [6371 * acos(...)]. *)
Definition great_circle (p1 p2 p3 : float) (latitude longitude : float)
  : result float :=
  let! x := acos_argument p1 p2 p3 latitude longitude in
  let! a := dacos x in
  float8_mul 6371 a.

(** The [n]-th [%s] of the query. *)
Definition placeholder (params : list float) (n : nat) : float :=
  nth n params 0%float.

(** [... AS distance_km] *)
Definition select_distance (params : list float) (latitude longitude : float)
  : result float :=
  great_circle (placeholder params 0) (placeholder params 1)
    (placeholder params 2) latitude longitude.

(** [WHERE ... <= %s] *)
Definition where_distance (params : list float) (latitude longitude : float)
  : result float :=
  great_circle (placeholder params 3) (placeholder params 4)
    (placeholder params 5) latitude longitude.

Definition where_clause (params : list float) (latitude longitude : float)
  : result bool :=
  let! d := where_distance params latitude longitude in
  Ok (float8_le d (placeholder params 6)).

(** A row of the result. *)
Record found : Type := {
  id : Z;
  float_id : string;
  cycle_number : Z;
  latitude : numeric;
  longitude : numeric;
  measurement_date : Z;
  distance_km : float;
}.

(** [SELECT ... FROM argo_profiles WHERE ...] on one row. *)
Definition select_where (params : list float) (r : profile_row)
  : result (option found) :=
  let la := float8_of_numeric (p_latitude r) in
  let lo := float8_of_numeric (p_longitude r) in
  let! keep := where_clause params la lo in
  if keep then
    let! d := select_distance params la lo in
    Ok (Some {| id := p_id r; float_id := p_float_id r;
                cycle_number := p_cycle_number r;
                latitude := p_latitude r; longitude := p_longitude r;
                measurement_date := p_measurement_date r;
                distance_km := d |})
  else Ok None.

(** The scan of the table: an error on one row ends the query. *)
Fixpoint scan (params : list float) (rows : list profile_row)
  : result (list found) :=
  match rows with
  | [] => Ok []
  | r :: rest =>
      let! selected := select_where params r in
      let! others := scan params rest in
      Ok (match selected with
          | Some x => x :: others
          | None => others
          end)
  end.

(** [ORDER BY distance_km]: ascending in the order of [float8_le]. *)
Fixpoint insert_by_distance (x : found) (l : list found) : list found :=
  match l with
  | [] => [x]
  | y :: rest =>
      if float8_le (distance_km x) (distance_km y) then x :: l
      else y :: insert_by_distance x rest
  end.

Fixpoint order_by_distance (l : list found) : list found :=
  match l with
  | [] => []
  | x :: rest => insert_by_distance x (order_by_distance rest)
  end.

(** The query of [search_profiles_by_location], with its [LIMIT 50]. *)
Definition query (params : list float) (rows : list profile_row)
  : result (list found) :=
  let! selected := scan params rows in
  Ok (take 50 (order_by_distance selected)).

(** [search_profiles_by_location]; when the engine refuses the query the
    [except] clause returns an empty frame. *)
Definition search_profiles_by_location (db : database)
  (lat lon radius_km : float) : list found :=
  let params := [lat; lon; lat; lat; lon; lat; radius_km] in
  match query params (argo_profiles db) with
  | Ok rows => rows
  | Raise _ => []
  end.

End Engine.

(** ** Notions used to state the properties *)

(** Rows in ascending order of distance. *)
Definition ascending : list found -> Prop :=
  StronglySorted
    (fun a b => float8_le (distance_km a) (distance_km b) = true).

(** The place of a double in the order of [float8_le]: the negative
    infinity, the negative numbers, the zeros, the positive numbers, the
    positive infinity, NaN. *)
Definition rank (f : spec_float) : Z * Z * Z :=
  match f with
  | S754_nan => (3, 0, 0)
  | S754_infinity true => (-2, 0, 0)
  | S754_infinity false => (2, 0, 0)
  | S754_zero _ => (0, 0, 0)
  | S754_finite true m e => (-1, - e, Z.neg m)
  | S754_finite false m e => (1, e, Z.pos m)
  end.

Definition rank_le (a b : Z * Z * Z) : Prop :=
  a.1.1 < b.1.1
  \/ (a.1.1 = b.1.1
      /\ (a.1.2 < b.1.2 \/ (a.1.2 = b.1.2 /\ a.2 <= b.2))).

End LocationSearch.

(* ===================================================================== *)
(** * The read queries of database/connection.py *)
(* ===================================================================== *)

Module Queries.
Import NetCDFProcessor DatabaseManager.
Import Stdlib.QArith.QArith_base.
Local Open Scope Z_scope.

(** The [filters] dictionary of [get_profiles]: [None] is an absent key
    (or a [None] value, which the function treats alike).  A bound is a
    finite number, by the value of the literal that is sent for it;
    [profile_ids] is a key that a caller passes and no line of the
    function reads. *)
Record filter_dict : Type := {
  float_id_filter : option string;
  start_date : option Z;
  end_date : option Z;
  min_lat : option Q;
  max_lat : option Q;
  min_lon : option Q;
  max_lon : option Q;
  profile_ids : option (list Z);
}.

Definition given {A} (v : option A) : bool :=
  match v with
  | Some _ => true
  | None => false
  end.

(** [if filters:] *)
Definition nonempty_dict (f : filter_dict) : bool :=
  given (float_id_filter f) || given (start_date f)
  || given (end_date f) || given (min_lat f)
  || given (max_lat f) || given (min_lon f)
  || given (max_lon f) || given (profile_ids f).

(** [column >= %s] and [column <= %s] on a [DECIMAL(10, 6)] column; the
    engine orders NaN above every number. *)
Definition numeric_ge (d : numeric) (q : Q) : bool :=
  match d with
  | Dec n => Qle_bool q (Qmake n 1000000)
  | NaN => true
  end.

Definition numeric_le (d : numeric) (q : Q) : bool :=
  match d with
  | Dec n => Qle_bool (Qmake n 1000000) q
  | NaN => false
  end.

(** [where_conditions], each with its parameter, in the order the
    function appends them. *)
Definition where_conditions (filters : option filter_dict)
  : list (profile_row -> bool) :=
  match filters with
  | Some f =>
      if nonempty_dict f then
        (match float_id_filter f with
         | Some s => if String.eqb s EmptyString then []
                     else [fun r => String.eqb (p_float_id r) s]
         | None => []
         end)
        ++ (match start_date f with
            | Some t => [fun r => t <=? p_measurement_date r]
            | None => []
            end)
        ++ (match end_date f with
            | Some t => [fun r => p_measurement_date r <=? t]
            | None => []
            end)
        ++ (match min_lat f with
            | Some q => [fun r => numeric_ge (p_latitude r) q]
            | None => []
            end)
        ++ (match max_lat f with
            | Some q => [fun r => numeric_le (p_latitude r) q]
            | None => []
            end)
        ++ (match min_lon f with
            | Some q => [fun r => numeric_ge (p_longitude r) q]
            | None => []
            end)
        ++ (match max_lon f with
            | Some q => [fun r => numeric_le (p_longitude r) q]
            | None => []
            end)
      else []
  | None => []
  end.

(** [" WHERE " + " AND ".join(where_conditions)] on one row. *)
Definition where_profile (filters : option filter_dict) (r : profile_row)
  : bool :=
  forallb (fun condition => condition r) (where_conditions filters).

(** [ORDER BY measurement_date DESC]; rows of the same date keep the
    order of the scan. *)
Fixpoint insert_by_date (x : profile_row) (l : list profile_row)
  : list profile_row :=
  match l with
  | [] => [x]
  | y :: rest =>
      if p_measurement_date y <=? p_measurement_date x then x :: l
      else y :: insert_by_date x rest
  end.

Fixpoint order_by_date (l : list profile_row) : list profile_row :=
  match l with
  | [] => []
  | x :: rest => insert_by_date x (order_by_date rest)
  end.

(** A row of the result of [get_profiles] ([created_at] left out, as in
    the table). *)
Record profile_info : Type := {
  q_id : Z;
  q_float_id : string;
  q_cycle_number : Z;
  q_latitude : numeric;
  q_longitude : numeric;
  q_measurement_date : Z;
  q_platform_number : string;
  q_data_center : string;
}.

Definition select_profile (r : profile_row) : profile_info :=
  {| q_id := p_id r; q_float_id := p_float_id r;
     q_cycle_number := p_cycle_number r; q_latitude := p_latitude r;
     q_longitude := p_longitude r;
     q_measurement_date := p_measurement_date r;
     q_platform_number := p_platform_number r;
     q_data_center := p_data_center r |}.

(** [get_profiles]; the engine refuses a negative [LIMIT] or [OFFSET],
    and the [except] clause then returns an empty frame. *)
Definition get_profiles (db : database) (limit offset : Z)
  (filters : option filter_dict) : list profile_info :=
  if (limit <? 0) || (offset <? 0) then []
  else
    select_profile
      <$> take (Z.to_nat limit)
            (drop (Z.to_nat offset)
               (order_by_date
                  (filter (fun r => where_profile filters r = true)
                     (argo_profiles db)))).

(** A row of the result of [get_measurements_by_profile]. *)
Record measured : Type := {
  pressure : option numeric;
  temperature : option numeric;
  salinity : option numeric;
  depth : option numeric;
  oxygen : option numeric;
  nitrate : option numeric;
  ph : option numeric;
  chlorophyll : option numeric;
  quality_flag : option Z;
}.

Definition select_measurement (r : measurement_row) : measured :=
  {| pressure := m_pressure r; temperature := m_temperature r;
     salinity := m_salinity r; depth := m_depth r; oxygen := m_oxygen r;
     nitrate := m_nitrate r; ph := m_ph r; chlorophyll := m_chlorophyll r;
     quality_flag := m_quality_flag r |}.

(** The ascending order of the engine on a nullable numeric column:
    numbers, then NaN, then NULL. *)
Definition depth_leb (a b : option numeric) : bool :=
  match a, b with
  | _, None => true
  | None, Some _ => false
  | Some _, Some NaN => true
  | Some NaN, Some (Dec _) => false
  | Some (Dec x), Some (Dec y) => x <=? y
  end.

(** [ORDER BY depth] *)
Fixpoint insert_by_depth (x : measurement_row) (l : list measurement_row)
  : list measurement_row :=
  match l with
  | [] => [x]
  | y :: rest =>
      if depth_leb (m_depth x) (m_depth y) then x :: l
      else y :: insert_by_depth x rest
  end.

Fixpoint order_by_depth (l : list measurement_row) : list measurement_row :=
  match l with
  | [] => []
  | x :: rest => insert_by_depth x (order_by_depth rest)
  end.

Definition of_profile (profile_id : Z) (r : measurement_row) : bool :=
  match m_profile_id r with
  | Some id => id =? profile_id
  | None => false
  end.

(** [get_measurements_by_profile] *)
Definition get_measurements_by_profile (db : database) (profile_id : Z)
  : list measured :=
  select_measurement
    <$> order_by_depth
          (filter (fun r => of_profile profile_id r = true)
             (argo_measurements db)).

(** [get_total_records] *)
Definition get_total_records (db : database) : nat :=
  length (argo_profiles db).

(** [MIN] and [MAX]: the best element of a column under an order, none
    on an empty table. *)
Definition best {A} (better : A -> A -> bool) (l : list A) : option A :=
  match l with
  | [] => None
  | x :: rest => Some (foldl (fun b y => if better y b then y else b) x rest)
  end.

Definition numeric_ltb (a b : numeric) : bool :=
  match a, b with
  | Dec x, Dec y => x <? y
  | Dec _, NaN => true
  | NaN, _ => false
  end.

(** The dictionary that [get_summary_statistics] returns. *)
Record summary_statistics : Type := {
  total_profiles : nat;
  total_measurements : nat;
  unique_floats : nat;
  earliest : option Z;
  latest : option Z;
  min_latitude : option numeric;
  max_latitude : option numeric;
  min_longitude : option numeric;
  max_longitude : option numeric;
}.

(** [get_summary_statistics] *)
Definition get_summary_statistics (db : database) : summary_statistics :=
  let profiles := argo_profiles db in
  {| total_profiles := length profiles;
     total_measurements := length (argo_measurements db);
     unique_floats := length (remove_dups (p_float_id <$> profiles));
     earliest := best Z.ltb (p_measurement_date <$> profiles);
     latest := best (fun a b => b <? a) (p_measurement_date <$> profiles);
     min_latitude := best numeric_ltb (p_latitude <$> profiles);
     max_latitude := best (fun a b => numeric_ltb b a) (p_latitude <$> profiles);
     min_longitude := best numeric_ltb (p_longitude <$> profiles);
     max_longitude :=
       best (fun a b => numeric_ltb b a) (p_longitude <$> profiles) |}.

End Queries.

(* ===================================================================== *)
(** * Batches of files *)
(* ===================================================================== *)

Module Batches.
Import NetCDFProcessor DatabaseManager DataIngestion Queries.

Section Files.

Variable md5_hexdigest : string -> string.
Variable py_str : scalar -> string.
Variable float_of_bytes : string -> result float.
Variable Timedelta_days : float -> result Z.
Variable now : Z.
Variable validate_measurement_data : gmap string value -> result bool.

(** [NetCDFProcessor.process_multiple_files]: a file that fails is
    logged and passed over. *)
Definition process_multiple_files (fs : FileSystem) (file_paths : list string)
  : list (metadata * list (gmap string value)) :=
  foldl (fun results file_path =>
           match process_file md5_hexdigest py_str float_of_bytes
                   Timedelta_days now validate_measurement_data
                   fs file_path with
           | Ok data => results ++ [data]
           | Raise _ => results
           end) [] file_paths.

End Files.

Section Uploads.

Variable round_literal : Z -> float -> Z.
Variable st : Components.

(** The loop of [main] of the ingestion page over the uploaded files:
    the store after the last file and the list [results]. *)
Fixpoint process_files (skip_duplicates : bool)
  (uploaded : list (result (metadata * list (gmap string value))))
  (db : database) (results : list file_result)
  : database * list file_result :=
  match uploaded with
  | [] => (db, results)
  | processed :: rest =>
      let '(db, r) := process_one round_literal st skip_duplicates
                        processed db in
      process_files skip_duplicates rest db (results ++ [r])
  end.

End Uploads.

(** [sum(1 for r in results if r['status'] == ...)] *)
Definition is_success (r : file_result) : bool :=
  match r with success _ _ => true | _ => false end.
Definition is_error (r : file_result) : bool :=
  match r with error _ => true | _ => false end.
Definition is_skipped (r : file_result) : bool :=
  match r with skipped _ => true | _ => false end.

Definition count (status : file_result -> bool) (results : list file_result)
  : nat :=
  length (filter (fun r => status r = true) results).

(** The look-ups at the head of [generate_visualizations] of the chat
    page: the identifiers of the search results that have one, the first
    ten of them, and for each the frame of [get_profiles] and the frame
    of [get_measurements_by_profile], kept when not empty. *)
Definition truthy_ids (search_results : list (option Z)) : list Z :=
  omap (fun profile_id => if truthy profile_id then profile_id else None)
    search_results.

Definition only_profile_ids (ids : list Z) : filter_dict :=
  {| float_id_filter := None; start_date := None; end_date := None;
     min_lat := None; max_lat := None; min_lon := None; max_lon := None;
     profile_ids := Some ids |}.

Definition looked_up (db : database) (search_results : list (option Z))
  : list (list profile_info) * list (Z * list measured) :=
  foldl (fun '(profiles_list, measurements_list) profile_id =>
           let profile_data :=
             get_profiles db 1 0 (Some (only_profile_ids [profile_id])) in
           let profiles_list :=
             match profile_data with
             | [] => profiles_list
             | _ => profiles_list ++ [profile_data]
             end in
           let measurements := get_measurements_by_profile db profile_id in
           let measurements_list :=
             match measurements with
             | [] => measurements_list
             | _ => measurements_list ++ [(profile_id, measurements)]
             end in
           (profiles_list, measurements_list))
    ([], []) (take 10 (truthy_ids search_results)).

End Batches.

(* ===================================================================== *)
(** * Further notions used to state properties *)
(* ===================================================================== *)

Module Notions.
Import NetCDFProcessor DatabaseManager.

(** The bytes that the reads of a file deliver up to its end. *)
Fixpoint content (reads : list (result string)) : string :=
  match reads with
  | Ok chunk :: rest =>
      if String.eqb chunk EmptyString then EmptyString
      else chunk +:+ content rest
  | _ => EmptyString
  end.





(** What [process_file] gives for a path, when it gives something. *)
Definition processed (process : string -> result (metadata
                                                  * list (gmap string value)))
  (file_path : string) : option (metadata * list (gmap string value)) :=
  match process file_path with
  | Ok data => Some data
  | Raise _ => None
  end.

End Notions.

(* ===================================================================== *)
(** * Sample inputs *)
(* ===================================================================== *)

Module Samples.
Import NetCDFProcessor DatabaseManager DataIngestion.

Definition floats (xs : list float) : ndarray := Arr1 (SFloat <$> xs).
Definition chars (xs : list string) : ndarray := Arr1 (SBytes <$> xs).

(** A file with a pressure array only. *)
Definition pressure_only : Dataset :=
  {| dims := ∅;
     variables := {[ "PRES"%string := floats [5; 10]%float ]} |}.

(** A three-level profile: the last pressure is a fill value, the
    second salinity is infinite, and the flags are [1], blank, [4]. *)
Definition three_levels : Dataset :=
  {| dims := {[ "N_LEVELS"%string := 3%nat ]};
     variables :=
       <[ "PRES"%string := floats [5; 10; nan]%float ]>
       (<[ "TEMP"%string := floats [20; 19; 18]%float ]>
       (<[ "PSAL"%string := floats [35; infinity; 34]%float ]>
       (<[ "PRES_QC"%string := chars ["1"; " "; "4"]%string ]> ∅))) |}.

(** A profile whose day offset is infinite. *)
Definition infinite_juld : Dataset :=
  {| dims := ∅;
     variables := {[ "JULD"%string := floats [infinity] ]} |}.

(** A profile dated 27000 days after the reference date. *)
Definition dated : Dataset :=
  {| dims := ∅;
     variables := {[ "JULD"%string := floats [27000%float] ]} |}.

(** A file system with one file: it opens as [ds], and reading its
    bytes gives [reads]. *)
Definition one_file (path : string) (ds : Dataset)
  (reads : result (list (result string))) : FileSystem :=
  {| path_exists := fun p => String.eqb p path;
     open_dataset := fun p => if String.eqb p path then Ok ds
                              else Raise OSError;
     open_rb := fun p => if String.eqb p path then reads
                         else Raise OSError |}.

(** Stand-ins for the library functions. *)
Definition sample_digest (data : string) : string :=
  "9e107d9d372bb6826bd81d3542a419d6"%string.
Definition sample_str (x : scalar) : string :=
  match x with
  | SBytes b => b
  | SFloat _ => "0.0"%string
  end.
Definition sample_float_of_bytes (b : string) : result float :=
  Raise ValueError.
Definition sample_now : Z := 1793000000000000000.
Definition accept_all (m : gmap string value) : result bool := Ok true.

(** Collaborators that hand the records through unchanged. *)
Definition pass_through : Components :=
  {| DataFrame := list (gmap string value);
     Summary := unit;
     pd_DataFrame := fun l => l;
     to_dict_records := fun l => l;
     clean_measurements := fun df => Ok df;
     interpolate_missing_depth := fun df => Ok df;
     create_profile_summary := fun _ _ => Ok tt;
     add_profile := fun _ _ => Ok tt;
     save_index := Ok tt |}.

(** The metadata of a file, with its digest. *)
Definition sample_metadata : metadata :=
  {| platform_number := Some "5904471"%string;
     float_id := Some "5904471"%string;
     cycle_number := Some 12;
     latitude := Some 20%float;
     longitude := Some 65%float;
     measurement_date := Some 1701648000000000000;
     data_center := Some "IN"%string;
     file_hash := Some "9e107d9d372bb6826bd81d3542a419d6"%string |}.

(** One complete measurement dictionary. *)
Definition sample_measurement : gmap string value :=
  <[ "pressure"%string := VFloat 5 ]>
  (<[ "temperature"%string := VFloat 20 ]>
  (<[ "salinity"%string := VFloat 35 ]>
  (<[ "depth"%string := VFloat 5 ]>
  (<[ "oxygen"%string := VNone ]>
  (<[ "nitrate"%string := VNone ]>
  (<[ "ph"%string := VNone ]>
  (<[ "chlorophyll"%string := VNone ]>
  (<[ "quality_flag"%string := VInt 1 ]> ∅)))))))).

(** The store after the sample profile went in once, with its
    measurement. *)
Definition stored_once : database :=
  (process_one round_half_away pass_through false
     (Ok (sample_metadata, [sample_measurement])) empty_database).1.

(** The values of the C library at the arguments that occur in the
    searches from 12 N and from 20 N on a profile at the query point:
    the cosine and the sine of [radians(12)] and of [radians(20)], the
    cosine and the sine of 0, and the arc cosine of 1. *)
Definition sample_cos (x : float) : float :=
  if PrimFloat.eqb x 0x1.acee9f37bebd6p-3 then 0x1.f4cfc327a0080p-1
  else if PrimFloat.eqb x 0x1.657184ae74487p-2 then 0x1.e11f642522d1cp-1
  else 1.

Definition sample_sin (x : float) : float :=
  if PrimFloat.eqb x 0x1.acee9f37bebd6p-3 then 0x1.a9cd9ac4258f6p-3
  else if PrimFloat.eqb x 0x1.657184ae74487p-2 then 0x1.5e3a8748a0bf5p-2
  else 0.

Definition sample_acos (x : float) : float := 0.

(** A profile row at a position, in millionths of a degree, and the
    store that has this row alone. *)
Definition row_at (latitude longitude : Z) : profile_row :=
  {| p_id := 1; p_float_id := "5904471"; p_cycle_number := 12;
     p_latitude := Dec latitude; p_longitude := Dec longitude;
     p_measurement_date := 1701648000000000000;
     p_platform_number := "5904471"; p_data_center := "IN";
     p_file_hash := "9e107d9d372bb6826bd81d3542a419d6" |}.

Definition one_profile_at (latitude longitude : Z) : database :=
  {| argo_profiles := [row_at latitude longitude];
     argo_profiles_id_seq := 2;
     argo_measurements := []; argo_measurements_id_seq := 1 |}.

End Samples.

(* ===================================================================== *)
(** * Further sample inputs *)
(* ===================================================================== *)

Module MoreSamples.
Import NetCDFProcessor DatabaseManager DataIngestion Queries Batches Samples.

(** A file whose pressure array has a byte string at its second level. *)
Definition bad_element : Dataset :=
  {| dims := ∅;
     variables :=
       <[ "PRES"%string := Arr1 [SFloat 5; SBytes "x"; SFloat 15] ]>
       (<[ "TEMP"%string := floats [20; 19; 18]%float ]>
       (<[ "PSAL"%string := floats [35; 35; 34]%float ]> ∅)) |}.

(** A file with two profiles: two platform numbers. *)
Definition two_platforms : Dataset :=
  {| dims := ∅;
     variables :=
       {[ "PLATFORM_NUMBER"%string := chars ["5904471"; "5904472"]%string ]} |}.

(** The metadata of a profile at a position and a date. *)
Definition profile_at (h : string) (lat lon : float) (date : Z) : metadata :=
  {| platform_number := Some "5904471"%string;
     float_id := Some "5904471"%string;
     cycle_number := Some 1;
     latitude := Some lat;
     longitude := Some lon;
     measurement_date := Some date;
     data_center := Some "IN"%string;
     file_hash := Some h |}.

(** A store with a profile at 10 N, 60 E and a later one at 40 N, 90 E,
    each with the sample measurement. *)
Definition two_profiles : database :=
  (process_files round_half_away pass_through true
     [Ok (profile_at "aaaa" 10 60 1000, [sample_measurement]);
      Ok (profile_at "bbbb" 40 90 2000, [sample_measurement])]
     empty_database []).1.

(** The bounding box 0..30 N, 50..80 E. *)
Definition box : filter_dict :=
  {| float_id_filter := None; start_date := None; end_date := None;
     min_lat := Some (Stdlib.QArith.QArith_base.Qmake 0 1);
     max_lat := Some (Stdlib.QArith.QArith_base.Qmake 30 1);
     min_lon := Some (Stdlib.QArith.QArith_base.Qmake 50 1);
     max_lon := Some (Stdlib.QArith.QArith_base.Qmake 80 1);
     profile_ids := None |}.

(** A transformer whose cleaning fails. *)
Definition failing_transformer : Components :=
  {| DataFrame := list (gmap string value);
     Summary := unit;
     pd_DataFrame := fun l => l;
     to_dict_records := fun l => l;
     clean_measurements := fun df => Raise ValueError;
     interpolate_missing_depth := fun df => Ok df;
     create_profile_summary := fun _ _ => Ok tt;
     add_profile := fun _ _ => Ok tt;
     save_index := Ok tt |}.

End MoreSamples.

(* ===================================================================== *)
(** * Properties of the file checks *)
(* ===================================================================== *)

Section FileChecks.
Import NetCDFProcessor.

Lemma validate_file_total fs file_path :
  exists b, validate_file fs file_path = Ok b.
Proof.
  unfold validate_file, try_except, except_return.
  destruct (validate_file_try fs file_path); eauto.
Qed.

(** The value of [validate_file] on a file that exists, has an accepted
    extension and opens. *)
Lemma validate_file_opened fs file_path ds :
  path_exists fs file_path = true ->
  str_in (lower (splitext file_path).2) supported_formats = true ->
  open_dataset fs file_path = Ok ds ->
  validate_file fs file_path
  = Ok (existsb (has_variable ds) required_variables).
Proof.
  intros Hex Hext Hopen.
  unfold validate_file, validate_file_try.
  rewrite Hex. simpl negb. cbv iota.
  destruct (splitext file_path) as [root ext]. simpl in Hext.
  rewrite Hext, Hopen. simpl.
  destruct (has_variable ds "PRES" || (has_variable ds "TEMP"
            || (has_variable ds "PSAL" || false))); reflexivity.
Qed.

End FileChecks.

Section FileCheckClaims.
Import NetCDFProcessor Samples.

(** C9. [validate_file] answers with a boolean on every path and never
    raises: on a path that does not exist, on an extension that is not
    accepted, and on any failure to open the file, the answer is
    false. *)
Theorem validate_file_never_raises fs file_path :
  (exists b, validate_file fs file_path = Ok b)
  /\ (path_exists fs file_path = false ->
      validate_file fs file_path = Ok false)
  /\ (str_in (lower (splitext file_path).2) supported_formats = false ->
      validate_file fs file_path = Ok false)
  /\ (forall e, open_dataset fs file_path = Raise e ->
      validate_file fs file_path = Ok false).
Proof.
  split; [apply validate_file_total |].
  unfold validate_file, validate_file_try.
  repeat split.
  - intros ->. reflexivity.
  - intros Hext. destruct (path_exists fs file_path); [| reflexivity].
    destruct (splitext file_path) as [root ext]; simpl in *.
    rewrite Hext. reflexivity.
  - intros e He. destruct (path_exists fs file_path); [| reflexivity].
    destruct (splitext file_path) as [root ext]; cbv beta iota.
    destruct (str_in (lower ext) supported_formats); [| reflexivity].
    rewrite He. reflexivity.
Qed.

(** A path that is not there, and a file with another extension. *)
Lemma validate_file_never_raises_witness :
  validate_file (one_file "/tmp/a.nc" pressure_only (Raise OSError))
    "/tmp/missing.nc" = Ok false
  /\ validate_file (one_file "/tmp/a.txt" pressure_only (Raise OSError))
       "/tmp/a.txt" = Ok false.
Proof.
  split.
  - destruct (validate_file_never_raises
                (one_file "/tmp/a.nc" pressure_only (Raise OSError))
                "/tmp/missing.nc") as (_ & Hmissing & _).
    apply Hmissing. reflexivity.
  - destruct (validate_file_never_raises
                (one_file "/tmp/a.txt" pressure_only (Raise OSError))
                "/tmp/a.txt") as (_ & _ & Hext & _).
    apply Hext. reflexivity.
Defined.

(** C3, as amended.  On a file that exists, has an accepted extension
    and opens, [validate_file] answers true when at least one of the
    pressure, temperature and salinity arrays is there (so also when all
    three are), and false when none is. *)
Theorem validate_file_accepts_any_required fs file_path ds :
  path_exists fs file_path = true ->
  str_in (lower (splitext file_path).2) supported_formats = true ->
  open_dataset fs file_path = Ok ds ->
  (has_variable ds "PRES" = true \/ has_variable ds "TEMP" = true
   \/ has_variable ds "PSAL" = true ->
   validate_file fs file_path = Ok true)
  /\ (has_variable ds "PRES" = false -> has_variable ds "TEMP" = false ->
      has_variable ds "PSAL" = false ->
      validate_file fs file_path = Ok false).
Proof.
  intros Hex Hext Hopen.
  rewrite (validate_file_opened fs file_path ds Hex Hext Hopen). simpl.
  split.
  - intros [-> | [-> | ->]]; simpl;
      repeat (destruct (has_variable ds _); simpl); reflexivity.
  - intros -> -> ->. reflexivity.
Qed.

(** The three-level sample is accepted. *)
Lemma validate_file_accepts_any_required_witness :
  validate_file (one_file "/tmp/a.nc" three_levels (Ok [])) "/tmp/a.nc"
  = Ok true.
Proof.
  apply (validate_file_accepts_any_required
           (one_file "/tmp/a.nc" three_levels (Ok [])) "/tmp/a.nc"
           three_levels);
    try reflexivity.
  left. reflexivity.
Defined.

(** C3, as stated, fails: a file that has the pressure array but
    neither temperature nor salinity is accepted. *)
Lemma validate_file_accepts_pressure_only :
  let fs := one_file "/tmp/a.nc" pressure_only (Ok []) in
  path_exists fs "/tmp/a.nc" = true
  /\ (splitext "/tmp/a.nc").2 = ".nc"%string
  /\ open_dataset fs "/tmp/a.nc" = Ok pressure_only
  /\ has_variable pressure_only "TEMP" = false
  /\ has_variable pressure_only "PSAL" = false
  /\ validate_file fs "/tmp/a.nc" = Ok true.
Proof. repeat split. Qed.

End FileCheckClaims.

Section FileHashClaims.
Import NetCDFProcessor Samples.

Variable md5_hexdigest : string -> string.

Lemma update_chunks_read_fails reads hash_md5 :
  read_fails reads = true ->
  exists e, update_chunks reads hash_md5 = Raise e.
Proof.
  revert hash_md5.
  induction reads as [| [chunk | e] rest IH]; intros hash_md5 Hfail;
    simpl in *.
  - discriminate.
  - destruct (String.eqb chunk EmptyString); [discriminate |].
    apply IH, Hfail.
  - eauto.
Qed.

Lemma calculate_file_hash_total fs file_path :
  exists h, calculate_file_hash md5_hexdigest fs file_path = Ok h.
Proof.
  unfold calculate_file_hash, try_except, except_return.
  destruct (let! f := open_rb fs file_path in _); eauto.
Qed.

Lemma calculate_file_hash_unreadable fs file_path :
  unreadable fs file_path = true ->
  calculate_file_hash md5_hexdigest fs file_path = Ok EmptyString.
Proof.
  unfold unreadable, calculate_file_hash. intros Hun.
  destruct (open_rb fs file_path) as [reads | e]; [| reflexivity].
  destruct (update_chunks_read_fails reads EmptyString Hun) as [e He].
  simpl. rewrite He. reflexivity.
Qed.

(** C10. When the bytes of the file cannot be read, [calculate_file_hash]
    does not raise but returns the empty string, and [process_file] then
    puts the empty string into the metadata as the file hash, the key of
    the duplicate detection. *)
Theorem calculate_file_hash_unreadable_is_empty
  py_str float_of_bytes Timedelta_days now validate_measurement_data
  fs file_path :
  unreadable fs file_path = true ->
  calculate_file_hash md5_hexdigest fs file_path = Ok EmptyString
  /\ forall profile_metadata measurements,
      process_file md5_hexdigest py_str float_of_bytes Timedelta_days now
        validate_measurement_data fs file_path
      = Ok (profile_metadata, measurements) ->
      file_hash profile_metadata = Some EmptyString.
Proof.
  intros Hun.
  pose proof (calculate_file_hash_unreadable fs file_path Hun) as Hhash.
  split; [exact Hhash |].
  intros pm ms. unfold process_file. rewrite Hhash.
  destruct (validate_file fs file_path) as [[|] | e]; simpl;
    try discriminate.
  destruct (open_dataset fs file_path) as [ds | e]; simpl; try discriminate.
  destruct (extract_profile_metadata _ _ _ _ ds) as [m | e]; simpl;
    try discriminate.
  destruct (extract_measurements _ _ ds) as [l | e]; simpl;
    try discriminate.
  intros [= <- _]. reflexivity.
Qed.

End FileHashClaims.

(** A file that validates and opens as a dataset while reading its bytes
    fails is processed, and its hash is the empty string. *)
Lemma calculate_file_hash_unreadable_is_empty_witness :
  let fs := Samples.one_file "/tmp/a.nc" Samples.three_levels (Raise OSError) in
  NetCDFProcessor.calculate_file_hash Samples.sample_digest fs "/tmp/a.nc"
  = Ok EmptyString
  /\ (NetCDFProcessor.file_hash
       <$> (match NetCDFProcessor.process_file Samples.sample_digest
                    Samples.sample_str Samples.sample_float_of_bytes
                    Timedelta_days_ns Samples.sample_now Samples.accept_all
                    fs "/tmp/a.nc" with
            | Ok (m, _) => Some m
            | Raise _ => None
            end)) = Some (Some EmptyString).
Proof.
  pose proof (calculate_file_hash_unreadable_is_empty Samples.sample_digest
                Samples.sample_str Samples.sample_float_of_bytes
                Timedelta_days_ns Samples.sample_now Samples.accept_all
                (Samples.one_file "/tmp/a.nc" Samples.three_levels
                   (Raise OSError))
                "/tmp/a.nc" eq_refl) as [Hhash Hprocess].
  split; [exact Hhash |].
  vm_compute. reflexivity.
Defined.

(* ===================================================================== *)
(** * Properties of the measurement extraction *)
(* ===================================================================== *)

Section Levels.
Import NetCDFProcessor.

Variable float_of_bytes : string -> result float.
Variable validate_measurement_data : gmap string value -> result bool.

(** What [level_value] stores is [None] or a finite float. *)
Lemma level_value_finite var_data i v :
  level_value float_of_bytes var_data i = Ok v ->
  finite_or_absent (Some v) = true.
Proof.
  unfold NetCDFProcessor.level_value.
  destruct (len var_data) as [n | e]; simpl; [| discriminate].
  destruct (i <? n)%nat; [| intros [= <-]; reflexivity].
  destruct (getitem var_data i) as [[f | b] | e]; simpl; try discriminate.
  destruct (PrimFloat.is_nan f) eqn:Hnan; simpl;
    [intros [= <-]; reflexivity |].
  destruct (PrimFloat.is_infinity f) eqn:Hinf; simpl;
    intros [= <-]; simpl; [reflexivity |].
  unfold is_finite. rewrite Hnan, Hinf. reflexivity.
Qed.

(** The loop over the variables keeps every field finite or absent, and
    writes only the keys of the variables. *)
Lemma level_values_spec vars i m m' :
  level_values float_of_bytes vars i m = Ok m' ->
  (forall key, finite_or_absent (m !! key) = true) ->
  (forall key, finite_or_absent (m' !! key) = true)
  /\ (forall key, key ∉ vars.*1 -> m' !! key = m !! key)
  /\ (forall key, key ∈ vars.*1 -> is_Some (m' !! key)).
Proof.
  revert m. induction vars as [| [var_name var_data] rest IH]; intros m.
  - simpl. intros [= <-] Hm. split; [exact Hm |]. split.
    + reflexivity.
    + intros key Hin. apply elem_of_nil in Hin. destruct Hin.
  - simpl. destruct (level_value float_of_bytes var_data i) as [v | e] eqn:Hv; simpl;
      [| discriminate].
    intros Hrest Hm.
    apply level_value_finite in Hv.
    destruct (IH _ Hrest) as (Hfin & Hother & Hset).
    { intros key. destruct (decide (var_name = key)) as [<- | Hne].
      - rewrite lookup_insert_eq. exact Hv.
      - rewrite lookup_insert_ne by exact Hne. apply Hm. }
    split; [exact Hfin |]. split.
    + intros key Hnot. apply not_elem_of_cons in Hnot as [Hne Hnot].
      rewrite (Hother key Hnot). apply lookup_insert_ne. congruence.
    + intros key Hin. apply elem_of_cons in Hin as [-> | Hin].
      * destruct (decide (var_name ∈ rest.*1)) as [Hin | Hnot].
        -- apply Hset, Hin.
        -- rewrite (Hother _ Hnot), lookup_insert_eq. eauto.
      * apply Hset, Hin.
Qed.

Lemma set_depth_finite m :
  (forall key, finite_or_absent (m !! key) = true) ->
  forall key, finite_or_absent (set_depth m !! key) = true.
Proof.
  intros Hm key. unfold set_depth.
  pose proof (Hm "pressure"%string) as Hp.
  destruct (m !! "pressure"%string) as [[| f | z] |] eqn:Hpres;
    try apply Hm.
  - destruct (decide ("depth"%string = key)) as [<- | Hne].
    + rewrite lookup_insert_eq. exact Hp.
    + rewrite lookup_insert_ne by exact Hne. apply Hm.
  - discriminate.
Qed.

(** The depth that goes with a pressure field. *)
Lemma set_depth_depth m :
  (forall key, finite_or_absent (m !! key) = true) ->
  m !! "depth"%string = None ->
  set_depth m !! "pressure"%string = m !! "pressure"%string
  /\ set_depth m !! "depth"%string
     = match m !! "pressure"%string with
       | Some (VFloat p) => Some (VFloat p)
       | _ => None
       end.
Proof.
  intros Hm Hdepth. unfold set_depth.
  pose proof (Hm "pressure"%string) as Hp.
  destruct (m !! "pressure"%string) as [[| f | z] |] eqn:Hpres;
    try (split; [exact Hpres | exact Hdepth]).
  - split.
    + rewrite lookup_insert_ne by discriminate. exact Hpres.
    + apply lookup_insert_eq.
  - discriminate.
Qed.

(** The quality flags kept for the pressure channel are the [PRES_QC]
    variable. *)
Lemma get_quality_flags_PRES ds :
  get_quality_flags ds !! "PRES"%string = variables ds !! "PRES_QC"%string.
Proof.
  unfold get_quality_flags, qc_parameters. cbn [foldl].
  repeat match goal with
  | |- context [String.append ?a ?b] =>
      let key := eval vm_compute in (String.append a b) in
      change (String.append a b) with key
  end.
  destruct (variables ds !! "PRES_QC"%string) as [qc |];
    repeat match goal with
    | |- context [match variables ds !! ?k with _ => _ end] =>
        destruct (variables ds !! k)
    end;
    repeat (rewrite lookup_insert_ne by discriminate);
    rewrite ?lookup_insert_eq, ?lookup_empty; reflexivity.
Qed.

(** [quality_flag_at] computes the specified flag whenever it returns. *)
Lemma quality_flag_at_specified ds i q :
  quality_flag_at (get_quality_flags ds) i = Ok q ->
  q = specified_quality_flag ds i.
Proof.
  unfold quality_flag_at, specified_quality_flag.
  rewrite get_quality_flags_PRES.
  destruct (variables ds !! "PRES_QC"%string) as [[x | qc] |]; simpl;
    try discriminate; try (intros [= <-]; reflexivity).
  destruct (i <? length qc)%nat eqn:Hlt.
  - destruct (qc !! i) as [x |] eqn:Hx; simpl.
    + destruct (py_int x) as [z | []]; simpl; try discriminate;
        intros [= <-]; reflexivity.
    + apply Nat.ltb_lt, lookup_lt_is_Some in Hlt. rewrite Hx in Hlt.
      destruct Hlt; discriminate.
  - intros [= <-]. apply Nat.ltb_ge, lookup_ge_None in Hlt.
    rewrite Hlt. reflexivity.
Qed.

Lemma int_of_bytes_raises b e :
  int_of_bytes b = Raise e -> e = ValueError.
Proof.
  unfold int_of_bytes.
  destruct (match rev (lstrip (rev (lstrip (list_ascii_of_string b)))) with
            | [] => None
            | c :: r => _
            end); [discriminate | congruence].
Qed.

(** On a one-dimensional array of byte strings (the character type of
    the quality-control variables), or without the array, the flag is
    always there. *)
Lemma quality_flag_at_chars ds i :
  (forall qc, variables ds !! "PRES_QC"%string = Some qc ->
              exists flags, qc = Arr1 (SBytes <$> flags)) ->
  quality_flag_at (get_quality_flags ds) i
  = Ok (specified_quality_flag ds i).
Proof.
  intros Hchars.
  destruct (quality_flag_at (get_quality_flags ds) i) as [q | e] eqn:Hq.
  { f_equal. apply quality_flag_at_specified, Hq. }
  exfalso. revert Hq. unfold quality_flag_at.
  rewrite get_quality_flags_PRES.
  destruct (variables ds !! "PRES_QC"%string) as [qc |]; [| discriminate].
  destruct (Hchars qc eq_refl) as [flags ->]. simpl.
  destruct (i <? length (SBytes <$> flags))%nat eqn:Hlt; [| discriminate].
  apply Nat.ltb_lt in Hlt. rewrite length_fmap in Hlt.
  apply lookup_lt_is_Some in Hlt as [b Hb'].
  rewrite list_lookup_fmap, Hb'. simpl.
  destruct (int_of_bytes b) as [z | e'] eqn:Hb; simpl; [discriminate |].
  apply int_of_bytes_raises in Hb as ->. discriminate.
Qed.

Lemma optional_variables_keys ds key :
  key ∈ (optional_variables ds).*1 ->
  key ∈ ["oxygen"; "nitrate"; "ph"; "chlorophyll"]%string.
Proof.
  unfold optional_variables. cbn [omap list_omap].
  destruct (variables ds !! "DOXY"%string);
    destruct (variables ds !! "NITRATE"%string);
    destruct (variables ds !! "PH_IN_SITU_TOTAL"%string);
    destruct (variables ds !! "CHLA"%string);
    cbn; rewrite ?elem_of_cons, ?elem_of_nil; tauto.
Qed.

(** A record as [build_measurement] leaves it. *)
Lemma build_measurement_spec vars quality_flags i m :
  "depth"%string ∉ vars.*1 ->
  "quality_flag"%string ∉ vars.*1 ->
  build_measurement float_of_bytes vars quality_flags i = Ok m ->
  (forall key, key <> "quality_flag"%string ->
               finite_or_absent (m !! key) = true)
  /\ (exists q, quality_flag_at quality_flags i = Ok q
                /\ m !! "quality_flag"%string = Some (VInt q))
  /\ m !! "depth"%string
     = match m !! "pressure"%string with
       | Some (VFloat p) => Some (VFloat p)
       | _ => None
       end.
Proof.
  intros Hdepth Hflag. unfold build_measurement.
  destruct (level_values float_of_bytes vars i ∅) as [m0 | e] eqn:Hvalues;
    simpl; [| discriminate].
  destruct (level_values_spec vars i ∅ m0 Hvalues) as (Hfin & Hother & _).
  { intros key. rewrite lookup_empty. reflexivity. }
  destruct (quality_flag_at quality_flags i) as [q | e]; simpl;
    [| discriminate].
  intros [= <-].
  assert (m0 !! "depth"%string = None) as Hnone.
  { rewrite (Hother _ Hdepth). apply lookup_empty. }
  destruct (set_depth_depth m0 Hfin Hnone) as [Hp Hd].
  repeat split.
  - intros key Hne. rewrite lookup_insert_ne by congruence.
    apply set_depth_finite, Hfin.
  - exists q. split; [reflexivity | apply lookup_insert_eq].
  - rewrite !lookup_insert_ne by discriminate. rewrite Hp. exact Hd.
Qed.

(** The loop over the levels appends at most one record per level, and
    each appended record was built for one of the levels. *)
Lemma build_measurements_spec vars quality_flags levels acc ms :
  build_measurements float_of_bytes validate_measurement_data
    vars quality_flags levels acc = Ok ms ->
  (length ms <= length acc + length levels)%nat
  /\ forall m, m ∈ ms ->
       m ∈ acc
       \/ (exists i, i ∈ levels
                    /\ build_measurement float_of_bytes vars quality_flags i
                       = Ok m).
Proof.
  revert acc. induction levels as [| i rest IH]; intros acc; simpl.
  - intros [= <-]. split; [lia | auto].
  - destruct (build_measurement float_of_bytes vars quality_flags i)
      as [m0 | e] eqn:Hbuild; simpl; [| discriminate].
    destruct (validate_measurement_data m0) as [valid | e]; simpl;
      [| discriminate].
    intros Hrest. destruct (IH _ Hrest) as [Hlen Hin].
    split.
    + destruct valid; [rewrite length_app in Hlen; simpl in Hlen |]; lia.
    + intros m Hm. destruct (Hin m Hm) as [Hacc | (j & Hj & Hbj)].
      * destruct valid; [| auto].
        apply elem_of_app in Hacc as [Hacc | Hnew]; [auto |].
        apply list_elem_of_singleton in Hnew as ->.
        right. exists i. split; [apply elem_of_cons; auto | exact Hbuild].
      * right. exists j. split; [apply elem_of_cons; auto | exact Hbj].
Qed.

(** [extract_measurements] returns on every dataset; its records are
    no more than the levels, and each was built for a level below the
    level count. *)
Lemma extract_measurements_spec ds :
  exists ms,
    extract_measurements float_of_bytes validate_measurement_data ds = Ok ms
    /\ (forall n, get_n_levels ds = Ok (Some n) -> (length ms <= n)%nat)
    /\ forall m, m ∈ ms ->
         exists vars i,
           ("depth"%string ∉ vars.*1)
           /\ ("quality_flag"%string ∉ vars.*1)
           /\ (forall n, get_n_levels ds = Ok (Some n) -> (i < n)%nat)
           /\ build_measurement float_of_bytes vars (get_quality_flags ds) i
              = Ok m.
Proof.
  unfold extract_measurements, extract_measurements_try.
  destruct (get_n_levels ds) as [[n |] | e]; simpl;
    try (eexists; split; [reflexivity |]; split;
         [intros; simplify_eq; simpl; lia
         | intros m Hm; apply elem_of_nil in Hm; destruct Hm]).
  destruct (variables ds !! "PRES"%string) as [pres |];
    [| eexists; split; [reflexivity |]; split;
       [intros; simpl; lia
       | intros m Hm; apply elem_of_nil in Hm; destruct Hm]].
  destruct (variables ds !! "TEMP"%string) as [temp |];
    [| eexists; split; [reflexivity |]; split;
       [intros; simpl; lia
       | intros m Hm; apply elem_of_nil in Hm; destruct Hm]].
  destruct (variables ds !! "PSAL"%string) as [psal |];
    [| eexists; split; [reflexivity |]; split;
       [intros; simpl; lia
       | intros m Hm; apply elem_of_nil in Hm; destruct Hm]].
  set (vars := ("pressure"%string, pres) :: ("temperature"%string, temp)
               :: ("salinity"%string, psal) :: optional_variables ds).
  destruct (build_measurements float_of_bytes validate_measurement_data
              vars (get_quality_flags ds) (seq 0 n) []) as [ms | e] eqn:Hloop;
    simpl;
    [| eexists; split; [reflexivity |]; split;
       [intros; simpl; lia
       | intros m Hm; apply elem_of_nil in Hm; destruct Hm]].
  destruct (build_measurements_spec _ _ _ _ _ Hloop) as [Hlen Hin].
  exists ms. split; [reflexivity |]. split.
  - intros n' [= <-]. rewrite length_seq in Hlen. simpl in Hlen. exact Hlen.
  - intros m Hm. destruct (Hin m Hm) as [Hacc | (i & Hi & Hbuild)].
    { apply elem_of_nil in Hacc. destruct Hacc. }
    assert (forall key, key ∈ vars.*1 ->
              key ∈ ["pressure"; "temperature"; "salinity"; "oxygen";
                     "nitrate"; "ph"; "chlorophyll"]%string) as Hkeys.
    { intros key. unfold vars. rewrite !fmap_cons. cbn [fst].
      rewrite !elem_of_cons. intros [-> | [-> | [-> | Hkey]]]; auto.
      apply optional_variables_keys in Hkey.
      revert Hkey. rewrite ?elem_of_cons, ?elem_of_nil. tauto. }
    exists vars, i. repeat split.
    + intros Hd. apply Hkeys in Hd. revert Hd.
      rewrite ?elem_of_cons, ?elem_of_nil. intuition discriminate.
    + intros Hq. apply Hkeys in Hq. revert Hq.
      rewrite ?elem_of_cons, ?elem_of_nil. intuition discriminate.
    + intros n' [= <-]. apply elem_of_seq in Hi. lia.
    + exact Hbuild.
Qed.

End Levels.

Section MeasurementClaims.
Import NetCDFProcessor Samples.

Variable float_of_bytes : string -> result float.
Variable validate_measurement_data : gmap string value -> result bool.

(** C4. On a dataset with [n] levels [extract_measurements] returns a
    list of at most [n] records, and every numeric field of every record
    is a finite float, [None], or not there: a NaN or an infinity is
    never kept as a value. *)
Theorem extract_measurements_bounded_and_finite ds :
  exists measurements,
    extract_measurements float_of_bytes validate_measurement_data ds
    = Ok measurements
    /\ (forall n, get_n_levels ds = Ok (Some n) ->
                  (length measurements <= n)%nat)
    /\ (forall m key, m ∈ measurements -> key ∈ numeric_fields ->
                      finite_or_absent (m !! key) = true).
Proof.
  destruct (extract_measurements_spec float_of_bytes
              validate_measurement_data ds) as (ms & Hms & Hlen & Hrec).
  exists ms. split; [exact Hms |]. split; [exact Hlen |].
  intros m key Hm Hkey.
  destruct (Hrec m Hm) as (vars & i & Hd & Hq & _ & Hbuild).
  destruct (build_measurement_spec float_of_bytes vars _ i m Hd Hq Hbuild)
    as (Hfin & _ & _).
  apply Hfin. intros ->. revert Hkey. unfold numeric_fields.
  rewrite ?elem_of_cons, ?elem_of_nil. intuition discriminate.
Qed.

(** C5. In every record that [extract_measurements] returns, the depth
    is the pressure when the pressure is a value, and there is no depth
    when the pressure is [None]. *)
Theorem extract_measurements_depth_is_pressure ds measurements m :
  extract_measurements float_of_bytes validate_measurement_data ds
  = Ok measurements ->
  m ∈ measurements ->
  (forall p, m !! "pressure"%string = Some (VFloat p) ->
             m !! "depth"%string = Some (VFloat p))
  /\ (m !! "pressure"%string = Some VNone -> m !! "depth"%string = None)
  /\ finite_or_absent (m !! "pressure"%string) = true.
Proof.
  intros Hms Hm.
  destruct (extract_measurements_spec float_of_bytes
              validate_measurement_data ds) as (ms & Hms' & _ & Hrec).
  rewrite Hms in Hms'. injection Hms' as <-.
  destruct (Hrec m Hm) as (vars & i & Hd & Hq & _ & Hbuild).
  destruct (build_measurement_spec float_of_bytes vars _ i m Hd Hq Hbuild)
    as (Hfin & _ & Hdepth).
  repeat split.
  - intros p Hp. rewrite Hdepth, Hp. reflexivity.
  - intros Hp. rewrite Hdepth, Hp. reflexivity.
  - apply Hfin. discriminate.
Qed.

(** C6. The record built for level [i] carries the quality flag of the
    specification: the pressure quality-control value at [i] when the
    companion array is there, covers [i] and the value parses as an
    integer, and 1 when there is no such array, when [i] is out of its
    range, or when the value does not parse.  With a companion array of
    byte strings, or none, the flag is always computed. *)
Theorem quality_flag_follows_pressure_qc ds i :
  (forall vars m,
      build_measurement float_of_bytes vars (get_quality_flags ds) i = Ok m ->
      m !! "quality_flag"%string = Some (VInt (specified_quality_flag ds i)))
  /\ ((forall qc, variables ds !! "PRES_QC"%string = Some qc ->
                  exists flags, qc = Arr1 (SBytes <$> flags)) ->
      quality_flag_at (get_quality_flags ds) i
      = Ok (specified_quality_flag ds i))
  /\ (variables ds !! "PRES_QC"%string = None ->
      specified_quality_flag ds i = 1)
  /\ (forall qc, variables ds !! "PRES_QC"%string = Some (Arr1 qc) ->
        match qc !! i with
        | None => specified_quality_flag ds i = 1
        | Some x =>
            match py_int x with
            | Ok z => specified_quality_flag ds i = z
            | Raise _ => specified_quality_flag ds i = 1
            end
        end).
Proof.
  repeat split.
  - intros vars m. unfold build_measurement.
    destruct (level_values float_of_bytes vars i ∅) as [m0 | e]; simpl;
      [| discriminate].
    destruct (quality_flag_at (get_quality_flags ds) i) as [q | e] eqn:Hq;
      simpl; [| discriminate].
    intros [= <-]. apply quality_flag_at_specified in Hq as ->.
    apply lookup_insert_eq.
  - apply quality_flag_at_chars.
  - intros Hnone. unfold specified_quality_flag. rewrite Hnone. reflexivity.
  - intros qc Hqc. unfold specified_quality_flag. rewrite Hqc.
    destruct (qc !! i) as [x |]; [| reflexivity].
    destruct (py_int x); reflexivity.
Qed.

End MeasurementClaims.

(** The three-level sample gives at most three records. *)
Lemma extract_measurements_bounded_and_finite_witness :
  exists measurements,
    NetCDFProcessor.extract_measurements Samples.sample_float_of_bytes
      Samples.accept_all Samples.three_levels = Ok measurements
    /\ (length measurements <= 3)%nat.
Proof.
  destruct (extract_measurements_bounded_and_finite
              Samples.sample_float_of_bytes Samples.accept_all
              Samples.three_levels) as (ms & Hms & Hlen & _).
  exists ms. split; [exact Hms |]. apply Hlen. reflexivity.
Defined.

(** The third record of the sample, whose pressure is a fill value, has
    no depth. *)
Lemma extract_measurements_depth_is_pressure_witness :
  let m : gmap string NetCDFProcessor.value :=
    <[ "quality_flag"%string := NetCDFProcessor.VInt 4 ]>
    (<[ "salinity"%string := NetCDFProcessor.VFloat 34 ]>
    (<[ "temperature"%string := NetCDFProcessor.VFloat 18 ]>
    (<[ "pressure"%string := NetCDFProcessor.VNone ]> ∅))) in
  m !! "depth"%string = None.
Proof.
  intros m.
  destruct (extract_measurements_spec
              Samples.sample_float_of_bytes Samples.accept_all
              Samples.three_levels) as (ms & Hms & _).
  apply (extract_measurements_depth_is_pressure
           Samples.sample_float_of_bytes Samples.accept_all
           Samples.three_levels ms m Hms).
  - vm_compute in Hms. injection Hms as <-.
    apply elem_of_cons. right. apply elem_of_cons. right.
    apply elem_of_cons. left. apply map_eq. intros key.
    vm_compute. reflexivity.
  - reflexivity.
Defined.

(** On the blank flag of the second level of the sample the flag is 1,
    on the third it is the recorded 4. *)
Lemma quality_flag_follows_pressure_qc_witness :
  NetCDFProcessor.quality_flag_at
    (NetCDFProcessor.get_quality_flags Samples.three_levels) 1 = Ok 1
  /\ NetCDFProcessor.quality_flag_at
       (NetCDFProcessor.get_quality_flags Samples.three_levels) 2 = Ok 4.
Proof.
  split.
  - destruct (quality_flag_follows_pressure_qc Samples.sample_float_of_bytes
                Samples.three_levels 1) as (_ & Hflag & _).
    rewrite Hflag; [reflexivity |].
    intros qc [= <-]. exists [ "1"; " "; "4" ]%string. reflexivity.
  - destruct (quality_flag_follows_pressure_qc Samples.sample_float_of_bytes
                Samples.three_levels 2) as (_ & Hflag & _).
    rewrite Hflag; [reflexivity |].
    intros qc [= <-]. exists [ "1"; " "; "4" ]%string. reflexivity.
Defined.

(* ===================================================================== *)
(** * Properties of the metadata extraction *)
(* ===================================================================== *)

Section MetadataClaims.
Import NetCDFProcessor Samples.

Variable py_str : scalar -> string.
Variable float_of_bytes : string -> result float.
Variable Timedelta_days : float -> result Z.
Variable now : Z.

Lemma extract_profile_metadata_total ds :
  exists m,
    extract_profile_metadata py_str float_of_bytes Timedelta_days now ds
    = Ok m.
Proof.
  unfold extract_profile_metadata, try_except, except_return.
  destruct (extract_profile_metadata_try _ _ _ _ ds); eauto.
Qed.

(** The timestamp that the extraction gives when it gets through: the
    current time without a day offset or with a NaN one, the reference
    date plus the offset otherwise. *)
Lemma measurement_date_spec ds m :
  extract_profile_metadata_try py_str float_of_bytes Timedelta_days now ds
  = Ok m ->
  match variables ds !! "JULD"%string with
  | None => measurement_date m = Some now
  | Some juld =>
      exists x, item juld = Ok x
        /\ ((isnan x = Ok true /\ measurement_date m = Some now)
            \/ (isnan x = Ok false
                /\ exists td t,
                    Timedelta Timedelta_days x = Ok td
                    /\ Timestamp_add base_date td = Ok t
                    /\ measurement_date m = Some t))
  end.
Proof.
  unfold extract_profile_metadata_try.
  destruct (match variables ds !! "PLATFORM_NUMBER"%string with
            | Some _ => _ | None => _ end); simpl; [| discriminate].
  destruct (match variables ds !! "CYCLE_NUMBER"%string with
            | Some _ => _ | None => _ end); simpl; [| discriminate].
  destruct (match variables ds !! "LATITUDE"%string with
            | Some _ => _ | None => _ end); simpl; [| discriminate].
  destruct (match variables ds !! "LONGITUDE"%string with
            | Some _ => _ | None => _ end); simpl; [| discriminate].
  destruct (variables ds !! "JULD"%string) as [juld |].
  - unfold item_or_first, hasattr_item.
    destruct (item juld) as [x | e]; simpl; [| discriminate].
    destruct (isnan x) as [[|] | e] eqn:Hnan; simpl; [| | discriminate].
    + destruct (if has_variable ds "DATA_CENTRE" || _ then _ else _);
        simpl; [| discriminate].
      intros [= <-]. exists x. split; [reflexivity |]. left.
      split; [exact Hnan | reflexivity].
    + destruct (Timedelta Timedelta_days x) as [td | e] eqn:Htd; simpl;
        [| discriminate].
      destruct (Timestamp_add base_date td) as [t | e] eqn:Ht; simpl;
        [| discriminate].
      destruct (if has_variable ds "DATA_CENTRE" || _ then _ else _);
        simpl; [| discriminate].
      intros [= <-]. exists x. split; [reflexivity |]. right.
      split; [exact Hnan |]. exists td, t.
      split; [exact Htd |]. split; [exact Ht | reflexivity].
  - simpl.
    destruct (if has_variable ds "DATA_CENTRE" || _ then _ else _);
      simpl; [| discriminate].
    intros [= <-]. reflexivity.
Qed.

(** C7, where the code departs from it.  When the day offset is not NaN
    and [pd.Timedelta] refuses it, as it refuses an infinity, the
    extraction does not fall back to the current time: it returns the
    empty dictionary, which has no timestamp and nothing else. *)
Theorem refused_day_offset_empties_metadata ds juld d :
  variables ds !! "JULD"%string = Some juld ->
  item juld = Ok (SFloat d) ->
  PrimFloat.is_nan d = false ->
  raises (Timedelta_days d) = true ->
  extract_profile_metadata py_str float_of_bytes Timedelta_days now ds
  = Ok no_metadata.
Proof.
  intros Hjuld Hitem Hnan Hraises.
  unfold extract_profile_metadata.
  destruct (extract_profile_metadata_try _ _ _ _ ds) as [m | e] eqn:Htry;
    [| reflexivity].
  exfalso. apply measurement_date_spec in Htry. rewrite Hjuld in Htry.
  destruct Htry as (x & Hx & [[Hisnan _] | (_ & td & t & Htd & _)]).
  - rewrite Hitem in Hx. injection Hx as <-. simpl in Hisnan. congruence.
  - rewrite Hitem in Hx. injection Hx as <-. simpl in Htd.
    rewrite Htd in Hraises. discriminate.
Qed.

End MetadataClaims.

(** The sample with an infinite day offset: the result is the empty
    dictionary, where the sample dated 27000 days after the reference
    date gets its timestamp. *)
Lemma refused_day_offset_empties_metadata_witness :
  NetCDFProcessor.extract_profile_metadata Samples.sample_str
    Samples.sample_float_of_bytes Timedelta_days_ns Samples.sample_now
    Samples.infinite_juld = Ok NetCDFProcessor.no_metadata.
Proof.
  apply (refused_day_offset_empties_metadata Samples.sample_str
           Samples.sample_float_of_bytes Timedelta_days_ns Samples.sample_now
           Samples.infinite_juld (Samples.floats [infinity]) infinity);
    reflexivity.
Defined.

(* ===================================================================== *)
(** * Properties of the store *)
(* ===================================================================== *)

Section Store.
Import NetCDFProcessor DatabaseManager.

Variable round_literal : Z -> float -> Z.

(** The message of a uniqueness violation names the column. *)
Lemma unique_violation_names_file_hash h :
  match unique_violation h with
  | IntegrityError e => contains "file_hash" e = true
  | _ => False
  end.
Proof. vm_compute. reflexivity. Qed.

Lemma append_inv_tail (a b c : string) : a +:+ c = b +:+ c -> a = b.
Proof.
  intros H.
  apply (f_equal String.list_ascii_of_string) in H.
  assert (forall x y, list_ascii_of_string (x +:+ y)
                      = list_ascii_of_string x ++ list_ascii_of_string y)
    as Happ.
  { intros x y. induction x as [| ch x IH]; simpl; [| rewrite IH];
      reflexivity. }
  rewrite !Happ in H. apply app_inv_tail in H.
  rewrite <- (string_of_list_ascii_of_string a),
          <- (string_of_list_ascii_of_string b), H.
  reflexivity.
Qed.

Lemma append_inv_head (a b c : string) : a +:+ b = a +:+ c -> b = c.
Proof.
  induction a as [| ch a IH]; [auto |].
  intros [= H]. apply IH, H.
Qed.

(** The violation tells the key it is about. *)
Lemma unique_violation_inj h1 h2 :
  unique_violation h1 = unique_violation h2 -> h1 = h2.
Proof.
  unfold unique_violation. intros [= H].
  repeat apply append_inv_head in H.
  apply append_inv_tail in H. exact H.
Qed.

Lemma param_raises {A} key (v : option A) e :
  param key v = Raise e -> binding_error e.
Proof. destruct v; [discriminate |]. intros [= <-]. left. eauto. Qed.

Lemma varchar_raises n s e : varchar n s = Raise e -> binding_error e.
Proof.
  unfold varchar. repeat case_match; try discriminate.
  intros [= <-]. right. reflexivity.
Qed.

Lemma integer_raises z e : integer z = Raise e -> binding_error e.
Proof.
  unfold integer. case_match; [discriminate |].
  intros [= <-]. right. reflexivity.
Qed.

Lemma decimal_raises precision scale f e :
  decimal round_literal precision scale f = Raise e -> binding_error e.
Proof.
  unfold decimal. repeat case_match; try discriminate;
    intros [= <-]; right; reflexivity.
Qed.

Ltac bind_cases H :=
  repeat match type of H with
         | Py.bind ?c _ = _ =>
             let E := fresh "E" in
             destruct c eqn:E; cbn [Py.bind] in H
         end.

Lemma profile_values_raises id profile_data e :
  profile_values round_literal id profile_data = Raise e -> binding_error e.
Proof.
  intros H. unfold profile_values in H. bind_cases H;
    try discriminate; injection H as <-;
    first [ eapply param_raises; eassumption
          | eapply varchar_raises; eassumption
          | eapply integer_raises; eassumption
          | eapply decimal_raises; eassumption ].
Qed.

Lemma get_profile_id_by_hash_Some db h :
  existsb (has_file_hash h) (argo_profiles db) = true ->
  exists r, r ∈ argo_profiles db /\ p_file_hash r = h
            /\ get_profile_id_by_hash db h = Some (p_id r).
Proof.
  unfold get_profile_id_by_hash.
  induction (argo_profiles db) as [| r rows IH]; simpl; [discriminate |].
  unfold has_file_hash at 1 3.
  destruct (String.eqb (p_file_hash r) h) eqn:Heq; simpl.
  - intros _. exists r. apply String.eqb_eq in Heq.
    split; [apply elem_of_cons; auto | auto].
  - intros Hrest. destruct (IH Hrest) as (r' & Hin & Hh & Hget).
    exists r'. split; [apply elem_of_cons; auto | auto].
Qed.

Lemma get_profile_id_by_hash_existsb db h id :
  get_profile_id_by_hash db h = Some id ->
  existsb (has_file_hash h) (argo_profiles db) = true
  /\ exists r, r ∈ argo_profiles db /\ p_file_hash r = h /\ p_id r = id.
Proof.
  unfold get_profile_id_by_hash.
  induction (argo_profiles db) as [| r rows IH]; simpl; [discriminate |].
  unfold has_file_hash at 1 3.
  destruct (String.eqb (p_file_hash r) h) eqn:Heq; simpl.
  - intros [= <-]. split; [reflexivity |]. exists r.
    apply String.eqb_eq in Heq. split; [apply elem_of_cons; auto | auto].
  - intros Hrest. destruct (IH Hrest) as (Hex & r' & Hin & Hh & Hid).
    split; [exact Hex |]. exists r'.
    split; [apply elem_of_cons; auto | auto].
Qed.

(** After the violation on the hash of the profile, the handler of
    [insert_profile] answers with a second look-up of the hash. *)
Lemma insert_profile_after_violation db profile_data db' h :
  file_hash profile_data = Some h ->
  execute_insert_profile round_literal db profile_data
  = (db', Raise (unique_violation h)) ->
  insert_profile round_literal db profile_data
  = (db', Ok (get_profile_id_by_hash db' h)).
Proof.
  intros Hhash Hexec. unfold insert_profile. rewrite Hexec.
  pose proof (unique_violation_names_file_hash h) as Hnames.
  unfold unique_violation in *. rewrite Hnames, Hhash. reflexivity.
Qed.

(** C2. When the insert of a profile hits the uniqueness violation on
    the file hash of the profile, [insert_profile] does not raise: it
    looks the hash up again and returns the identifier of the row that is
    already there, and adds no row. *)
Theorem insert_profile_resolves_unique_violation db profile_data db' h :
  file_hash profile_data = Some h ->
  execute_insert_profile round_literal db profile_data
  = (db', Raise (unique_violation h)) ->
  exists id,
    insert_profile round_literal db profile_data = (db', Ok (Some id))
    /\ get_profile_id_by_hash db' h = Some id
    /\ (exists r, r ∈ argo_profiles db /\ p_file_hash r = h /\ p_id r = id)
    /\ argo_profiles db' = argo_profiles db
    /\ argo_measurements db' = argo_measurements db.
Proof.
  intros Hhash Hexec.
  assert (argo_profiles db' = argo_profiles db
          /\ argo_measurements db' = argo_measurements db
          /\ existsb (has_file_hash h) (argo_profiles db) = true)
    as (Hprofiles & Hmeasurements & Hex).
  { revert Hexec. unfold execute_insert_profile.
    destruct (profile_values round_literal _ profile_data) as [row | e]
      eqn:Hvalues.
    2:{ intros [= _ ->]. apply profile_values_raises in Hvalues.
        destruct Hvalues as [[key Hkey] | Hdata]; discriminate. }
    cbn zeta. unfold take_profile_id at 1. cbn [argo_profiles].
    destruct (existsb _ (argo_profiles db)) eqn:Hex; [| discriminate].
    intros Hpair.
    pose proof (f_equal fst Hpair) as Hdb. cbn [fst] in Hdb. subst db'.
    assert (unique_violation (p_file_hash row) = unique_violation h) as Hkey
      by (pose proof (f_equal snd Hpair) as Hr; cbn [snd] in Hr; congruence).
    apply unique_violation_inj in Hkey. subst h. auto. }
  assert (existsb (has_file_hash h) (argo_profiles db') = true) as Hex'
    by (rewrite Hprofiles; exact Hex).
  destruct (get_profile_id_by_hash_Some db' h Hex') as (r & Hin & Hh & Hget).
  exists (p_id r).
  rewrite (insert_profile_after_violation _ _ _ _ Hhash Hexec), Hget.
  repeat split; auto.
  exists r. rewrite <- Hprofiles. auto.
Qed.

(** ** The invariant of the store *)

Lemma substring_0_length n s : (String.length (substring 0 n s) <= n)%nat.
Proof.
  revert s. induction n as [| n IH]; intros [| c s]; simpl; try lia.
  specialize (IH s). lia.
Qed.

Lemma varchar_length n s s' :
  varchar n s = Ok s' -> (String.length s' <= n)%nat.
Proof.
  unfold varchar. destruct (String.length s <=? n)%nat eqn:Hlen.
  - intros [= <-]. apply Nat.leb_le, Hlen.
  - case_match; [| discriminate]. intros [= <-]. apply substring_0_length.
Qed.

Lemma varchar_fits n s :
  (String.length s <= n)%nat -> varchar n s = Ok s.
Proof.
  intros Hlen. unfold varchar. apply Nat.leb_le in Hlen. rewrite Hlen.
  reflexivity.
Qed.

(** The row that goes in has the identifier drawn for it and a hash that
    fits; a hash that fits is stored as it is. *)
Lemma profile_values_row id profile_data row :
  profile_values round_literal id profile_data = Ok row ->
  p_id row = id
  /\ (String.length (p_file_hash row) <= 64)%nat
  /\ forall h, file_hash profile_data = Some h ->
               (String.length h <= 64)%nat -> p_file_hash row = h.
Proof.
  intros H. unfold profile_values in H. bind_cases H; try discriminate.
  injection H as <-. cbn [p_id p_file_hash].
  split; [reflexivity |]. split.
  - eapply varchar_length. eassumption.
  - intros h Hh Hlen. rewrite Hh in *.
    match goal with
    | Hp : param "file_hash" (Some h) = Ok ?x |- _ =>
        injection Hp as <-
    end.
    match goal with
    | Hv : varchar 64 h = Ok ?x |- _ =>
        rewrite (varchar_fits 64 h Hlen) in Hv; injection Hv as <-
    end.
    reflexivity.
Qed.

Lemma well_formed_empty : well_formed empty_database.
Proof. split; [reflexivity | constructor]. Qed.

Lemma well_formed_insert_profile db profile_data :
  well_formed db ->
  well_formed (insert_profile round_literal db profile_data).1.
Proof.
  intros [Hseq Hrows].
  assert (well_formed (take_profile_id db)) as Htaken.
  { split; cbn; [lia |]. eapply Forall_impl; [exact Hrows |].
    cbn. intros r. lia. }
  unfold insert_profile, execute_insert_profile.
  destruct (profile_values round_literal _ profile_data) as [row | e]
    eqn:Hvalues.
  - apply profile_values_row in Hvalues as (Hid & Hlen & _).
    cbn zeta. destruct (existsb _ _).
    + pose proof (unique_violation_names_file_hash (p_file_hash row))
        as Hnames.
      unfold unique_violation in *. rewrite Hnames. exact Htaken.
    + cbn [fst]. destruct Htaken as [Hseq' Hrows'].
      split; [exact Hseq' |]. cbn [add_profile_row argo_profiles
                                     argo_profiles_id_seq] in *.
      apply Forall_app. split; [exact Hrows' |].
      constructor; [| constructor]. cbn in *. rewrite Hid. split; [lia | lia].
  - destruct e; try exact (conj Hseq Hrows).
    destruct (contains "file_hash" pgerror); exact (conj Hseq Hrows).
Qed.

(** Inserting measurements leaves the profiles alone. *)
Lemma executemany_profiles db measurements :
  argo_profiles (executemany round_literal db measurements).1
  = argo_profiles db
  /\ argo_profiles_id_seq (executemany round_literal db measurements).1
     = argo_profiles_id_seq db.
Proof.
  revert db. induction measurements as [| m rest IH]; intros db; simpl;
    [auto |].
  unfold execute_insert_measurement.
  destruct (measurement_values round_literal _ m) as [row | e]; [| auto].
  cbn zeta. destruct (references_profile _ _); [| auto].
  destruct (IH (add_measurement_row row (take_measurement_id db)))
    as [Hrows Hseq].
  rewrite Hrows, Hseq. auto.
Qed.

(** ** A profile whose hash is in the store *)

(** [insert_profile] on a hash that has a row: no row is added to either
    table, and what is returned is the identifier of that row, unless
    the binding of the values raises. *)
Lemma insert_profile_present db profile_data h id :
  well_formed db ->
  file_hash profile_data = Some h ->
  get_profile_id_by_hash db h = Some id ->
  argo_profiles (insert_profile round_literal db profile_data).1
  = argo_profiles db
  /\ argo_measurements (insert_profile round_literal db profile_data).1
     = argo_measurements db
  /\ ((insert_profile round_literal db profile_data).2 = Ok (Some id)
      \/ exists e, (insert_profile round_literal db profile_data).2
                   = Raise e).
Proof.
  intros [_ Hrows] Hhash Hget.
  pose proof Hget as (Hex & r & Hin & Hh & Hid)%get_profile_id_by_hash_existsb.
  assert (String.length h <= 64)%nat as Hlen.
  { rewrite Forall_forall in Hrows. destruct (Hrows r Hin) as [_ Hl].
    rewrite Hh in Hl. exact Hl. }
  destruct (profile_values round_literal (argo_profiles_id_seq db)
              profile_data) as [row | e] eqn:Hvalues.
  - pose proof Hvalues as (_ & _ & Hstored)%profile_values_row.
    specialize (Hstored h Hhash Hlen).
    assert (execute_insert_profile round_literal db profile_data
            = (take_profile_id db, Raise (unique_violation h))) as Hexec.
    { unfold execute_insert_profile. rewrite Hvalues. cbn zeta.
      change (argo_profiles (take_profile_id db)) with (argo_profiles db).
      rewrite Hstored, Hex. reflexivity. }
    rewrite (insert_profile_after_violation _ _ _ _ Hhash Hexec).
    cbn [fst snd]. split; [reflexivity |]. split; [reflexivity |]. left.
    change (get_profile_id_by_hash (take_profile_id db) h)
      with (get_profile_id_by_hash db h).
    rewrite Hget. reflexivity.
  - assert (insert_profile round_literal db profile_data = (db, Raise e))
      as ->.
    { unfold insert_profile, execute_insert_profile. rewrite Hvalues.
      apply profile_values_raises in Hvalues.
      destruct Hvalues as [[key ->] | ->]; reflexivity. }
    cbn. eauto.
Qed.

End Store.

(* ===================================================================== *)
(** * Properties of the ingestion of one file *)
(* ===================================================================== *)

Section Ingestion.
Import NetCDFProcessor DatabaseManager DataIngestion.

Variable round_literal : Z -> float -> Z.
Variable st : Components.

(** [store_data_in_database] on a hash that has a row adds no profile
    row, and when it returns, it returns the identifier of that row. *)
Lemma store_data_in_database_present db profile_metadata measurements h id :
  well_formed db ->
  file_hash profile_metadata = Some h ->
  get_profile_id_by_hash db h = Some id ->
  argo_profiles
    (store_data_in_database round_literal st profile_metadata measurements
       db).1 = argo_profiles db
  /\ forall profile_id,
      (store_data_in_database round_literal st profile_metadata measurements
         db).2 = Ok profile_id ->
      profile_id = Some id.
Proof.
  intros Hwf Hhash Hget.
  destruct (insert_profile_present round_literal db profile_metadata h id
              Hwf Hhash Hget) as (Hrows & _ & Hid).
  unfold store_data_in_database, bindDb, lift, ret.
  destruct (insert_profile round_literal db profile_metadata)
    as [db1 [profile_id | e]]; cbn [fst snd] in *;
    [| split; [exact Hrows | discriminate]].
  destruct Hid as [[= ->] | [e He]]; [| discriminate].
  destruct measurements as [| m ms];
    [split; [exact Hrows | intros p Hp; cbn in Hp; congruence] |].
  destruct (clean_measurements st _) as [cleaned | e];
    [| split; [exact Hrows | discriminate]].
  destruct (interpolate_missing_depth st cleaned) as [cleaned' | e];
    [| split; [exact Hrows | discriminate]].
  unfold insert_measurements.
  pose proof (executemany_profiles round_literal db1
                (map (fun measurement =>
                        <["profile_id"%string := value_of_id (Some id)]>
                          measurement)
                   (to_dict_records st cleaned'))) as [Hrows2 _].
  destruct (executemany round_literal db1 _) as [db2 [[] | e]];
    cbn [fst snd] in *;
    [| split; [congruence | discriminate]].
  assert (argo_profiles db2 = argo_profiles db) as Hrows3 by congruence.
  destruct (create_profile_summary st cleaned' profile_metadata)
    as [summary | e]; [| split; [exact Hrows3 | discriminate]].
  destruct (add_profile st summary (Some id)) as [[] | e];
    [| split; [exact Hrows3 | discriminate]].
  destruct (save_index st) as [[] | e];
    [| split; [exact Hrows3 | discriminate]].
  split; [exact Hrows3 | intros p Hp; cbn in Hp; congruence].
Qed.

(** ** The invariant along the ingestion *)

Lemma well_formed_executemany db measurements :
  well_formed db ->
  well_formed (executemany round_literal db measurements).1.
Proof.
  intros [Hseq Hrows].
  destruct (executemany_profiles round_literal db measurements)
    as [Hsame Hsame_seq].
  unfold well_formed. rewrite Hsame, Hsame_seq. auto.
Qed.

Lemma well_formed_store_data_in_database db profile_metadata measurements :
  well_formed db ->
  well_formed
    (store_data_in_database round_literal st profile_metadata measurements
       db).1.
Proof.
  intros Hwf.
  pose proof (well_formed_insert_profile round_literal db profile_metadata
                Hwf) as Hwf1.
  unfold store_data_in_database, bindDb, lift, ret.
  destruct (insert_profile round_literal db profile_metadata)
    as [db1 [profile_id | e]]; cbn [fst] in Hwf1; [| exact Hwf1].
  destruct measurements as [| m ms]; [exact Hwf1 |].
  destruct (clean_measurements st _) as [cleaned | e]; [| exact Hwf1].
  destruct (interpolate_missing_depth st cleaned) as [cleaned' | e];
    [| exact Hwf1].
  unfold insert_measurements.
  pose proof (well_formed_executemany db1
                (map (fun measurement =>
                        <["profile_id"%string := value_of_id profile_id]>
                          measurement)
                   (to_dict_records st cleaned')) Hwf1) as Hwf2.
  destruct (executemany round_literal db1 _) as [db2 [[] | e]];
    cbn [fst] in Hwf2; [| exact Hwf2].
  destruct (create_profile_summary st cleaned' profile_metadata)
    as [summary | e]; [| exact Hwf2].
  destruct (add_profile st summary profile_id) as [[] | e]; [| exact Hwf2].
  destruct (save_index st) as [[] | e]; exact Hwf2.
Qed.

(** Every store reached from the empty one by ingesting files is well
    formed. *)
Lemma well_formed_process_one skip_duplicates processed db :
  well_formed db ->
  well_formed (process_one round_literal st skip_duplicates processed db).1.
Proof.
  intros Hwf. unfold process_one, bindDb, lift, ret.
  destruct processed as [[profile_metadata measurements] | e]; [| exact Hwf].
  pose proof (well_formed_store_data_in_database db profile_metadata
                measurements Hwf) as Hstore.
  destruct skip_duplicates.
  - destruct (param "file_hash" (file_hash profile_metadata)) as [h | e];
      [| exact Hwf].
    destruct (get_profile_id_by_hash db h) as [id |].
    + destruct (truthy (Some id)); [exact Hwf |].
      destruct (store_data_in_database round_literal st profile_metadata
                  measurements db) as [db' [profile_id | e]]; exact Hstore.
    + destruct (store_data_in_database round_literal st profile_metadata
                  measurements db) as [db' [profile_id | e]]; exact Hstore.
  - destruct (store_data_in_database round_literal st profile_metadata
                measurements db) as [db' [profile_id | e]]; exact Hstore.
Qed.

Lemma truthy_positive id : 0 < id -> truthy (Some id) = true.
Proof. intros Hid. unfold truthy. destruct (Z.eqb_spec id 0); [lia | auto]. Qed.

(** C1, as amended.  For a file whose hash has a profile row in a store
    that the manager built: with the skipping of duplicates switched on,
    as it is by default, the file is reported as skipped with the
    identifier of that row and the store is left as it was; with or
    without the skipping, no profile row is added, and an ingestion that
    reports success reports the identifier of that row. *)
Theorem reingestion_keeps_profile
  db profile_metadata measurements h id :
  well_formed db ->
  file_hash profile_metadata = Some h ->
  get_profile_id_by_hash db h = Some id ->
  process_one round_literal st true (Ok (profile_metadata, measurements)) db
  = (db, skipped id)
  /\ (forall skip_duplicates,
        argo_profiles
          (process_one round_literal st skip_duplicates
             (Ok (profile_metadata, measurements)) db).1
        = argo_profiles db)
  /\ (forall skip_duplicates profile_id n,
        (process_one round_literal st skip_duplicates
           (Ok (profile_metadata, measurements)) db).2
        = success profile_id n ->
        profile_id = Some id).
Proof.
  intros Hwf Hhash Hget.
  assert (process_one round_literal st true
            (Ok (profile_metadata, measurements)) db = (db, skipped id))
    as Hskip.
  { unfold process_one, bindDb, lift, ret. rewrite Hhash. cbn [param].
    rewrite Hget.
    pose proof Hget as (_ & r & Hin & _ & Hid)%get_profile_id_by_hash_existsb.
    destruct Hwf as [_ Hrows]. rewrite Forall_forall in Hrows.
    destruct (Hrows r Hin) as [Hpos _]. rewrite Hid in Hpos.
    rewrite truthy_positive by lia. reflexivity. }
  destruct (store_data_in_database_present db profile_metadata measurements
              h id Hwf Hhash Hget) as [Hrows Hid].
  assert (forall r : database * file_result,
            r = (let '(db', res) :=
                   store_data_in_database round_literal st profile_metadata
                     measurements db in
                 (db', match res with
                       | Ok profile_id =>
                           success profile_id (length measurements)
                       | Raise e => error e
                       end)) ->
            argo_profiles r.1 = argo_profiles db
            /\ forall profile_id n, r.2 = success profile_id n ->
                                    profile_id = Some id) as Hstore.
  { intros r ->.
    destruct (store_data_in_database round_literal st profile_metadata
                measurements db) as [db' [profile_id | e]];
      cbn [fst snd] in *.
    - split; [exact Hrows |]. intros p n [= <- _]. apply Hid. reflexivity.
    - split; [exact Hrows | discriminate]. }
  split; [exact Hskip |].
  split.
  - intros [|]; [rewrite Hskip; reflexivity |].
    apply Hstore. unfold process_one, bindDb, lift, ret.
    destruct (store_data_in_database round_literal st profile_metadata
                measurements db) as [db' [profile_id | e]]; reflexivity.
  - intros [|]; [rewrite Hskip; discriminate |].
    apply Hstore. unfold process_one, bindDb, lift, ret.
    destruct (store_data_in_database round_literal st profile_metadata
                measurements db) as [db' [profile_id | e]]; reflexivity.
Qed.

End Ingestion.

Lemma well_formed_stored_once :
  DatabaseManager.well_formed Samples.stored_once.
Proof. apply well_formed_process_one, well_formed_empty. Qed.

(** The sample file a second time, with the skipping switched on. *)
Lemma reingestion_keeps_profile_witness :
  DataIngestion.process_one DatabaseManager.round_half_away
    Samples.pass_through true
    (Ok (Samples.sample_metadata, [Samples.sample_measurement]))
    Samples.stored_once
  = (Samples.stored_once, DataIngestion.skipped 1).
Proof.
  apply (reingestion_keeps_profile DatabaseManager.round_half_away
           Samples.pass_through Samples.stored_once Samples.sample_metadata
           [Samples.sample_measurement]
           "9e107d9d372bb6826bd81d3542a419d6" 1
           well_formed_stored_once eq_refl eq_refl).
Defined.

(** C1, as stated, fails: the sample file went in once, with one
    measurement; [store_data_in_database] on the same file again returns
    the same identifier and adds no profile row, but it inserts the
    measurement a second time. *)
Lemma reingestion_duplicates_measurements :
  let again :=
    DataIngestion.store_data_in_database DatabaseManager.round_half_away
      Samples.pass_through Samples.sample_metadata
      [Samples.sample_measurement] Samples.stored_once in
  DatabaseManager.get_profile_id_by_hash Samples.stored_once
    "9e107d9d372bb6826bd81d3542a419d6" = Some 1
  /\ length (DatabaseManager.argo_profiles Samples.stored_once) = 1%nat
  /\ length (DatabaseManager.argo_measurements Samples.stored_once) = 1%nat
  /\ again.2 = Ok (Some 1)
  /\ length (DatabaseManager.argo_profiles again.1) = 1%nat
  /\ length (DatabaseManager.argo_measurements again.1) = 2%nat.
Proof. vm_compute. repeat split. Qed.

(** The insert of the sample profile into the store that has it. *)
Lemma insert_profile_resolves_unique_violation_witness :
  DatabaseManager.insert_profile DatabaseManager.round_half_away
    Samples.stored_once Samples.sample_metadata
  = (DatabaseManager.take_profile_id Samples.stored_once, Ok (Some 1)).
Proof.
  destruct (insert_profile_resolves_unique_violation
              DatabaseManager.round_half_away Samples.stored_once
              Samples.sample_metadata
              (DatabaseManager.take_profile_id Samples.stored_once)
              "9e107d9d372bb6826bd81d3542a419d6" eq_refl)
    as (id & Hinsert & Hget & _).
  - vm_compute. reflexivity.
  - rewrite Hinsert. vm_compute in Hget. injection Hget as <-. reflexivity.
Defined.

(* ===================================================================== *)
(** * Properties of the search by location *)
(* ===================================================================== *)

Section FloatOrder.
Import LocationSearch.

Lemma SFcompare_refl f :
  SFcompare f f = match f with S754_nan => None | _ => Some Eq end.
Proof.
  destruct f as [s | s | | s m e]; try destruct s; simpl; try reflexivity;
    rewrite Z.compare_refl;
    change (Pos.compare_cont Eq m m) with (Pos.compare m m);
    rewrite Pos.compare_refl; reflexivity.
Qed.

Lemma is_nan_spec x :
  is_nan x = match Prim2SF x with S754_nan => true | _ => false end.
Proof.
  unfold is_nan. rewrite FloatAxioms.eqb_spec. unfold SFeqb. rewrite SFcompare_refl.
  destruct (Prim2SF x); reflexivity.
Qed.

Lemma float8_le_rank a b :
  float8_le a b = true <-> rank_le (rank (Prim2SF a)) (rank (Prim2SF b)).
Proof.
  unfold float8_le. rewrite !is_nan_spec, FloatAxioms.leb_spec.
  unfold SFleb, rank_le.
  destruct (Prim2SF a) as [sa | sa | | sa ma ea],
           (Prim2SF b) as [sb | sb | | sb mb eb];
    try destruct sa; try destruct sb; cbn;
    try (split; [intros; lia | reflexivity]);
    try (split; [discriminate | intros; lia]);
    change (Pos.compare_cont Eq ma mb) with (Pos.compare ma mb);
    destruct (Z.compare_spec ea eb), (Pos.compare_spec ma mb); cbn;
    split; try discriminate; try reflexivity; intros; lia.
Qed.

Lemma float8_le_refl a : float8_le a a = true.
Proof. apply float8_le_rank. unfold rank_le. lia. Qed.

Lemma float8_le_total a b : float8_le a b = false -> float8_le b a = true.
Proof.
  intros Hab. apply float8_le_rank.
  assert (~ rank_le (rank (Prim2SF a)) (rank (Prim2SF b))) as Hnot.
  { intros H. apply float8_le_rank in H. congruence. }
  unfold rank_le in *. lia.
Qed.

Lemma float8_le_trans a b c :
  float8_le a b = true -> float8_le b c = true -> float8_le a c = true.
Proof.
  rewrite !float8_le_rank. unfold rank_le. lia.
Qed.

End FloatOrder.

Section Nearest.
Import DatabaseManager LocationSearch.

Variable cos : float -> float.
Variable sin : float -> float.
Variable acos : float -> float.

Lemma insert_by_distance_perm x l : insert_by_distance x l ≡ₚ x :: l.
Proof.
  induction l as [| y l IH]; simpl; [reflexivity |].
  destruct (float8_le _ _); [reflexivity |].
  rewrite IH. apply Permutation_swap.
Qed.

Lemma order_by_distance_perm l : order_by_distance l ≡ₚ l.
Proof.
  induction l as [| x l IH]; simpl; [reflexivity |].
  rewrite insert_by_distance_perm, IH. reflexivity.
Qed.

Lemma insert_by_distance_ascending x l :
  ascending l -> ascending (insert_by_distance x l).
Proof.
  unfold ascending. intros Hsorted.
  induction Hsorted as [| y l Hsorted IH Hall]; simpl.
  - repeat constructor.
  - destruct (float8_le (distance_km x) (distance_km y)) eqn:Hxy.
    + constructor; [constructor; assumption |].
      constructor; [exact Hxy |].
      eapply Forall_impl; [exact Hall |].
      intros z Hz. exact (float8_le_trans _ _ _ Hxy Hz).
    + constructor; [exact IH |].
      rewrite insert_by_distance_perm.
      constructor; [exact (float8_le_total _ _ Hxy) | exact Hall].
Qed.

Lemma order_by_distance_ascending l : ascending (order_by_distance l).
Proof.
  induction l as [| x l IH]; simpl; [constructor |].
  apply insert_by_distance_ascending, IH.
Qed.

Lemma take_ascending n l : ascending l -> ascending (take n l).
Proof.
  unfold ascending. intros Hsorted. revert n.
  induction Hsorted as [| x l Hsorted IH Hall]; intros [| n]; simpl;
    try constructor.
  - apply IH.
  - apply Forall_forall. intros y Hy.
    rewrite Forall_forall in Hall. apply Hall.
    eapply subseteq_take, Hy.
Qed.

Lemma ascending_app l1 l2 a b :
  ascending (l1 ++ l2) -> a ∈ l1 -> b ∈ l2 ->
  float8_le (distance_km a) (distance_km b) = true.
Proof.
  unfold ascending. induction l1 as [| x l1 IH]; simpl; intros Hsorted Ha Hb.
  - inversion Ha.
  - apply StronglySorted_inv in Hsorted as [Hrest Hall].
    apply elem_of_cons in Ha as [-> | Ha]; [| auto].
    rewrite Forall_forall in Hall. apply Hall, elem_of_app. auto.
Qed.

(** The filter and the distance column are the same expression on the
    same arguments. *)
Lemma where_distance_select_distance lat lon radius_km la lo :
  where_distance cos sin acos [lat; lon; lat; lat; lon; lat; radius_km] la lo
  = select_distance cos sin acos [lat; lon; lat; lat; lon; lat; radius_km]
      la lo.
Proof. reflexivity. Qed.

(** A selected row is a row of the table with its distance, which is
    within the radius. *)
Lemma select_where_Some params p r :
  select_where cos sin acos params p = Ok (Some r) ->
  LocationSearch.id r = p_id p
  /\ select_distance cos sin acos params
       (float8_of_numeric (p_latitude p)) (float8_of_numeric (p_longitude p))
     = Ok (distance_km r)
  /\ exists d,
       where_distance cos sin acos params
         (float8_of_numeric (p_latitude p))
         (float8_of_numeric (p_longitude p)) = Ok d
       /\ float8_le d (placeholder params 6) = true.
Proof.
  unfold select_where, where_clause.
  destruct (where_distance cos sin acos params _ _) as [d | e];
    cbn [bind]; [| discriminate].
  destruct (float8_le d (placeholder params 6)) eqn:Hle; [| discriminate].
  destruct (select_distance cos sin acos params _ _) as [d' | e];
    cbn [bind]; [| discriminate].
  intros [= <-]. cbn. eauto.
Qed.

Lemma scan_Ok params rows selected :
  scan cos sin acos params rows = Ok selected ->
  forall r, r ∈ selected ->
            exists p, p ∈ rows
                      /\ select_where cos sin acos params p = Ok (Some r).
Proof.
  revert selected. induction rows as [| p rows IH]; simpl; intros selected.
  - intros [= <-] r Hr. inversion Hr.
  - destruct (select_where cos sin acos params p) as [x | e] eqn:Hp;
      cbn [bind]; [| discriminate].
    destruct (scan cos sin acos params rows) as [others | e];
      cbn [bind]; [| discriminate].
    intros [= <-] r Hr.
    assert (r ∈ others -> exists p0, p0 ∈ p :: rows
              /\ select_where cos sin acos params p0 = Ok (Some r))
      as Hothers.
    { intros Hin. destruct (IH others eq_refl r Hin) as (p0 & Hp0 & Hsel).
      exists p0. split; [apply elem_of_cons; auto | exact Hsel]. }
    destruct x as [x |]; [| auto].
    apply elem_of_cons in Hr as [-> | Hr]; [| auto].
    exists p. split; [apply elem_of_cons; auto | exact Hp].
Qed.

(** An error on one row is an error of the scan. *)
Lemma scan_Raise params rows p e :
  p ∈ rows ->
  select_where cos sin acos params p = Raise e ->
  exists e', scan cos sin acos params rows = Raise e'.
Proof.
  induction rows as [| p0 rows IH]; intros Hin Hp; [inversion Hin |].
  simpl.
  destruct (select_where cos sin acos params p0) as [x | e0] eqn:Hp0;
    cbn [bind]; [| eauto].
  apply elem_of_cons in Hin as [-> | Hin]; [congruence |].
  destruct (IH Hin Hp) as [e' ->]. cbn [bind]. eauto.
Qed.

Lemma great_circle_out_of_range p1 p2 p3 la lo x :
  acos_argument cos sin p1 p2 p3 la lo = Ok x ->
  PrimFloat.ltb 1 x = true ->
  great_circle cos sin acos p1 p2 p3 la lo = Raise DataError.
Proof.
  intros Hx Hlt. unfold great_circle. rewrite Hx. cbn [bind].
  unfold dacos.
  assert (is_nan x = false) as ->.
  { rewrite is_nan_spec. rewrite FloatAxioms.ltb_spec in Hlt.
    unfold SFltb in Hlt. destruct (Prim2SF x); try reflexivity.
    destruct (Prim2SF 1); discriminate. }
  rewrite Hlt, orb_true_r. reflexivity.
Qed.

(** C8.  The query does not hold for every query point.  The argument
    of [acos] is computed in binary64 and is not kept within -1 and 1;
    when it comes out above 1 for a profile row of the table, the engine
    refuses the query with [input is out of range], and
    [search_profiles_by_location] returns the empty frame, whatever the
    radius and whatever other rows the table has: the profile is not
    returned, and nothing else is. *)
Theorem search_profiles_by_location_out_of_range
  db lat lon radius_km p x :
  p ∈ argo_profiles db ->
  acos_argument cos sin lat lon lat
    (float8_of_numeric (p_latitude p)) (float8_of_numeric (p_longitude p))
  = Ok x ->
  PrimFloat.ltb 1 x = true ->
  where_distance cos sin acos [lat; lon; lat; lat; lon; lat; radius_km]
    (float8_of_numeric (p_latitude p)) (float8_of_numeric (p_longitude p))
  = Raise DataError
  /\ search_profiles_by_location cos sin acos db lat lon radius_km = [].
Proof.
  intros Hp Hx Hlt.
  assert (where_distance cos sin acos
            [lat; lon; lat; lat; lon; lat; radius_km]
            (float8_of_numeric (p_latitude p))
            (float8_of_numeric (p_longitude p)) = Raise DataError) as Hwhere.
  { unfold where_distance. cbn [placeholder nth].
    exact (great_circle_out_of_range _ _ _ _ _ x Hx Hlt). }
  split; [exact Hwhere |].
  unfold search_profiles_by_location, query.
  destruct (scan_Raise [lat; lon; lat; lat; lon; lat; radius_km]
              (argo_profiles db) p DataError Hp) as [e' ->];
    [| reflexivity].
  unfold select_where, where_clause. rewrite Hwhere. reflexivity.
Qed.

(** What the search returns is in ascending order of distance and has
    at most 50 rows; each row is a profile row of the store with the
    value of the distance expression, which is within the radius.  When
    the engine accepts the query, the rows are the nearest of those that
    the filter keeps: a kept row that is not returned is at least as far
    as every returned row, and all kept rows are returned when they are
    50 at most. *)
Theorem search_profiles_by_location_keeps_nearest db lat lon radius_km :
  ascending (search_profiles_by_location cos sin acos db lat lon radius_km)
  /\ (length (search_profiles_by_location cos sin acos db lat lon radius_km)
      <= 50)%nat
  /\ (forall r,
        r ∈ search_profiles_by_location cos sin acos db lat lon radius_km ->
        float8_le (distance_km r) radius_km = true
        /\ exists p,
             p ∈ argo_profiles db /\ LocationSearch.id r = p_id p
             /\ great_circle cos sin acos lat lon lat
                  (float8_of_numeric (p_latitude p))
                  (float8_of_numeric (p_longitude p))
                = Ok (distance_km r))
  /\ (forall kept,
        scan cos sin acos [lat; lon; lat; lat; lon; lat; radius_km]
          (argo_profiles db) = Ok kept ->
        (forall x r,
           x ∈ kept ->
           x ∉ search_profiles_by_location cos sin acos db lat lon
                 radius_km ->
           r ∈ search_profiles_by_location cos sin acos db lat lon
                 radius_km ->
           float8_le (distance_km r) (distance_km x) = true)
        /\ ((length kept <= 50)%nat ->
            search_profiles_by_location cos sin acos db lat lon radius_km
            ≡ₚ kept)).
Proof.
  unfold search_profiles_by_location, query.
  destruct (scan cos sin acos [lat; lon; lat; lat; lon; lat; radius_km]
              (argo_profiles db)) as [kept | e] eqn:Hscan; cbn [bind].
  - split; [apply take_ascending, order_by_distance_ascending |].
    split; [rewrite length_take; lia |].
    split.
    + intros r Hr. apply subseteq_take in Hr.
      rewrite order_by_distance_perm in Hr.
      destruct (scan_Ok _ _ _ Hscan r Hr) as (p & Hp & Hsel).
      apply select_where_Some in Hsel as (Hid & Hd & d & Hw & Hle).
      rewrite where_distance_select_distance, Hd in Hw.
      injection Hw as <-.
      split; [exact Hle |]. exists p. auto.
    + intros kept' [= <-]. split.
      * intros x r Hx Hnot Hr.
        rewrite <- order_by_distance_perm in Hx.
        rewrite <- (take_drop 50 (order_by_distance kept)) in Hx.
        apply elem_of_app in Hx as [Hx | Hx]; [contradiction |].
        apply (ascending_app (take 50 (order_by_distance kept))
                 (drop 50 (order_by_distance kept)));
          [| exact Hr | exact Hx].
        rewrite take_drop. apply order_by_distance_ascending.
      * intros Hfew. rewrite take_ge.
        -- apply order_by_distance_perm.
        -- rewrite (Permutation_length (order_by_distance_perm kept)).
           exact Hfew.
  - split; [constructor |]. split; [simpl; lia |].
    split; [intros r Hr; inversion Hr | discriminate].
Qed.

End Nearest.

(** The failing search: a profile at 12 N, 65 E and the search from that
    very point with a radius of 100 km.  The argument of [acos] comes
    out as 1.0000000000000002, and the search returns nothing. *)
Lemma search_profiles_by_location_out_of_range_witness :
  LocationSearch.acos_argument Samples.sample_cos Samples.sample_sin
    12 65 12 12 65 = Ok 0x1.0000000000001p+0%float
  /\ LocationSearch.search_profiles_by_location Samples.sample_cos
       Samples.sample_sin Samples.sample_acos
       (Samples.one_profile_at 12000000 65000000) 12 65 100 = [].
Proof.
  split; [vm_compute; reflexivity |].
  apply (search_profiles_by_location_out_of_range Samples.sample_cos
           Samples.sample_sin Samples.sample_acos
           (Samples.one_profile_at 12000000 65000000) 12 65 100
           (Samples.row_at 12000000 65000000) 0x1.0000000000001p+0%float).
  - apply elem_of_cons. left. reflexivity.
  - vm_compute. reflexivity.
  - vm_compute. reflexivity.
Defined.

(** The search from 20 N, 65 E with a radius of 100 km on a profile at
    that point, where the argument of [acos] comes out as 1: the profile
    at distance 0. *)
Lemma search_profiles_by_location_keeps_nearest_witness :
  exists r,
    LocationSearch.search_profiles_by_location Samples.sample_cos
      Samples.sample_sin Samples.sample_acos
      (Samples.one_profile_at 20000000 65000000) 20 65 100 = [r]
    /\ LocationSearch.id r = 1
    /\ LocationSearch.float8_le (LocationSearch.distance_km r) 100 = true.
Proof.
  destruct (LocationSearch.search_profiles_by_location Samples.sample_cos
              Samples.sample_sin Samples.sample_acos
              (Samples.one_profile_at 20000000 65000000) 20 65 100)
    as [| r [| r' rest]] eqn:Hsearch;
    try (vm_compute in Hsearch; discriminate).
  exists r. split; [reflexivity |].
  destruct (search_profiles_by_location_keeps_nearest Samples.sample_cos
              Samples.sample_sin Samples.sample_acos
              (Samples.one_profile_at 20000000 65000000) 20 65 100)
    as (_ & _ & Hrows & _).
  rewrite Hsearch in Hrows.
  destruct (Hrows r) as (Hle & p & Hp & Hid & _).
  { apply elem_of_cons. left. reflexivity. }
  split; [| exact Hle].
  rewrite Hid. apply elem_of_cons in Hp as [-> | Hp]; [reflexivity |].
  inversion Hp.
Defined.

(* ===================================================================== *)
(** * Further properties of the processor *)
(* ===================================================================== *)

Section MoreFileHash.
Import NetCDFProcessor Notions.

Variable md5_hexdigest : string -> string.

Lemma append_assoc (a b c : string) : (a +:+ b) +:+ c = a +:+ b +:+ c.
Proof.
  induction a as [| ch a IH]; [reflexivity |].
  change (String ch ((a +:+ b) +:+ c) = String ch (a +:+ b +:+ c)).
  rewrite IH. reflexivity.
Qed.

Lemma append_empty_r (a : string) : a +:+ EmptyString = a.
Proof.
  induction a as [| ch a IH]; [reflexivity |].
  change (String ch (a +:+ EmptyString) = String ch a).
  rewrite IH. reflexivity.
Qed.

Lemma update_chunks_content reads hash_md5 :
  read_fails reads = false ->
  update_chunks reads hash_md5 = Ok (hash_md5 +:+ content reads).
Proof.
  revert hash_md5.
  induction reads as [| [chunk | e] rest IH]; intros hash_md5; simpl.
  - intros _. rewrite append_empty_r. reflexivity.
  - destruct (String.eqb chunk EmptyString).
    + intros _. rewrite append_empty_r. reflexivity.
    + intros Hrest. rewrite (IH _ Hrest), append_assoc. reflexivity.
  - discriminate.
Qed.

(** When the file opens and no read fails, the hash is the digest of the
    bytes of the file up to its end, however the reads cut them into
    chunks. *)
Theorem calculate_file_hash_of_content fs file_path reads :
  open_rb fs file_path = Ok reads ->
  read_fails reads = false ->
  calculate_file_hash md5_hexdigest fs file_path
  = Ok (md5_hexdigest (content reads)).
Proof.
  intros Hopen Hreads. unfold calculate_file_hash. rewrite Hopen. simpl.
  rewrite (update_chunks_content reads EmptyString Hreads). reflexivity.
Qed.

End MoreFileHash.

(** A file read in one chunk and the same bytes read in three chunks
    have the same hash. *)
Lemma calculate_file_hash_of_content_witness :
  NetCDFProcessor.calculate_file_hash Samples.sample_digest
    (Samples.one_file "/tmp/a.nc" Samples.three_levels
       (Ok [Ok "CDF"%string; Ok "data"%string; Ok "!"%string]))
    "/tmp/a.nc"
  = NetCDFProcessor.calculate_file_hash Samples.sample_digest
      (Samples.one_file "/tmp/b.nc" Samples.three_levels
         (Ok [Ok "CDFdata!"%string; Ok EmptyString]))
      "/tmp/b.nc".
Proof.
  rewrite (calculate_file_hash_of_content Samples.sample_digest
             (Samples.one_file "/tmp/a.nc" Samples.three_levels
                (Ok [Ok "CDF"%string; Ok "data"%string; Ok "!"%string]))
             "/tmp/a.nc" _ eq_refl eq_refl).
  rewrite (calculate_file_hash_of_content Samples.sample_digest
             (Samples.one_file "/tmp/b.nc" Samples.three_levels
                (Ok [Ok "CDFdata!"%string; Ok EmptyString]))
             "/tmp/b.nc" _ eq_refl eq_refl).
  reflexivity.
Defined.

Section MoreMeasurements.
Import NetCDFProcessor Notions.

Variable float_of_bytes : string -> result float.
Variable validate_measurement_data : gmap string value -> result bool.

(** Without one of the pressure, temperature and salinity arrays there
    are no measurements, whatever else the file has. *)
Theorem extract_measurements_requires_all ds :
  has_variable ds "PRES" = false \/ has_variable ds "TEMP" = false
  \/ has_variable ds "PSAL" = false ->
  extract_measurements float_of_bytes validate_measurement_data ds = Ok [].
Proof.
  unfold has_variable, extract_measurements, extract_measurements_try.
  intros Hmissing.
  destruct (get_n_levels ds) as [[n |] | e]; simpl; try reflexivity.
  destruct (variables ds !! "PRES"%string); [| reflexivity].
  destruct (variables ds !! "TEMP"%string); [| reflexivity].
  destruct (variables ds !! "PSAL"%string); [| reflexivity].
  destruct Hmissing as [? | [? | ?]]; discriminate.
Qed.

(** The variables of the loop, as [extract_measurements] collects them. *)
Lemma extract_measurements_cases ds ms :
  extract_measurements float_of_bytes validate_measurement_data ds = Ok ms ->
  ms = []
  \/ exists n pres temp psal,
      get_n_levels ds = Ok (Some n)
      /\ variables ds !! "PRES"%string = Some pres
      /\ variables ds !! "TEMP"%string = Some temp
      /\ variables ds !! "PSAL"%string = Some psal
      /\ build_measurements float_of_bytes validate_measurement_data
           (("pressure"%string, pres) :: ("temperature"%string, temp)
            :: ("salinity"%string, psal) :: optional_variables ds)
           (get_quality_flags ds) (seq 0 n) [] = Ok ms.
Proof.
  unfold extract_measurements, extract_measurements_try.
  destruct (get_n_levels ds) as [[n |] | e]; simpl;
    try (intros [= <-]; left; reflexivity).
  destruct (variables ds !! "PRES"%string) as [pres |];
    [| intros [= <-]; left; reflexivity].
  destruct (variables ds !! "TEMP"%string) as [temp |];
    [| intros [= <-]; left; reflexivity].
  destruct (variables ds !! "PSAL"%string) as [psal |];
    [| intros [= <-]; left; reflexivity].
  destruct (build_measurements _ _ _ _ _ _) as [l | e] eqn:Hloop; simpl;
    intros [= <-]; [| left; reflexivity].
  right. exists n, pres, temp, psal. auto.
Qed.

Lemma level_values_raises vars i m name var_data :
  (name, var_data) ∈ vars ->
  raises (level_value float_of_bytes var_data i) = true ->
  raises (level_values float_of_bytes vars i m) = true.
Proof.
  revert m. induction vars as [| [n0 a0] rest IH]; intros m Hin Hraise.
  - apply elem_of_nil in Hin. destruct Hin.
  - simpl. apply elem_of_cons in Hin as [[= <- <-] | Hin].
    + destruct (level_value float_of_bytes var_data i);
        [discriminate | reflexivity].
    + destruct (level_value float_of_bytes a0 i); [| reflexivity].
      simpl. apply IH; assumption.
Qed.

Lemma build_measurements_raises vars quality_flags levels acc k :
  k ∈ levels ->
  raises (build_measurement float_of_bytes vars quality_flags k) = true ->
  raises (build_measurements float_of_bytes validate_measurement_data
            vars quality_flags levels acc) = true.
Proof.
  revert acc. induction levels as [| i rest IH]; intros acc Hin Hraise.
  - apply elem_of_nil in Hin. destruct Hin.
  - simpl. apply elem_of_cons in Hin as [<- | Hin].
    + destruct (build_measurement float_of_bytes vars quality_flags k);
        [discriminate | reflexivity].
    + destruct (build_measurement float_of_bytes vars quality_flags i);
        [| reflexivity].
      simpl. destruct (validate_measurement_data a); [| reflexivity].
      simpl. apply IH; assumption.
Qed.

Lemma level_value_bytes xs k b :
  xs !! k = Some (SBytes b) ->
  raises (level_value float_of_bytes (Arr1 xs) k) = true.
Proof.
  intros Hk. unfold level_value. simpl.
  pose proof (lookup_lt_Some _ _ _ Hk) as Hlt.
  apply Nat.ltb_lt in Hlt. rewrite Hlt, Hk. reflexivity.
Qed.

(** One element that is not a number, at a level below the level count,
    in the pressure, temperature or salinity array, and the file gives
    no measurement at all: the records of the other levels are lost
    with it. *)
Theorem extract_measurements_all_or_nothing ds n name xs k b :
  get_n_levels ds = Ok (Some n) ->
  name ∈ ["PRES"; "TEMP"; "PSAL"]%string ->
  variables ds !! name = Some (Arr1 xs) ->
  xs !! k = Some (SBytes b) ->
  (k < n)%nat ->
  extract_measurements float_of_bytes validate_measurement_data ds = Ok [].
Proof.
  intros Hn Hname Hvar Hk Hlt.
  destruct (extract_measurements float_of_bytes validate_measurement_data ds)
    as [ms | e] eqn:Hms.
  2:{ unfold extract_measurements, try_except, except_return in Hms.
      destruct (extract_measurements_try _ _ ds); discriminate. }
  f_equal.
  destruct (extract_measurements_cases ds ms Hms)
    as [-> | (n' & pres & temp & psal & Hn' & Hp & Ht & Hs & Hloop)];
    [reflexivity |].
  exfalso.
  assert (exists key, (key, Arr1 xs)
                      ∈ ("pressure"%string, pres)
                        :: ("temperature"%string, temp)
                        :: ("salinity"%string, psal)
                        :: optional_variables ds) as [key Hin].
  { revert Hname. rewrite !elem_of_cons, elem_of_nil.
    intros [-> | [-> | [-> | []]]].
    - exists "pressure"%string. rewrite Hp in Hvar. injection Hvar as ->.
      apply elem_of_cons. auto.
    - exists "temperature"%string. rewrite Ht in Hvar. injection Hvar as ->.
      apply elem_of_cons. right. apply elem_of_cons. auto.
    - exists "salinity"%string. rewrite Hs in Hvar. injection Hvar as ->.
      do 2 (apply elem_of_cons; right). apply elem_of_cons. auto. }
  rewrite Hn in Hn'. injection Hn' as <-.
  pose proof (level_value_bytes xs k b Hk) as Hvalue.
  pose proof (level_values_raises _ k ∅ _ _ Hin Hvalue) as Hvalues.
  assert (raises (build_measurement float_of_bytes
                    (("pressure"%string, pres)
                     :: ("temperature"%string, temp)
                     :: ("salinity"%string, psal) :: optional_variables ds)
                    (get_quality_flags ds) k) = true) as Hbuild.
  { unfold build_measurement.
    destruct (level_values float_of_bytes _ k ∅); [discriminate |].
    reflexivity. }
  assert (k ∈ seq 0 n) as Hseq by (apply elem_of_seq; lia).
  pose proof (build_measurements_raises _ _ _ [] k Hseq Hbuild) as Hall.
  rewrite Hloop in Hall. discriminate.
Qed.

End MoreMeasurements.

(** The file accepted by [validate_file] on its pressure array alone
    has no measurements. *)
Lemma extract_measurements_requires_all_witness :
  NetCDFProcessor.validate_file
    (Samples.one_file "/tmp/a.nc" Samples.pressure_only (Ok [])) "/tmp/a.nc"
  = Ok true
  /\ NetCDFProcessor.extract_measurements Samples.sample_float_of_bytes
       Samples.accept_all Samples.pressure_only = Ok [].
Proof.
  split; [reflexivity |].
  apply (extract_measurements_requires_all Samples.sample_float_of_bytes
           Samples.accept_all Samples.pressure_only).
  right. left. reflexivity.
Defined.

(** Three levels, the second pressure a byte string: no record, not even
    of the first level. *)
Lemma extract_measurements_all_or_nothing_witness :
  NetCDFProcessor.extract_measurements Samples.sample_float_of_bytes
    Samples.accept_all MoreSamples.bad_element = Ok [].
Proof.
  apply (extract_measurements_all_or_nothing Samples.sample_float_of_bytes
           Samples.accept_all MoreSamples.bad_element 3 "PRES"
           [SFloat 5; SBytes "x"; SFloat 15] 1 "x").
  - reflexivity.
  - apply elem_of_cons. auto.
  - reflexivity.
  - reflexivity.
  - lia.
Defined.

Section MoreRecords.
Import NetCDFProcessor Notions.

Variable float_of_bytes : string -> result float.
Variable validate_measurement_data : gmap string value -> result bool.

Lemma set_depth_other m key :
  key <> "depth"%string -> set_depth m !! key = m !! key.
Proof.
  intros Hne. unfold set_depth.
  destruct (m !! "pressure"%string) as [[| f | z] |]; try reflexivity;
    apply lookup_insert_ne; congruence.
Qed.

Ltac decide_keys :=
  rewrite ?elem_of_cons, ?elem_of_nil;
  intuition (discriminate || congruence).

(** An optional parameter is among the variables of the loop exactly
    when the file has it. *)
Lemma optional_variables_present ds :
  ("oxygen"%string ∈ (optional_variables ds).*1
   <-> has_variable ds "DOXY" = true)
  /\ ("nitrate"%string ∈ (optional_variables ds).*1
      <-> has_variable ds "NITRATE" = true)
  /\ ("ph"%string ∈ (optional_variables ds).*1
      <-> has_variable ds "PH_IN_SITU_TOTAL" = true)
  /\ ("chlorophyll"%string ∈ (optional_variables ds).*1
      <-> has_variable ds "CHLA" = true).
Proof.
  unfold optional_variables, has_variable. cbn [omap list_omap].
  destruct (variables ds !! "DOXY"%string);
    destruct (variables ds !! "NITRATE"%string);
    destruct (variables ds !! "PH_IN_SITU_TOTAL"%string);
    destruct (variables ds !! "CHLA"%string);
    cbn; repeat split; decide_keys.
Qed.

(** Every record has the pressure, temperature and salinity keys and an
    integer quality flag, and it has the key of an optional parameter
    exactly when the file has the variable of that parameter. *)
Theorem extract_measurements_keys ds measurements m :
  extract_measurements float_of_bytes validate_measurement_data ds
  = Ok measurements ->
  m ∈ measurements ->
  is_Some (m !! "pressure"%string)
  /\ is_Some (m !! "temperature"%string)
  /\ is_Some (m !! "salinity"%string)
  /\ (exists q, m !! "quality_flag"%string = Some (VInt q))
  /\ (is_Some (m !! "oxygen"%string) <-> has_variable ds "DOXY" = true)
  /\ (is_Some (m !! "nitrate"%string) <-> has_variable ds "NITRATE" = true)
  /\ (is_Some (m !! "ph"%string)
      <-> has_variable ds "PH_IN_SITU_TOTAL" = true)
  /\ (is_Some (m !! "chlorophyll"%string)
      <-> has_variable ds "CHLA" = true).
Proof.
  intros Hms Hm.
  destruct (extract_measurements_cases float_of_bytes
              validate_measurement_data ds measurements Hms)
    as [-> | (n & pres & temp & psal & _ & _ & _ & _ & Hloop)].
  { apply elem_of_nil in Hm. destruct Hm. }
  set (vars := ("pressure"%string, pres) :: ("temperature"%string, temp)
               :: ("salinity"%string, psal) :: optional_variables ds) in *.
  destruct (build_measurements_spec _ _ _ _ _ _ _ Hloop) as [_ Hin].
  destruct (Hin m Hm) as [Hnil | (i & _ & Hbuild)].
  { apply elem_of_nil in Hnil. destruct Hnil. }
  revert Hbuild. unfold build_measurement.
  destruct (level_values float_of_bytes vars i ∅) as [m0 | e] eqn:Hvalues;
    simpl; [| discriminate].
  destruct (quality_flag_at (get_quality_flags ds) i) as [q | e]; simpl;
    [| discriminate].
  intros [= <-].
  destruct (level_values_spec float_of_bytes vars i ∅ m0 Hvalues)
    as (_ & Hother & Hset).
  { intros key. rewrite lookup_empty. reflexivity. }
  assert (forall key, key <> "quality_flag"%string -> key <> "depth"%string ->
            (<["quality_flag"%string := VInt q]> (set_depth m0)) !! key
            = m0 !! key) as Hkey.
  { intros key H1 H2. rewrite lookup_insert_ne by congruence.
    apply set_depth_other, H2. }
  assert (forall key, key <> "quality_flag"%string -> key <> "depth"%string ->
            (is_Some ((<["quality_flag"%string := VInt q]> (set_depth m0))
                        !! key)
             <-> key ∈ vars.*1)) as Hiff.
  { intros key H1 H2. rewrite (Hkey key H1 H2). split.
    - intros Hsome. destruct (decide (key ∈ vars.*1)) as [Hin' | Hnot];
        [exact Hin' |].
      rewrite (Hother key Hnot), lookup_empty in Hsome.
      destruct Hsome; discriminate.
    - apply Hset. }
  assert (forall key, key ∈ vars.*1
            <-> key = "pressure"%string \/ key = "temperature"%string
                \/ key = "salinity"%string
                \/ key ∈ (optional_variables ds).*1) as Hvars.
  { intros key. unfold vars. rewrite !fmap_cons. cbn [fst].
    rewrite !elem_of_cons. tauto. }
  destruct (optional_variables_present ds) as (Ho & Hn & Hp & Hc).
  repeat split.
  - apply Hiff; [discriminate .. |]. apply Hvars. auto.
  - apply Hiff; [discriminate .. |]. apply Hvars. auto.
  - apply Hiff; [discriminate .. |]. apply Hvars. auto.
  - exists q. apply lookup_insert_eq.
  - intros H. apply Ho. apply Hiff in H; [| discriminate ..].
    apply Hvars in H as [? | [? | [? | ?]]]; try discriminate. assumption.
  - intros H. apply Hiff; [discriminate .. |]. apply Hvars.
    right. right. right. apply Ho, H.
  - intros H. apply Hn. apply Hiff in H; [| discriminate ..].
    apply Hvars in H as [? | [? | [? | ?]]]; try discriminate. assumption.
  - intros H. apply Hiff; [discriminate .. |]. apply Hvars.
    right. right. right. apply Hn, H.
  - intros H. apply Hp. apply Hiff in H; [| discriminate ..].
    apply Hvars in H as [? | [? | [? | ?]]]; try discriminate. assumption.
  - intros H. apply Hiff; [discriminate .. |]. apply Hvars.
    right. right. right. apply Hp, H.
  - intros H. apply Hc. apply Hiff in H; [| discriminate ..].
    apply Hvars in H as [? | [? | [? | ?]]]; try discriminate. assumption.
  - intros H. apply Hiff; [discriminate .. |]. apply Hvars.
    right. right. right. apply Hc, H.
Qed.

End MoreRecords.

(** The records of the three-level sample, a file without oxygen, have
    the pressure key and no oxygen key. *)
Lemma extract_measurements_keys_witness :
  exists measurements,
    NetCDFProcessor.extract_measurements Samples.sample_float_of_bytes
      Samples.accept_all Samples.three_levels = Ok measurements
    /\ Forall (fun m : gmap string NetCDFProcessor.value =>
                 is_Some (m !! "pressure"%string)
                 /\ m !! "oxygen"%string = None) measurements.
Proof.
  destruct (extract_measurements_spec Samples.sample_float_of_bytes
              Samples.accept_all Samples.three_levels) as (ms & Hms & _).
  exists ms. split; [exact Hms |].
  apply Forall_forall. intros m Hin.
  destruct (extract_measurements_keys Samples.sample_float_of_bytes
              Samples.accept_all Samples.three_levels ms m Hms Hin)
    as (Hp & _ & _ & _ & Ho & _).
  split; [exact Hp |].
  destruct (m !! "oxygen"%string) as [v |]; [| reflexivity].
  assert (is_Some (Some v)) as Hsome by eauto.
  apply Ho in Hsome. vm_compute in Hsome. discriminate.
Defined.

Section MoreMetadata.
Import NetCDFProcessor Notions.

Variable py_str : scalar -> string.
Variable float_of_bytes : string -> result float.
Variable Timedelta_days : float -> result Z.
Variable now : Z.

(** The metadata is all or nothing: the empty dictionary, or one with a
    float identifier, a cycle number, a date and a data centre.  In the
    second case the float identifier is the platform number, or
    "unknown" without one; the cycle number is 0 without the variable,
    the date the current time without a day offset, the data centre
    "unknown" without either spelling of the variable; the platform
    number, the latitude and the longitude are there exactly when the
    file has their variables; and the file hash is not set. *)
Theorem extract_profile_metadata_shape ds m :
  extract_profile_metadata py_str float_of_bytes Timedelta_days now ds
  = Ok m ->
  m = no_metadata
  \/ (float_id m = Some (default "unknown"%string (platform_number m))
      /\ (is_Some (platform_number m)
          <-> has_variable ds "PLATFORM_NUMBER" = true)
      /\ (exists c, cycle_number m = Some c
                    /\ (has_variable ds "CYCLE_NUMBER" = false -> c = 0))
      /\ (is_Some (latitude m) <-> has_variable ds "LATITUDE" = true)
      /\ (is_Some (longitude m) <-> has_variable ds "LONGITUDE" = true)
      /\ (exists t, measurement_date m = Some t
                    /\ (has_variable ds "JULD" = false -> t = now))
      /\ (exists d, data_center m = Some d
                    /\ (has_variable ds "DATA_CENTRE" = false ->
                        has_variable ds "DATA_CENTER" = false ->
                        d = "unknown"%string))
      /\ file_hash m = None).
Proof.
  unfold extract_profile_metadata.
  destruct (extract_profile_metadata_try py_str float_of_bytes
              Timedelta_days now ds) as [m' | e] eqn:Htry; simpl;
    intros [= <-]; [| left; reflexivity].
  right. revert Htry. unfold extract_profile_metadata_try, has_variable.
  destruct (match variables ds !! "PLATFORM_NUMBER"%string with
            | Some _ => _ | None => _ end) as [platform |] eqn:Hplatform;
    simpl; [| discriminate].
  destruct (match variables ds !! "CYCLE_NUMBER"%string with
            | Some _ => _ | None => _ end) as [cycle |] eqn:Hcycle;
    simpl; [| discriminate].
  destruct (match variables ds !! "LATITUDE"%string with
            | Some _ => _ | None => _ end) as [lat |] eqn:Hlat;
    simpl; [| discriminate].
  destruct (match variables ds !! "LONGITUDE"%string with
            | Some _ => _ | None => _ end) as [lon |] eqn:Hlon;
    simpl; [| discriminate].
  destruct (match variables ds !! "JULD"%string with
            | Some _ => _ | None => _ end) as [date |] eqn:Hdate;
    simpl; [| discriminate].
  destruct (if _ : bool then _ else _) as [centre |] eqn:Hcentre;
    simpl; [| discriminate].
  intros [= <-]. cbn.
  split; [reflexivity |].
  split.
  { destruct (variables ds !! "PLATFORM_NUMBER"%string) as [a |].
    - unfold hasattr_item in Hplatform.
      destruct (item a); simpl in Hplatform; [| discriminate].
      injection Hplatform as <-. split; eauto.
    - injection Hplatform as <-. split; [intros []; discriminate |].
      discriminate. }
  split.
  { exists cycle. split; [reflexivity |].
    destruct (variables ds !! "CYCLE_NUMBER"%string);
      [discriminate | congruence]. }
  split.
  { destruct (variables ds !! "LATITUDE"%string) as [a |].
    - revert Hlat; unfold hasattr_item;
        destruct (item a); simpl; try discriminate;
        destruct (py_float float_of_bytes _); simpl; try discriminate;
        intros [= <-]; split; eauto.
    - injection Hlat as <-. split; [intros []; discriminate |].
      discriminate. }
  split.
  { destruct (variables ds !! "LONGITUDE"%string) as [a |].
    - revert Hlon; unfold hasattr_item;
        destruct (item a); simpl; try discriminate;
        destruct (py_float float_of_bytes _); simpl; try discriminate;
        intros [= <-]; split; eauto.
    - injection Hlon as <-. split; [intros []; discriminate |].
      discriminate. }
  split.
  { exists date. split; [reflexivity |].
    destruct (variables ds !! "JULD"%string);
      [discriminate | congruence]. }
  split; [| reflexivity].
  exists centre. split; [reflexivity |].
  destruct (variables ds !! "DATA_CENTRE"%string);
    [discriminate |].
  destruct (variables ds !! "DATA_CENTER"%string);
    [discriminate |].
  simpl in Hcentre. congruence.
Qed.

Lemma item_not_single xs :
  length xs <> 1%nat -> item (Arr1 xs) = Raise ValueError.
Proof. destruct xs as [| x [| y xs]]; simpl; congruence. Qed.

Ltac stop_at Hvar xs :=
  rewrite Hvar; destruct xs as [| ? [| ? ?]]; simpl in *;
  [discriminate | congruence | discriminate].

(** A metadata variable with no element or with more than one, as in a
    file of several profiles, empties the metadata: [item()] raises on
    it, and the [except] clause returns the empty dictionary. *)
Theorem extract_profile_metadata_needs_single ds name xs :
  name ∈ ["PLATFORM_NUMBER"; "CYCLE_NUMBER"; "LATITUDE"; "LONGITUDE";
          "JULD"; "DATA_CENTRE"]%string ->
  variables ds !! name = Some (Arr1 xs) ->
  length xs <> 1%nat ->
  extract_profile_metadata py_str float_of_bytes Timedelta_days now ds
  = Ok no_metadata.
Proof.
  intros Hname Hvar Hlen.
  unfold extract_profile_metadata.
  destruct (extract_profile_metadata_try py_str float_of_bytes
              Timedelta_days now ds) as [m | e] eqn:Htry; [| reflexivity].
  exfalso. revert Htry. unfold extract_profile_metadata_try.
  revert Hname. rewrite !elem_of_cons, elem_of_nil.
  intros [-> | [-> | [-> | [-> | [-> | [-> | []]]]]]].
  - stop_at Hvar xs.
  - destruct (match variables ds !! "PLATFORM_NUMBER"%string with
              | Some _ => _ | None => _ end); simpl; [| discriminate].
    stop_at Hvar xs.
  - destruct (match variables ds !! "PLATFORM_NUMBER"%string with
              | Some _ => _ | None => _ end); simpl; [| discriminate].
    destruct (match variables ds !! "CYCLE_NUMBER"%string with
              | Some _ => _ | None => _ end); simpl; [| discriminate].
    stop_at Hvar xs.
  - destruct (match variables ds !! "PLATFORM_NUMBER"%string with
              | Some _ => _ | None => _ end); simpl; [| discriminate].
    destruct (match variables ds !! "CYCLE_NUMBER"%string with
              | Some _ => _ | None => _ end); simpl; [| discriminate].
    destruct (match variables ds !! "LATITUDE"%string with
              | Some _ => _ | None => _ end); simpl; [| discriminate].
    stop_at Hvar xs.
  - destruct (match variables ds !! "PLATFORM_NUMBER"%string with
              | Some _ => _ | None => _ end); simpl; [| discriminate].
    destruct (match variables ds !! "CYCLE_NUMBER"%string with
              | Some _ => _ | None => _ end); simpl; [| discriminate].
    destruct (match variables ds !! "LATITUDE"%string with
              | Some _ => _ | None => _ end); simpl; [| discriminate].
    destruct (match variables ds !! "LONGITUDE"%string with
              | Some _ => _ | None => _ end); simpl; [| discriminate].
    stop_at Hvar xs.
  - destruct (match variables ds !! "PLATFORM_NUMBER"%string with
              | Some _ => _ | None => _ end); simpl; [| discriminate].
    destruct (match variables ds !! "CYCLE_NUMBER"%string with
              | Some _ => _ | None => _ end); simpl; [| discriminate].
    destruct (match variables ds !! "LATITUDE"%string with
              | Some _ => _ | None => _ end); simpl; [| discriminate].
    destruct (match variables ds !! "LONGITUDE"%string with
              | Some _ => _ | None => _ end); simpl; [| discriminate].
    destruct (match variables ds !! "JULD"%string with
              | Some _ => _ | None => _ end); simpl; [| discriminate].
    unfold has_variable. rewrite Hvar. simpl. stop_at Hvar xs.
Qed.

End MoreMetadata.

(** A file with only a pressure array: the defaults. *)
Lemma extract_profile_metadata_shape_witness :
  exists m,
    NetCDFProcessor.extract_profile_metadata Samples.sample_str
      Samples.sample_float_of_bytes Timedelta_days_ns Samples.sample_now
      Samples.pressure_only = Ok m
    /\ NetCDFProcessor.float_id m = Some "unknown"%string
    /\ NetCDFProcessor.cycle_number m = Some 0
    /\ NetCDFProcessor.measurement_date m = Some Samples.sample_now
    /\ NetCDFProcessor.latitude m = None.
Proof.
  destruct (extract_profile_metadata_total Samples.sample_str
              Samples.sample_float_of_bytes Timedelta_days_ns
              Samples.sample_now Samples.pressure_only) as [m Hm].
  exists m. split; [exact Hm |].
  destruct (extract_profile_metadata_shape Samples.sample_str
              Samples.sample_float_of_bytes Timedelta_days_ns
              Samples.sample_now Samples.pressure_only m Hm)
    as [-> | (Hid & Hplatform & (c & Hc & Hc0) & Hlat & _
              & (t & Ht & Ht0) & _)].
  { vm_compute in Hm. discriminate. }
  assert (NetCDFProcessor.platform_number m = None) as Hnone.
  { destruct (NetCDFProcessor.platform_number m) eqn:Hp; [| reflexivity].
    assert (is_Some (Some s)) as Hsome by eauto.
    apply Hplatform in Hsome. discriminate. }
  rewrite Hid, Hnone, Hc, Ht, (Hc0 eq_refl), (Ht0 eq_refl).
  repeat split.
  destruct (NetCDFProcessor.latitude m) eqn:Hl; [| reflexivity].
  assert (is_Some (Some f)) as Hsome by eauto.
  apply Hlat in Hsome. discriminate.
Defined.

(** The file with two platform numbers has no metadata. *)
Lemma extract_profile_metadata_needs_single_witness :
  NetCDFProcessor.extract_profile_metadata Samples.sample_str
    Samples.sample_float_of_bytes Timedelta_days_ns Samples.sample_now
    MoreSamples.two_platforms = Ok NetCDFProcessor.no_metadata.
Proof.
  apply (extract_profile_metadata_needs_single Samples.sample_str
           Samples.sample_float_of_bytes Timedelta_days_ns Samples.sample_now
           MoreSamples.two_platforms "PLATFORM_NUMBER"
           [SBytes "5904471"; SBytes "5904472"]).
  - apply elem_of_cons. auto.
  - reflexivity.
  - simpl. lia.
Defined.

Section MoreProcessing.
Import NetCDFProcessor Notions Batches.

Variable md5_hexdigest : string -> string.
Variable py_str : scalar -> string.
Variable float_of_bytes : string -> result float.
Variable Timedelta_days : float -> result Z.
Variable now : Z.
Variable validate_measurement_data : gmap string value -> result bool.

Lemma validate_file_true_opens fs file_path :
  validate_file fs file_path = Ok true ->
  exists ds, open_dataset fs file_path = Ok ds.
Proof.
  unfold validate_file, validate_file_try.
  destruct (path_exists fs file_path); [| discriminate].
  destruct (splitext file_path) as [root ext]. cbv beta iota.
  destruct (str_in (lower ext) supported_formats); [| discriminate].
  destruct (open_dataset fs file_path) as [ds | e]; [eauto | discriminate].
Qed.

(** [process_file] fails exactly on the files that [validate_file]
    refuses, and then with [ValueError].  On a file that validates it
    always returns: the metadata of the dataset with the hash of the
    file set, and the measurements of the dataset, whatever went wrong in
    computing the three (each of them then being empty). *)
Theorem process_file_returns_iff_valid fs file_path :
  (validate_file fs file_path = Ok false ->
   process_file md5_hexdigest py_str float_of_bytes Timedelta_days now
     validate_measurement_data fs file_path = Raise ValueError)
  /\ (validate_file fs file_path = Ok true ->
      exists ds h m ms,
        open_dataset fs file_path = Ok ds
        /\ calculate_file_hash md5_hexdigest fs file_path = Ok h
        /\ extract_profile_metadata py_str float_of_bytes Timedelta_days
             now ds = Ok m
        /\ extract_measurements float_of_bytes validate_measurement_data ds
           = Ok ms
        /\ process_file md5_hexdigest py_str float_of_bytes Timedelta_days
             now validate_measurement_data fs file_path
           = Ok (set_file_hash h m, ms)).
Proof.
  split.
  - intros Hvalid. unfold process_file. rewrite Hvalid. reflexivity.
  - intros Hvalid.
    destruct (validate_file_true_opens fs file_path Hvalid) as [ds Hds].
    destruct (calculate_file_hash_total md5_hexdigest fs file_path)
      as [h Hh].
    destruct (extract_profile_metadata_total py_str float_of_bytes
                Timedelta_days now ds) as [m Hm].
    destruct (extract_measurements_spec float_of_bytes
                validate_measurement_data ds) as (ms & Hms & _).
    exists ds, h, m, ms. repeat split; try assumption.
    unfold process_file. rewrite Hvalid, Hh, Hds. simpl.
    rewrite Hm. simpl. rewrite Hms. reflexivity.
Qed.

Lemma omap_length_le {A B} (f : A -> option B) (l : list A) :
  (length (omap f l) <= length l)%nat.
Proof.
  induction l as [| x l IH]; [reflexivity |].
  change (omap f (x :: l))
    with (match f x with Some y => y :: omap f l | None => omap f l end).
  destruct (f x); simpl; lia.
Qed.

Lemma process_multiple_files_foldl process paths
  (acc : list (metadata * list (gmap string value))) :
  foldl (fun results file_path =>
           match process file_path with
           | Ok data => results ++ [data]
           | Raise _ => results
           end) acc paths
  = acc ++ omap (processed process) paths.
Proof.
  revert acc. induction paths as [| p rest IH]; intros acc; simpl.
  - rewrite app_nil_r. reflexivity.
  - rewrite IH. unfold processed at 2.
    destruct (process p); simpl; [rewrite <- app_assoc |]; reflexivity.
Qed.

(** [process_multiple_files] gives the results of the files that
    [process_file] accepts, in the order of the paths; a file that fails
    takes nothing from the files around it, so the results of two lists
    of paths, one after the other, are the results of each, one after
    the other. *)
Theorem process_multiple_files_keeps_successes fs paths more :
  process_multiple_files md5_hexdigest py_str float_of_bytes Timedelta_days
    now validate_measurement_data fs paths
  = omap (processed (process_file md5_hexdigest py_str float_of_bytes
                       Timedelta_days now validate_measurement_data fs))
      paths
  /\ process_multiple_files md5_hexdigest py_str float_of_bytes
       Timedelta_days now validate_measurement_data fs (paths ++ more)
     = process_multiple_files md5_hexdigest py_str float_of_bytes
         Timedelta_days now validate_measurement_data fs paths
       ++ process_multiple_files md5_hexdigest py_str float_of_bytes
            Timedelta_days now validate_measurement_data fs more
  /\ (length (process_multiple_files md5_hexdigest py_str float_of_bytes
                Timedelta_days now validate_measurement_data fs paths)
      <= length paths)%nat.
Proof.
  unfold process_multiple_files.
  rewrite !process_multiple_files_foldl. cbn [app].
  split; [reflexivity |]. split.
  - apply omap_app.
  - apply omap_length_le.
Qed.

End MoreProcessing.

(** The sample file is processed: its hash is set, and it has three
    measurements. *)
Lemma process_file_returns_iff_valid_witness :
  exists m ms,
    NetCDFProcessor.process_file Samples.sample_digest Samples.sample_str
      Samples.sample_float_of_bytes Timedelta_days_ns Samples.sample_now
      Samples.accept_all
      (Samples.one_file "/tmp/a.nc" Samples.three_levels
         (Ok [Ok "CDF"%string]))
      "/tmp/a.nc" = Ok (m, ms)
    /\ NetCDFProcessor.file_hash m
       = Some "9e107d9d372bb6826bd81d3542a419d6"%string
    /\ length ms = 3%nat.
Proof.
  destruct (process_file_returns_iff_valid Samples.sample_digest
              Samples.sample_str Samples.sample_float_of_bytes
              Timedelta_days_ns Samples.sample_now Samples.accept_all
              (Samples.one_file "/tmp/a.nc" Samples.three_levels
                 (Ok [Ok "CDF"%string]))
              "/tmp/a.nc") as [_ Hvalid].
  destruct (Hvalid eq_refl) as (ds & h & m & ms & Hds & Hh & Hm & Hms & Hp).
  exists (NetCDFProcessor.set_file_hash h m), ms.
  split; [exact Hp |].
  injection Hds as <-. vm_compute in Hh. injection Hh as <-.
  split; [reflexivity |].
  apply (f_equal (fun r : result (list (gmap string NetCDFProcessor.value)) =>
                    match r with
                    | Ok l => length l
                    | Raise _ => 0%nat
                    end)) in Hms.
  vm_compute in Hms. symmetry. exact Hms.
Defined.

(* ===================================================================== *)
(** * Further properties of the store *)
(* ===================================================================== *)

Section MoreStore.
Import NetCDFProcessor DatabaseManager Queries Notions.

Variable round_literal : Z -> float -> Z.

Ltac bind_steps H :=
  repeat match type of H with
         | Py.bind ?c _ = _ =>
             let E := fresh "E" in
             destruct c eqn:E; cbn [Py.bind] in H
         end.

Lemma find_hash_None (rows : list profile_row) h :
  existsb (has_file_hash h) rows = false ->
  find (has_file_hash h) rows = None.
Proof.
  induction rows as [| r rows IH]; simpl; [reflexivity |].
  destruct (has_file_hash h r); simpl; [discriminate | exact IH].
Qed.

Lemma find_hash_app (rows : list profile_row) h row :
  existsb (has_file_hash h) rows = false ->
  find (has_file_hash h) (rows ++ [row]) = find (has_file_hash h) [row].
Proof.
  induction rows as [| r rows IH]; simpl; [reflexivity |].
  destruct (has_file_hash h r); simpl; [discriminate | exact IH].
Qed.

(** The two ways in which [insert_profile] returns. *)
Lemma insert_profile_Ok db profile_data db' r :
  insert_profile round_literal db profile_data = (db', Ok r) ->
  exists row,
    profile_values round_literal (argo_profiles_id_seq db) profile_data
    = Ok row
    /\ ((existsb (has_file_hash (p_file_hash row)) (argo_profiles db) = true
         /\ db' = take_profile_id db
         /\ exists h, file_hash profile_data = Some h
                      /\ r = get_profile_id_by_hash db h)
        \/ (existsb (has_file_hash (p_file_hash row)) (argo_profiles db)
            = false
            /\ db' = add_profile_row row (take_profile_id db)
            /\ r = Some (p_id row))).
Proof.
  unfold insert_profile, execute_insert_profile.
  destruct (profile_values round_literal _ profile_data) as [row | e]
    eqn:Hvalues.
  - cbn zeta.
    change (argo_profiles (take_profile_id db)) with (argo_profiles db).
    destruct (existsb _ (argo_profiles db)) eqn:Hex.
    + pose proof (unique_violation_names_file_hash (p_file_hash row))
        as Hnames.
      unfold unique_violation in *. rewrite Hnames.
      destruct (file_hash profile_data) as [h |] eqn:Hh; simpl;
        [| discriminate].
      intros [= <- <-]. exists row. split; [reflexivity |]. left.
      split; [exact Hex |]. split; [reflexivity |]. eauto.
    + intros [= <- <-]. exists row. split; [reflexivity |]. right. auto.
  - apply profile_values_raises in Hvalues.
    destruct Hvalues as [[key ->] | ->]; discriminate.
Qed.

(** What [insert_profile] returns is found again by the hash. *)
Lemma insert_profile_found db profile_data db' h r :
  file_hash profile_data = Some h ->
  (String.length h <= 64)%nat ->
  insert_profile round_literal db profile_data = (db', Ok r) ->
  exists id,
    r = Some id
    /\ get_profile_id_by_hash db' h = Some id
    /\ (get_profile_id_by_hash db h = None ->
        id = argo_profiles_id_seq db
        /\ get_total_records db' = S (get_total_records db))
    /\ (forall id0, get_profile_id_by_hash db h = Some id0 ->
                    id = id0 /\ argo_profiles db' = argo_profiles db)
    /\ argo_measurements db' = argo_measurements db.
Proof.
  intros Hhash Hlen Hinsert.
  destruct (insert_profile_Ok db profile_data db' r Hinsert)
    as (row & Hvalues & Hcases).
  destruct (profile_values_row round_literal _ _ _ Hvalues)
    as (Hid & _ & Hstored).
  specialize (Hstored h Hhash Hlen). rewrite Hstored in Hcases.
  destruct Hcases as [(Hex & -> & h' & Hh' & ->) | (Hex & -> & ->)].
  - rewrite Hhash in Hh'. injection Hh' as <-.
    destruct (get_profile_id_by_hash_Some db h Hex) as (r0 & _ & _ & Hget).
    exists (p_id r0). rewrite Hget.
    split; [reflexivity |]. split; [exact Hget |].
    split; [congruence |]. split; [| reflexivity].
    intros id0 [= <-]. auto.
  - exists (p_id row). split; [reflexivity |].
    assert (get_profile_id_by_hash
              (add_profile_row row (take_profile_id db)) h
            = Some (p_id row)) as Hget.
    { unfold get_profile_id_by_hash. cbn [add_profile_row argo_profiles
                                            take_profile_id].
      rewrite (find_hash_app _ h row Hex). simpl.
      unfold has_file_hash. rewrite Hstored, String.eqb_refl. reflexivity. }
    split; [exact Hget |]. split; [| split; [| reflexivity]].
    + intros _. split; [exact Hid |].
      unfold get_total_records. cbn. rewrite length_app. simpl. lia.
    + intros id0 Hsome. unfold get_profile_id_by_hash in Hsome.
      rewrite (find_hash_None _ h Hex) in Hsome. discriminate.
Qed.

(** Insert and look-up agree.  When [insert_profile] returns for a
    profile whose hash fits the column, it returns an identifier, and
    looking the hash up in the store it leaves gives that identifier.
    If the hash was not in the store, the identifier is the next value
    of the sequence and there is one more profile row; if it was, the
    identifier is the one it had and the profile rows are as before.
    The measurement rows are untouched. *)
Theorem insert_profile_then_lookup db profile_data db' h r :
  file_hash profile_data = Some h ->
  (String.length h <= 64)%nat ->
  insert_profile round_literal db profile_data = (db', Ok r) ->
  exists id,
    r = Some id
    /\ get_profile_id_by_hash db' h = Some id
    /\ (get_profile_id_by_hash db h = None ->
        id = argo_profiles_id_seq db
        /\ get_total_records db' = S (get_total_records db))
    /\ (forall id0, get_profile_id_by_hash db h = Some id0 ->
                    id = id0 /\ argo_profiles db' = argo_profiles db)
    /\ argo_measurements db' = argo_measurements db.
Proof.
  intros Hhash Hlen Hinsert.
  exact (insert_profile_found db profile_data db' h r Hhash Hlen Hinsert).
Qed.

(** [insert_profile] raises only what the binding of the values raises,
    before anything is written. *)
Lemma insert_profile_Raise db profile_data db' e :
  insert_profile round_literal db profile_data = (db', Raise e) ->
  db' = db
  /\ profile_values round_literal (argo_profiles_id_seq db) profile_data
     = Raise e.
Proof.
  unfold insert_profile, execute_insert_profile.
  destruct (profile_values round_literal _ profile_data) as [row | e0]
    eqn:Hvalues.
  - cbn zeta.
    destruct (existsb _ _); [| discriminate].
    pose proof (unique_violation_names_file_hash (p_file_hash row))
      as Hnames.
    unfold unique_violation in *. rewrite Hnames.
    assert (exists h, file_hash profile_data = Some h) as [h Hh].
    { unfold profile_values in Hvalues. bind_steps Hvalues;
        try discriminate.
      destruct (file_hash profile_data); [eauto | discriminate]. }
    rewrite Hh. discriminate.
  - pose proof (profile_values_raises round_literal _ _ _ Hvalues)
      as Herror.
    assert ((db, @Raise (option Z) e0) = (db', Raise e) ->
            db' = db /\ Raise e0 = @Raise profile_row e) as Hfinish.
    { intros [= <- <-]. auto. }
    destruct Herror as [[key ->] | ->]; exact Hfinish.
Qed.

(** When [insert_profile] raises, the store is exactly as it was, and
    what it raises is a [KeyError] for a key that the dictionary lacks or
    a [DataError] for a value that a column refuses: never the
    uniqueness violation.  Without a float identifier the error is the
    [KeyError] of that key. *)
Theorem insert_profile_raises_unchanged db profile_data db' e :
  insert_profile round_literal db profile_data = (db', Raise e) ->
  db' = db
  /\ binding_error e
  /\ (float_id profile_data = None -> e = KeyError "float_id").
Proof.
  intros Hinsert.
  destruct (insert_profile_Raise db profile_data db' e Hinsert)
    as [-> Hvalues].
  split; [reflexivity |]. split.
  - exact (profile_values_raises round_literal _ _ _ Hvalues).
  - intros Hnone. unfold profile_values in Hvalues.
    rewrite Hnone in Hvalues. simpl in Hvalues. congruence.
Qed.

(** ** Invariants of the tables *)





End MoreStore.

(** The metadata of the file with an infinite day offset, which has the
    file hash alone, is refused for the missing float identifier. *)
Lemma insert_profile_raises_unchanged_witness :
  DatabaseManager.insert_profile DatabaseManager.round_half_away
    Samples.stored_once
    (NetCDFProcessor.set_file_hash "0123" NetCDFProcessor.no_metadata)
  = (Samples.stored_once, Raise (KeyError "float_id")).
Proof.
  destruct (DatabaseManager.insert_profile DatabaseManager.round_half_away
              Samples.stored_once
              (NetCDFProcessor.set_file_hash "0123"
                 NetCDFProcessor.no_metadata)) as [db' [r | e]] eqn:Hinsert.
  - vm_compute in Hinsert. discriminate.
  - destruct (insert_profile_raises_unchanged
                DatabaseManager.round_half_away _ _ _ _ Hinsert)
      as (-> & _ & He).
    rewrite (He eq_refl). reflexivity.
Defined.

(** The sample profile into the empty store: identifier 1, found again
    by its hash. *)
Lemma insert_profile_then_lookup_witness :
  exists db',
    DatabaseManager.insert_profile DatabaseManager.round_half_away
      DatabaseManager.empty_database Samples.sample_metadata
    = (db', Ok (Some 1))
    /\ DatabaseManager.get_profile_id_by_hash db'
         "9e107d9d372bb6826bd81d3542a419d6" = Some 1
    /\ Queries.get_total_records db' = 1%nat.
Proof.
  destruct (DatabaseManager.insert_profile DatabaseManager.round_half_away
              DatabaseManager.empty_database Samples.sample_metadata)
    as [db' [r | e]] eqn:Hinsert; [| vm_compute in Hinsert; discriminate].
  destruct (insert_profile_then_lookup DatabaseManager.round_half_away
              DatabaseManager.empty_database Samples.sample_metadata db'
              "9e107d9d372bb6826bd81d3542a419d6" r eq_refl)
    as (id & -> & Hget & Hfresh & _); [simpl; lia | exact Hinsert |].
  destruct (Hfresh eq_refl) as [-> Hcount].
  exists db'. split; [reflexivity |]. split; [exact Hget | exact Hcount].
Defined.

(* ===================================================================== *)
(** * Properties of the measurement rows *)
(* ===================================================================== *)

Section MoreMeasurementRows.
Import NetCDFProcessor DatabaseManager Queries Notions.

Variable round_literal : Z -> float -> Z.

Ltac bind_steps H :=
  repeat match type of H with
         | Py.bind ?c _ = _ =>
             let E := fresh "E" in
             destruct c eqn:E; cbn [Py.bind] in H
         end.

(** What [executemany] leaves: the rows it was given, up to the first
    that fails, appended in order. *)
Lemma executemany_appends db measurements db' r :
  executemany round_literal db measurements = (db', r) ->
  exists new,
    argo_measurements db' = argo_measurements db ++ new
    /\ argo_profiles db' = argo_profiles db
    /\ argo_profiles_id_seq db' = argo_profiles_id_seq db
    /\ (r = Ok tt -> length new = length measurements)
    /\ (forall e, r = Raise e -> (length new < length measurements)%nat)
    /\ Forall (fun row => exists m id,
                   m ∈ measurements
                   /\ measurement_values round_literal id m = Ok row) new.
Proof.
  revert db. induction measurements as [| m rest IH]; intros db; simpl.
  - intros [= <- <-]. exists []. rewrite app_nil_r.
    repeat split; auto; discriminate.
  - unfold execute_insert_measurement.
    destruct (measurement_values round_literal _ m) as [row | e] eqn:Hvalues.
    + cbn zeta. destruct (references_profile _ (m_profile_id row)).
      * intros Hrest. destruct (IH _ Hrest)
          as (new & Hrows & Hprofiles & Hseq & Hok & Hraise & Hnew).
        exists (row :: new). cbn in Hrows, Hprofiles, Hseq.
        rewrite Hrows, <- app_assoc. split; [reflexivity |].
        split; [exact Hprofiles |]. split; [exact Hseq |].
        split; [| split].
        -- intros Hr. simpl. rewrite (Hok Hr). reflexivity.
        -- intros e Hr. simpl. specialize (Hraise e Hr). lia.
        -- constructor.
           ++ exists m, (argo_measurements_id_seq db).
              split; [apply elem_of_cons; auto | exact Hvalues].
           ++ eapply Forall_impl; [exact Hnew |].
              intros row' (m' & id & Hin & Hrow'). exists m', id.
              split; [apply elem_of_cons; auto | exact Hrow'].
      * intros [= <- <-]. exists []. rewrite app_nil_r.
        repeat split; auto; try discriminate. intros; simpl; lia.
    + intros [= <- <-]. exists []. rewrite app_nil_r.
      repeat split; auto; try discriminate. intros; simpl; lia.
Qed.

Lemma integer_of_value_id profile_id x :
  integer_of_value (value_of_id profile_id) = Ok x -> x = profile_id.
Proof.
  destruct profile_id as [id |]; simpl; [| congruence].
  unfold integer. destruct (_ && _); simpl; congruence.
Qed.

Lemma measurement_values_profile_id id profile_id m row :
  measurement_values round_literal id
    (<["profile_id"%string := value_of_id profile_id]> m) = Ok row ->
  m_profile_id row = profile_id.
Proof.
  unfold measurement_values. rewrite lookup_insert_eq. cbn [param Py.bind].
  intros H. bind_steps H; try discriminate.
  injection H as <-. cbn [m_profile_id].
  match goal with
  | E : integer_of_value (value_of_id _) = Ok _ |- _ =>
      exact (integer_of_value_id _ _ E)
  end.
Qed.



End MoreMeasurementRows.



(* ===================================================================== *)
(** * Properties of the queries *)
(* ===================================================================== *)

Section MoreQueries.
Import NetCDFProcessor DatabaseManager Queries Notions.

Variable round_literal : Z -> float -> Z.

Lemma StronglySorted_take {A} (R : A -> A -> Prop) n l :
  StronglySorted R l -> StronglySorted R (take n l).
Proof.
  intros Hsorted. revert n.
  induction Hsorted as [| x l Hsorted IH Hall]; intros [| n]; simpl;
    try constructor.
  - apply IH.
  - apply Forall_forall. intros y Hy.
    rewrite Forall_forall in Hall. apply Hall.
    eapply subseteq_take, Hy.
Qed.

Lemma StronglySorted_drop {A} (R : A -> A -> Prop) n l :
  StronglySorted R l -> StronglySorted R (drop n l).
Proof.
  intros Hsorted. revert n.
  induction Hsorted as [| x l Hsorted IH Hall]; intros [| n]; simpl;
    try constructor; auto.
Qed.

Lemma StronglySorted_map {A B} (R : A -> A -> Prop) (R' : B -> B -> Prop)
  (f : A -> B) l :
  (forall x y, R x y -> R' (f x) (f y)) ->
  StronglySorted R l -> StronglySorted R' (f <$> l).
Proof.
  intros Hf Hsorted.
  induction Hsorted as [| x l Hsorted IH Hall]; simpl; constructor.
  - exact IH.
  - apply Forall_fmap. eapply Forall_impl; [exact Hall |].
    intros y Hy. apply Hf, Hy.
Qed.

(** ** [ORDER BY depth] *)

Lemma depth_leb_total a b : depth_leb a b = false -> depth_leb b a = true.
Proof.
  destruct a as [[| x] |], b as [[| y] |]; simpl; try congruence.
  intros H. apply Z.leb_gt in H. apply Z.leb_le. lia.
Qed.

Lemma depth_leb_trans a b c :
  depth_leb a b = true -> depth_leb b c = true -> depth_leb a c = true.
Proof.
  destruct a as [[| x] |], b as [[| y] |], c as [[| z] |]; simpl;
    try congruence.
  rewrite !Z.leb_le. lia.
Qed.

Lemma insert_by_depth_perm x l : insert_by_depth x l ≡ₚ x :: l.
Proof.
  induction l as [| y l IH]; simpl; [reflexivity |].
  destruct (depth_leb _ _); [reflexivity |].
  rewrite IH. apply Permutation_swap.
Qed.

Lemma order_by_depth_perm l : order_by_depth l ≡ₚ l.
Proof.
  induction l as [| x l IH]; simpl; [reflexivity |].
  rewrite insert_by_depth_perm, IH. reflexivity.
Qed.

Lemma insert_by_depth_sorted x l :
  StronglySorted (fun a b => depth_leb (m_depth a) (m_depth b) = true) l ->
  StronglySorted (fun a b => depth_leb (m_depth a) (m_depth b) = true)
    (insert_by_depth x l).
Proof.
  intros Hsorted.
  induction Hsorted as [| y l Hsorted IH Hall]; simpl.
  - repeat constructor.
  - destruct (depth_leb (m_depth x) (m_depth y)) eqn:Hxy.
    + constructor; [constructor; assumption |].
      constructor; [exact Hxy |].
      eapply Forall_impl; [exact Hall |].
      intros z Hz. exact (depth_leb_trans _ _ _ Hxy Hz).
    + constructor; [exact IH |].
      rewrite insert_by_depth_perm.
      constructor; [exact (depth_leb_total _ _ Hxy) | exact Hall].
Qed.

Lemma order_by_depth_sorted l :
  StronglySorted (fun a b => depth_leb (m_depth a) (m_depth b) = true)
    (order_by_depth l).
Proof.
  induction l as [| x l IH]; simpl; [constructor |].
  apply insert_by_depth_sorted, IH.
Qed.

(** [get_measurements_by_profile] returns one entry for each measurement
    row of the profile and for no other row, in ascending order of depth
    with the rows without a depth last. *)
Theorem get_measurements_by_profile_rows db profile_id :
  get_measurements_by_profile db profile_id
  ≡ₚ select_measurement
       <$> filter (fun r => m_profile_id r = Some profile_id)
             (argo_measurements db)
  /\ StronglySorted (fun a b => depth_leb (depth a) (depth b) = true)
       (get_measurements_by_profile db profile_id)
  /\ (forall a b rest,
        get_measurements_by_profile db profile_id = a :: rest ->
        b ∈ rest -> depth a = None -> depth b = None).
Proof.
  unfold get_measurements_by_profile.
  assert (filter (fun r => of_profile profile_id r = true)
            (argo_measurements db)
          = filter (fun r => m_profile_id r = Some profile_id)
              (argo_measurements db)) as Hfilter.
  { apply list_filter_iff. intros r. unfold of_profile.
    destruct (m_profile_id r) as [id |]; [| split; discriminate].
    rewrite Z.eqb_eq. split; congruence. }
  rewrite Hfilter.
  assert (StronglySorted (fun a b => depth_leb (depth a) (depth b) = true)
            (select_measurement
               <$> order_by_depth
                     (filter (fun r => m_profile_id r = Some profile_id)
                        (argo_measurements db)))) as Hsorted.
  { eapply StronglySorted_map; [| apply order_by_depth_sorted].
    intros x y Hxy. exact Hxy. }
  split; [| split].
  - rewrite order_by_depth_perm. reflexivity.
  - exact Hsorted.
  - intros a b rest Hresult Hb Ha. rewrite Hresult in Hsorted.
    apply StronglySorted_inv in Hsorted as [_ Hall].
    rewrite Forall_forall in Hall. specialize (Hall b Hb).
    rewrite Ha in Hall. destruct (depth b); [discriminate | reflexivity].
Qed.

(** When [insert_measurements] returns, the measurements of the profile
    are as many more as the dictionaries it was given, and the
    measurements of every other profile are what they were. *)
Theorem insert_then_get_measurements db profile_id measurements db' :
  insert_measurements round_literal db (Some profile_id) measurements
  = (db', Ok tt) ->
  length (get_measurements_by_profile db' profile_id)
  = (length (get_measurements_by_profile db profile_id)
     + length measurements)%nat
  /\ forall other, other <> profile_id ->
       get_measurements_by_profile db' other
       = get_measurements_by_profile db other.
Proof.
  unfold insert_measurements. intros Hmany.
  destruct (executemany_appends _ _ _ _ _ Hmany)
    as (new & Hrows & _ & _ & Hok & _ & Hnew).
  specialize (Hok eq_refl). rewrite length_map in Hok.
  assert (Forall (fun row => m_profile_id row = Some profile_id) new)
    as Hids.
  { eapply Forall_impl; [exact Hnew |].
    intros row (m & id & Hin & Hrow).
    apply list_elem_of_In, in_map_iff in Hin as (m0 & <- & _).
    exact (measurement_values_profile_id _ _ _ _ _ Hrow). }
  unfold get_measurements_by_profile. rewrite Hrows, filter_app.
  split.
  - rewrite !length_fmap.
    rewrite (Permutation_length (order_by_depth_perm _)).
    rewrite (Permutation_length (order_by_depth_perm _)).
    rewrite length_app. f_equal. rewrite <- Hok. f_equal.
    clear -Hids. induction Hids as [| row new Hrow _ IH]; [reflexivity |].
    rewrite filter_cons_True; [simpl; f_equal; exact IH |].
    unfold of_profile. rewrite Hrow. apply Z.eqb_refl.
  - intros other Hother. rewrite filter_app.
    assert (filter (fun r => of_profile other r = true) new = []) as ->.
    { clear -Hids Hother.
      induction Hids as [| row new Hrow _ IH]; [reflexivity |].
      rewrite filter_cons_False; [exact IH |].
      unfold of_profile. rewrite Hrow.
      destruct (Z.eqb_spec profile_id other); congruence. }
    rewrite app_nil_r. reflexivity.
Qed.

End MoreQueries.

(** A second measurement for the stored profile: it then has two. *)
Lemma insert_then_get_measurements_witness :
  exists db',
    DatabaseManager.insert_measurements DatabaseManager.round_half_away
      Samples.stored_once (Some 1) [Samples.sample_measurement]
    = (db', Ok tt)
    /\ length (Queries.get_measurements_by_profile db' 1) = 2%nat.
Proof.
  destruct (DatabaseManager.insert_measurements
              DatabaseManager.round_half_away Samples.stored_once (Some 1)
              [Samples.sample_measurement]) as [db' r] eqn:Hinsert.
  assert (r = Ok tt) as ->.
  { apply (f_equal snd) in Hinsert. vm_compute in Hinsert.
    symmetry. exact Hinsert. }
  destruct (insert_then_get_measurements DatabaseManager.round_half_away
              _ _ _ _ Hinsert) as [Hlength _].
  exists db'. split; [reflexivity |]. rewrite Hlength. reflexivity.
Defined.

Section MoreProfileQueries.
Import NetCDFProcessor DatabaseManager DataIngestion Queries Batches Notions.

(** ** [ORDER BY measurement_date DESC] *)

Lemma insert_by_date_perm x l : insert_by_date x l ≡ₚ x :: l.
Proof.
  induction l as [| y l IH]; simpl; [reflexivity |].
  destruct (_ <=? _); [reflexivity |].
  rewrite IH. apply Permutation_swap.
Qed.

Lemma order_by_date_perm l : order_by_date l ≡ₚ l.
Proof.
  induction l as [| x l IH]; simpl; [reflexivity |].
  rewrite insert_by_date_perm, IH. reflexivity.
Qed.

Lemma insert_by_date_sorted x l :
  StronglySorted (fun a b => p_measurement_date b <= p_measurement_date a) l ->
  StronglySorted (fun a b => p_measurement_date b <= p_measurement_date a)
    (insert_by_date x l).
Proof.
  intros Hsorted.
  induction Hsorted as [| y l Hsorted IH Hall]; simpl.
  - repeat constructor.
  - destruct (Z.leb_spec (p_measurement_date y) (p_measurement_date x))
      as [Hyx | Hxy].
    + constructor; [constructor; assumption |].
      constructor; [exact Hyx |].
      eapply Forall_impl; [exact Hall |].
      intros z Hz. cbn beta in *. lia.
    + constructor; [exact IH |].
      rewrite insert_by_date_perm.
      constructor; [lia | exact Hall].
Qed.

Lemma order_by_date_sorted l :
  StronglySorted (fun a b => p_measurement_date b <= p_measurement_date a)
    (order_by_date l).
Proof.
  induction l as [| x l IH]; simpl; [constructor |].
  apply insert_by_date_sorted, IH.
Qed.

(** The conditions of the [WHERE] clause, whether or not the dictionary
    counts as empty. *)
Lemma where_conditions_Some f :
  where_conditions (Some f)
  = (match float_id_filter f with
     | Some s => if String.eqb s EmptyString then []
                 else [fun r => String.eqb (p_float_id r) s]
     | None => []
     end)
    ++ (match start_date f with
        | Some t => [fun r => t <=? p_measurement_date r]
        | None => []
        end)
    ++ (match end_date f with
        | Some t => [fun r => p_measurement_date r <=? t]
        | None => []
        end)
    ++ (match min_lat f with
        | Some q => [fun r => numeric_ge (p_latitude r) q]
        | None => []
        end)
    ++ (match max_lat f with
        | Some q => [fun r => numeric_le (p_latitude r) q]
        | None => []
        end)
    ++ (match min_lon f with
        | Some q => [fun r => numeric_ge (p_longitude r) q]
        | None => []
        end)
    ++ (match max_lon f with
        | Some q => [fun r => numeric_le (p_longitude r) q]
        | None => []
        end).
Proof.
  unfold where_conditions, nonempty_dict.
  destruct (float_id_filter f); [reflexivity |].
  destruct (start_date f); [reflexivity |].
  destruct (end_date f); [reflexivity |].
  destruct (min_lat f); [reflexivity |].
  destruct (max_lat f); [reflexivity |].
  destruct (min_lon f); [reflexivity |].
  destruct (max_lon f); [reflexivity |].
  destruct (profile_ids f); reflexivity.
Qed.

Lemma where_profile_Some f r :
  where_profile (Some f) r = true
  <-> (forall s, float_id_filter f = Some s -> s <> EmptyString ->
                 p_float_id r = s)
      /\ (forall t, start_date f = Some t -> t <= p_measurement_date r)
      /\ (forall t, end_date f = Some t -> p_measurement_date r <= t)
      /\ (forall q, min_lat f = Some q -> numeric_ge (p_latitude r) q = true)
      /\ (forall q, max_lat f = Some q -> numeric_le (p_latitude r) q = true)
      /\ (forall q, min_lon f = Some q -> numeric_ge (p_longitude r) q = true)
      /\ (forall q, max_lon f = Some q -> numeric_le (p_longitude r) q = true).
Proof.
  unfold where_profile. rewrite where_conditions_Some.
  rewrite !forallb_app, !andb_true_iff.
  assert (forall (A : Type) (v : option A) (c : A -> profile_row -> bool),
            forallb (fun condition => condition r)
              match v with Some a => [c a] | None => [] end = true
            <-> forall a, v = Some a -> c a r = true) as Hone.
  { intros A [a |] c; simpl.
    - rewrite andb_true_r. split; [intros H a' [= <-]; exact H | auto].
    - split; [discriminate | reflexivity]. }
  rewrite !Hone.
  assert (forallb (fun condition => condition r)
            match float_id_filter f with
            | Some s => if String.eqb s EmptyString then []
                        else [fun r => String.eqb (p_float_id r) s]
            | None => []
            end = true
          <-> forall s, float_id_filter f = Some s -> s <> EmptyString ->
                        p_float_id r = s) as ->.
  { destruct (float_id_filter f) as [s |]; simpl.
    - destruct (String.eqb_spec s EmptyString) as [-> | Hne]; simpl.
      + split; [intros _ s [= <-] Hne; congruence | reflexivity].
      + rewrite andb_true_r, String.eqb_eq.
        split; [intros H s' [= <-] _; exact H | auto].
    - split; [discriminate | reflexivity]. }
  setoid_rewrite Z.leb_le. tauto.
Qed.

Lemma elem_of_get_profiles db limit offset filters info :
  info ∈ get_profiles db limit offset filters ->
  exists r, r ∈ argo_profiles db
            /\ where_profile filters r = true
            /\ info = select_profile r.
Proof.
  unfold get_profiles. destruct (_ || _); [intros H; inversion H |].
  intros (r & -> & Hin)%list_elem_of_fmap.
  apply subseteq_take, subseteq_drop in Hin.
  rewrite order_by_date_perm in Hin.
  apply list_elem_of_filter in Hin as [Hwhere Hin]. eauto.
Qed.

(** Every row that [get_profiles] returns is a profile row of the store
    and meets every filter that is given, all at once: the float
    identifier when it is not the empty string, the dates and the
    bounding box, each bound included. *)
Theorem get_profiles_within_filters db limit offset f info :
  info ∈ get_profiles db limit offset (Some f) ->
  (exists r, r ∈ argo_profiles db /\ info = select_profile r)
  /\ (forall s, float_id_filter f = Some s -> s <> EmptyString ->
                q_float_id info = s)
  /\ (forall t, start_date f = Some t -> t <= q_measurement_date info)
  /\ (forall t, end_date f = Some t -> q_measurement_date info <= t)
  /\ (forall q, min_lat f = Some q -> numeric_ge (q_latitude info) q = true)
  /\ (forall q, max_lat f = Some q -> numeric_le (q_latitude info) q = true)
  /\ (forall q, min_lon f = Some q -> numeric_ge (q_longitude info) q = true)
  /\ (forall q, max_lon f = Some q -> numeric_le (q_longitude info) q = true).
Proof.
  intros (r & Hin & Hwhere & ->)%elem_of_get_profiles.
  apply where_profile_Some in Hwhere. cbn. split; [eauto | exact Hwhere].
Qed.

(** [get_profiles] returns at most [limit] rows, the newest first; with
    no row skipped and a limit that the table does not exceed, it
    returns every row that meets the filters. *)
Theorem get_profiles_newest_first db limit offset filters :
  (length (get_profiles db limit offset filters) <= Z.to_nat limit)%nat
  /\ StronglySorted (fun a b => q_measurement_date b <= q_measurement_date a)
       (get_profiles db limit offset filters)
  /\ (0 <= limit ->
      (get_total_records db <= Z.to_nat limit)%nat ->
      forall r, r ∈ argo_profiles db -> where_profile filters r = true ->
                select_profile r ∈ get_profiles db limit 0 filters).
Proof.
  unfold get_profiles. split; [| split].
  - destruct (_ || _); simpl; [lia |].
    rewrite length_fmap, length_take. lia.
  - destruct (_ || _); [constructor |].
    eapply StronglySorted_map;
      [| apply StronglySorted_take, StronglySorted_drop,
           order_by_date_sorted].
    intros x y Hxy. exact Hxy.
  - intros Hlimit Htotal r Hin Hwhere.
    destruct (Z.ltb_spec limit 0) as [Hneg | _]; [lia |]. simpl.
    change (Z.to_nat 0) with 0%nat. rewrite drop_0.
    apply list_elem_of_fmap. exists r. split; [reflexivity |].
    rewrite take_ge.
    + rewrite order_by_date_perm. apply list_elem_of_filter. auto.
    + rewrite (Permutation_length (order_by_date_perm _)).
      unfold get_total_records in Htotal.
      pose proof (length_filter (fun r => where_profile filters r = true)
                    (argo_profiles db)). lia.
Qed.

(** The [profile_ids] key, which the chat page passes to
    [get_profiles], selects nothing: the answer is that of the call
    without filters.  So each profile frame that
    [generate_visualizations] collects is the newest profile of the
    store, whatever identifier it asked for; the measurement frames are
    those of the identifiers, and there are at most ten of each. *)
Theorem looked_up_ignores_profile_ids db search_results :
  (forall ids limit offset,
     get_profiles db limit offset (Some (only_profile_ids ids))
     = get_profiles db limit offset None)
  /\ Forall (fun frame => frame = get_profiles db 1 0 None)
       (looked_up db search_results).1
  /\ (length (looked_up db search_results).1 <= 10)%nat
  /\ Forall (fun frame => frame.2 = get_measurements_by_profile db frame.1
                          /\ truthy (Some frame.1) = true)
       (looked_up db search_results).2
  /\ (length (looked_up db search_results).2 <= 10)%nat.
Proof.
  assert (forall ids limit offset,
            get_profiles db limit offset (Some (only_profile_ids ids))
            = get_profiles db limit offset None) as Hignored.
  { reflexivity. }
  split; [exact Hignored |].
  unfold looked_up.
  assert (Forall (fun id => truthy (Some id) = true)
            (take 10 (truthy_ids search_results))) as Hids.
  { apply Forall_take. unfold truthy_ids. apply Forall_forall.
    intros id (p & Hin & Hp)%list_elem_of_omap.
    destruct (truthy p) eqn:Htruthy; [subst p; exact Htruthy | discriminate]. }
  assert (length (take 10 (truthy_ids search_results)) <= 10)%nat as Hlen.
  { rewrite length_take. lia. }
  revert Hids Hlen.
  generalize (take 10 (truthy_ids search_results)). intros ids.
  assert (forall (acc : list (list profile_info) * list (Z * list measured)),
            Forall (fun frame => frame = get_profiles db 1 0 None) acc.1 ->
            Forall (fun frame =>
                      frame.2 = get_measurements_by_profile db frame.1
                      /\ truthy (Some frame.1) = true) acc.2 ->
            Forall (fun id => truthy (Some id) = true) ids ->
            let result :=
              foldl (fun '(profiles_list, measurements_list) profile_id =>
                       let profile_data :=
                         get_profiles db 1 0
                           (Some (only_profile_ids [profile_id])) in
                       let profiles_list :=
                         match profile_data with
                         | [] => profiles_list
                         | _ => profiles_list ++ [profile_data]
                         end in
                       let measurements :=
                         get_measurements_by_profile db profile_id in
                       let measurements_list :=
                         match measurements with
                         | [] => measurements_list
                         | _ => measurements_list
                                ++ [(profile_id, measurements)]
                         end in
                       (profiles_list, measurements_list)) acc ids in
            Forall (fun frame => frame = get_profiles db 1 0 None) result.1
            /\ (length result.1 <= length acc.1 + length ids)%nat
            /\ Forall (fun frame =>
                         frame.2 = get_measurements_by_profile db frame.1
                         /\ truthy (Some frame.1) = true) result.2
            /\ (length result.2 <= length acc.2 + length ids)%nat) as Hloop.
  { induction ids as [| id ids IH]; intros [ps ms] Hps Hms Hids; cbn zeta.
    - simpl. repeat split; auto; lia.
    - cbn [foldl]. cbn [fst snd] in Hps, Hms.
      apply Forall_cons in Hids as [Hid Hids].
      rewrite Hignored.
      set (ps' := match get_profiles db 1 0 None with
                  | [] => ps
                  | _ => ps ++ [get_profiles db 1 0 None]
                  end).
      set (ms' := match get_measurements_by_profile db id with
                  | [] => ms
                  | _ => ms ++ [(id, get_measurements_by_profile db id)]
                  end).
      assert (Forall (fun frame => frame = get_profiles db 1 0 None) ps'
              /\ (length ps' <= S (length ps))%nat) as [Hps' Hlps].
      { unfold ps'. destruct (get_profiles db 1 0 None) eqn:Hnewest.
        - split; [exact Hps | lia].
        - split; [apply Forall_app; split; [exact Hps |];
                  constructor; [reflexivity | constructor] |].
          rewrite length_app. simpl. lia. }
      assert (Forall (fun frame =>
                        frame.2 = get_measurements_by_profile db frame.1
                        /\ truthy (Some frame.1) = true) ms'
              /\ (length ms' <= S (length ms))%nat) as [Hms' Hlms].
      { unfold ms'. destruct (get_measurements_by_profile db id) eqn:Hget.
        - split; [exact Hms | lia].
        - split; [apply Forall_app; split; [exact Hms |];
                  constructor; [| constructor]; cbn; auto |].
          rewrite length_app. simpl. lia. }
      destruct (IH (ps', ms') Hps' Hms' Hids) as (H1 & H2 & H3 & H4).
      cbn [fst snd length] in *.
      repeat split; [exact H1 | lia | exact H3 | lia]. }
  intros Hids Hlen.
  destruct (Hloop ([], []) (Forall_nil_2 _) (Forall_nil_2 _) Hids)
    as (H1 & H2 & H3 & H4).
  cbn [fst snd length] in *.
  repeat split; [exact H1 | lia | exact H3 | lia].
Qed.

End MoreProfileQueries.

(** The bounding box on the store of two profiles: the profile at 10 N,
    60 E alone. *)
Lemma get_profiles_within_filters_witness :
  exists info,
    Queries.get_profiles MoreSamples.two_profiles 100 0
      (Some MoreSamples.box) = [info]
    /\ Queries.q_id info = 1
    /\ Queries.numeric_le (Queries.q_latitude info)
         (Stdlib.QArith.QArith_base.Qmake 30 1) = true.
Proof.
  destruct (Queries.get_profiles MoreSamples.two_profiles 100 0
              (Some MoreSamples.box)) as [| info [| info' rest]] eqn:Hget;
    try (vm_compute in Hget; discriminate).
  exists info. split; [reflexivity |].
  destruct (get_profiles_within_filters MoreSamples.two_profiles 100 0
              MoreSamples.box info) as (_ & _ & _ & _ & _ & Hmax & _).
  { rewrite Hget. apply elem_of_cons. auto. }
  split; [| apply Hmax; reflexivity].
  apply (f_equal (fmap Queries.q_id)) in Hget. vm_compute in Hget.
  injection Hget as Hid. symmetry. exact Hid.
Defined.

Section MoreStatistics.
Import NetCDFProcessor DatabaseManager Queries Notions.

Lemma remove_dups_length_le {A} `{EqDecision A} (l : list A) :
  (length (remove_dups l) <= length l)%nat.
Proof.
  induction l as [| x l IH]; simpl; [lia |].
  destruct (decide_rel _ x l); simpl; lia.
Qed.

Lemma remove_dups_nonempty {A} `{EqDecision A} (l : list A) :
  l <> [] -> remove_dups l <> [].
Proof.
  destruct l as [| x l]; [congruence |]. intros _ Hnil.
  assert (x ∈ remove_dups (x :: l)) as Hin
    by (apply elem_of_remove_dups, elem_of_cons; auto).
  rewrite Hnil in Hin. inversion Hin.
Qed.

Lemma foldl_earliest b l :
  let m := foldl (fun b y => if y <? b then y else b) b l in
  m <= b /\ (forall x, x ∈ l -> m <= x) /\ (m = b \/ m ∈ l).
Proof.
  revert b. induction l as [| y l IH]; intros b; cbn zeta; simpl.
  - split; [lia |]. split; [| auto]. intros x Hx. inversion Hx.
  - destruct (IH (if y <? b then y else b)) as (Hle & Hall & Hin).
    cbn zeta in *.
    destruct (Z.ltb_spec y b) as [Hyb | Hby].
    + split; [lia |]. split.
      * intros x [-> | Hx]%elem_of_cons; [exact Hle | auto].
      * right. destruct Hin as [-> | Hin]; apply elem_of_cons; auto.
    + split; [exact Hle |]. split.
      * intros x [-> | Hx]%elem_of_cons; [lia | auto].
      * destruct Hin as [-> | Hin]; [auto |].
        right. apply elem_of_cons. auto.
Qed.

Lemma foldl_latest b l :
  let m := foldl (fun b y => if b <? y then y else b) b l in
  b <= m /\ (forall x, x ∈ l -> x <= m) /\ (m = b \/ m ∈ l).
Proof.
  revert b. induction l as [| y l IH]; intros b; cbn zeta; simpl.
  - split; [lia |]. split; [| auto]. intros x Hx. inversion Hx.
  - destruct (IH (if b <? y then y else b)) as (Hle & Hall & Hin).
    cbn zeta in *.
    destruct (Z.ltb_spec b y) as [Hyb | Hby].
    + split; [lia |]. split.
      * intros x [-> | Hx]%elem_of_cons; [exact Hle | auto].
      * right. destruct Hin as [-> | Hin]; apply elem_of_cons; auto.
    + split; [exact Hle |]. split.
      * intros x [-> | Hx]%elem_of_cons; [lia | auto].
      * destruct Hin as [-> | Hin]; [auto |].
        right. apply elem_of_cons. auto.
Qed.

(** The summary of a store: the profile count is that of
    [get_total_records]; there are no more floats than profiles, and at
    least one when there is a profile; the date range is attained, and
    the date of every profile lies in it; an empty store has no range. *)
Theorem get_summary_statistics_bounds db :
  let s := get_summary_statistics db in
  total_profiles s = get_total_records db
  /\ (unique_floats s <= total_profiles s)%nat
  /\ (argo_profiles db = [] ->
      unique_floats s = 0%nat /\ earliest s = None /\ latest s = None
      /\ min_latitude s = None /\ max_latitude s = None
      /\ min_longitude s = None /\ max_longitude s = None)
  /\ (argo_profiles db <> [] ->
      (1 <= unique_floats s)%nat
      /\ exists first last,
           earliest s = Some (p_measurement_date first)
           /\ latest s = Some (p_measurement_date last)
           /\ first ∈ argo_profiles db /\ last ∈ argo_profiles db
           /\ forall r, r ∈ argo_profiles db ->
                        p_measurement_date first <= p_measurement_date r
                        <= p_measurement_date last).
Proof.
  cbn zeta. unfold get_summary_statistics, get_total_records. cbn.
  split; [reflexivity |]. split.
  { etransitivity; [apply remove_dups_length_le |].
    rewrite length_fmap. lia. }
  split.
  { intros ->. cbn. repeat split. }
  intros Hrows. split.
  { assert (remove_dups (p_float_id <$> argo_profiles db) <> []) as Hne.
    { apply remove_dups_nonempty. destruct (argo_profiles db);
        [congruence | discriminate]. }
    destruct (remove_dups _); [congruence | simpl; lia]. }
  destruct (argo_profiles db) as [| r0 rows]; [congruence |].
  cbn [fmap list_fmap best].
  destruct (foldl_earliest (p_measurement_date r0)
              (p_measurement_date <$> rows)) as (Hlo & Hlo_all & Hlo_in).
  destruct (foldl_latest (p_measurement_date r0)
              (p_measurement_date <$> rows)) as (Hhi & Hhi_all & Hhi_in).
  cbn zeta in *.
  assert (forall m, (m = p_measurement_date r0
                     \/ m ∈ p_measurement_date <$> rows) ->
                    exists r, m = p_measurement_date r /\ r ∈ r0 :: rows)
    as Hattained.
  { intros m [-> | (r & -> & Hin)%list_elem_of_fmap].
    - exists r0. split; [reflexivity | apply elem_of_cons; auto].
    - exists r. split; [reflexivity | apply elem_of_cons; auto]. }
  destruct (Hattained _ Hlo_in) as (first & Hfirst & Hfirst_in).
  destruct (Hattained _ Hhi_in) as (last & Hlast & Hlast_in).
  exists first, last.
  split; [f_equal; exact Hfirst |]. split; [f_equal; exact Hlast |].
  split; [exact Hfirst_in |]. split; [exact Hlast_in |].
  intros r [-> | Hin]%elem_of_cons; rewrite <- Hfirst, <- Hlast.
  - lia.
  - split; [apply Hlo_all | apply Hhi_all]; apply list_elem_of_fmap; eauto.
Qed.

End MoreStatistics.

(* ===================================================================== *)
(** * Properties of the ingestion of a batch *)
(* ===================================================================== *)

Section MoreIngestion.
Import NetCDFProcessor DatabaseManager DataIngestion Queries Batches Notions.

Variable round_literal : Z -> float -> Z.
Variable st : Components.

(** ** What holds along the ingestion *)

Section Invariant.

Variable P : database -> Prop.
Hypothesis P_insert_profile :
  forall db profile_data,
    P db -> P (insert_profile round_literal db profile_data).1.
Hypothesis P_executemany :
  forall db measurements,
    P db -> P (executemany round_literal db measurements).1.




End Invariant.





(** ** The list of results *)

Lemma process_files_results skip_duplicates uploaded db results :
  process_files round_literal st skip_duplicates uploaded db results
  = ((process_files round_literal st skip_duplicates uploaded db []).1,
     results
     ++ (process_files round_literal st skip_duplicates uploaded db []).2).
Proof.
  revert db results.
  induction uploaded as [| processed rest IH]; intros db results;
    cbn [process_files].
  - rewrite app_nil_r. reflexivity.
  - destruct (process_one round_literal st skip_duplicates processed db)
      as [db1 r].
    rewrite (IH db1 (results ++ [r])), (IH db1 ([] ++ [r])).
    cbn [fst snd]. rewrite <- app_assoc. reflexivity.
Qed.

Lemma process_files_cons skip_duplicates processed rest db :
  process_files round_literal st skip_duplicates (processed :: rest) db []
  = ((process_files round_literal st skip_duplicates rest
        (process_one round_literal st skip_duplicates processed db).1 []).1,
     (process_one round_literal st skip_duplicates processed db).2
     :: (process_files round_literal st skip_duplicates rest
           (process_one round_literal st skip_duplicates processed db).1
           []).2).
Proof.
  cbn [process_files].
  destruct (process_one round_literal st skip_duplicates processed db)
    as [db1 r].
  rewrite process_files_results. reflexivity.
Qed.

Lemma process_files_app skip_duplicates uploaded more db results :
  process_files round_literal st skip_duplicates (uploaded ++ more) db
    results
  = process_files round_literal st skip_duplicates more
      (process_files round_literal st skip_duplicates uploaded db results).1
      (process_files round_literal st skip_duplicates uploaded db results).2.
Proof.
  revert db results.
  induction uploaded as [| processed rest IH]; intros db results;
    [reflexivity |].
  cbn [app process_files].
  destruct (process_one round_literal st skip_duplicates processed db)
    as [db1 r]. apply IH.
Qed.

Lemma process_one_entry skip_duplicates processed db :
  (forall e, processed = Raise e ->
             process_one round_literal st skip_duplicates processed db
             = (db, error e))
  /\ (skip_duplicates = false ->
      is_skipped
        (process_one round_literal st skip_duplicates processed db).2
      = false).
Proof.
  split.
  - intros e ->. reflexivity.
  - intros ->. unfold process_one, bindDb, lift, ret.
    destruct processed as [[profile_metadata measurements] | e];
      [| reflexivity].
    destruct (store_data_in_database round_literal st profile_metadata
                measurements db) as [db' [profile_id | e]]; reflexivity.
Qed.

Lemma filter_cons_length (status : file_result -> bool) r l :
  length (filter (fun r => status r = true) (r :: l))
  = (length (filter (fun r => status r = true) [r])
     + length (filter (fun r => status r = true) l))%nat.
Proof.
  change (r :: l) with ([r] ++ l). rewrite filter_app, length_app.
  reflexivity.
Qed.

Lemma count_statuses r :
  (length (filter (fun r => is_success r = true) [r])
   + length (filter (fun r => is_error r = true) [r])
   + length (filter (fun r => is_skipped r = true) [r]) = 1)%nat.
Proof. destruct r; reflexivity. Qed.

(** The loop over the uploaded files gives one result for each file, in
    order, and goes on after a file that failed: a file whose processing
    raised is reported as an error with that exception and leaves the
    store as it was.  Each result is a success, an error or a skip, and
    none is a skip when the skipping is switched off.  Two batches one
    after the other are the batch of both. *)
Theorem process_files_one_result_each skip_duplicates uploaded db :
  let results :=
    (process_files round_literal st skip_duplicates uploaded db []).2 in
  length results = length uploaded
  /\ (count is_success results + count is_error results
      + count is_skipped results = length uploaded)%nat
  /\ Forall2 (fun processed r =>
                (forall e, processed = Raise e -> r = error e)
                /\ (skip_duplicates = false -> is_skipped r = false))
       uploaded results
  /\ (forall e, uploaded = [Raise e] ->
        process_files round_literal st skip_duplicates uploaded db []
        = (db, [error e]))
  /\ (forall more,
        process_files round_literal st skip_duplicates (uploaded ++ more)
          db []
        = process_files round_literal st skip_duplicates more
            (process_files round_literal st skip_duplicates uploaded db
               []).1
            results).
Proof.
  cbn zeta. split; [| split; [| split; [| split]]].
  - revert db. induction uploaded as [| processed rest IH]; intros db;
      [reflexivity |].
    rewrite process_files_cons. cbn [snd length]. f_equal. apply IH.
  - revert db. induction uploaded as [| processed rest IH]; intros db;
      [reflexivity |].
    rewrite process_files_cons. cbn [snd length].
    specialize (IH (process_one round_literal st skip_duplicates
                      processed db).1).
    unfold count in *.
    pose proof (count_statuses
                  (process_one round_literal st skip_duplicates
                     processed db).2) as Hone.
    rewrite (filter_cons_length is_success), (filter_cons_length is_error),
      (filter_cons_length is_skipped). lia.
  - revert db. induction uploaded as [| processed rest IH]; intros db;
      [constructor |].
    rewrite process_files_cons. cbn [snd]. constructor; [| apply IH].
    destruct (process_one_entry skip_duplicates processed db)
      as [Herror Hskip].
    split; [| exact Hskip].
    intros e He. rewrite (Herror e He). reflexivity.
  - intros e ->. reflexivity.
  - intros more. apply process_files_app.
Qed.

(** ** A file after its ingestion *)

Lemma get_profile_id_by_hash_rows db db' h :
  argo_profiles db' = argo_profiles db ->
  get_profile_id_by_hash db' h = get_profile_id_by_hash db h.
Proof. unfold get_profile_id_by_hash. intros ->. reflexivity. Qed.

(** The steps of [store_data_in_database]. *)
Lemma store_data_in_database_steps db profile_metadata measurements db' res :
  store_data_in_database round_literal st profile_metadata measurements db
  = (db', res) ->
  (exists e, insert_profile round_literal db profile_metadata
             = (db', Raise e) /\ res = Raise e)
  \/ (exists db1 profile_id,
        insert_profile round_literal db profile_metadata
        = (db1, Ok profile_id)
        /\ argo_profiles db' = argo_profiles db1
        /\ (res = Ok profile_id \/ exists e, res = Raise e)
        /\ ((measurements = []
             \/ (exists e, clean_measurements st
                             (pd_DataFrame st measurements) = Raise e)) ->
            db' = db1)).
Proof.
  unfold store_data_in_database, bindDb, lift, ret.
  destruct (insert_profile round_literal db profile_metadata)
    as [db1 [profile_id | e]] eqn:Hinsert.
  2: { intros [= <- <-]. left. eauto. }
  intros Hrest. right. exists db1, profile_id. split; [reflexivity |].
  destruct measurements as [| m ms].
  { injection Hrest as <- <-. auto 6. }
  destruct (clean_measurements st _) as [cleaned | e].
  2: { injection Hrest as <- <-. split; [reflexivity |].
       split; [eauto | auto]. }
  assert (forall P : Prop,
            ((m :: ms = []
              \/ (exists e, @Ok (DataFrame st) cleaned = Raise e)) -> P))
    as Hnever.
  { intros P [Hnil | [e He]]; discriminate. }
  destruct (interpolate_missing_depth st cleaned) as [cleaned' | e].
  2: { injection Hrest as <- <-. split; [reflexivity |].
       split; [eauto | auto]. }
  unfold insert_measurements in Hrest.
  pose proof (executemany_profiles round_literal db1
                (map (fun measurement =>
                        <["profile_id"%string := value_of_id profile_id]>
                          measurement)
                   (to_dict_records st cleaned'))) as [Hrows _].
  destruct (executemany round_literal db1 _) as [db2 [[] | e]];
    cbn [fst] in Hrows.
  2: { injection Hrest as <- <-. split; [exact Hrows |].
       split; [eauto | apply Hnever]. }
  destruct (create_profile_summary st cleaned' profile_metadata)
    as [summary | e].
  2: { injection Hrest as <- <-. split; [exact Hrows |].
       split; [eauto | apply Hnever]. }
  destruct (add_profile st summary profile_id) as [[] | e].
  2: { injection Hrest as <- <-. split; [exact Hrows |].
       split; [eauto | apply Hnever]. }
  destruct (save_index st) as [[] | e]; injection Hrest as <- <-;
    (split; [exact Hrows |]); (split; [eauto | apply Hnever]).
Qed.

Lemma process_one_stores skip_duplicates profile_metadata measurements db :
  (skip_duplicates = false
   \/ exists h, file_hash profile_metadata = Some h
                /\ get_profile_id_by_hash db h = None) ->
  process_one round_literal st skip_duplicates
    (Ok (profile_metadata, measurements)) db
  = ((store_data_in_database round_literal st profile_metadata measurements
        db).1,
     match (store_data_in_database round_literal st profile_metadata
              measurements db).2 with
     | Ok profile_id => success profile_id (length measurements)
     | Raise e => error e
     end).
Proof.
  intros Hstores. unfold process_one, bindDb, lift, ret.
  destruct Hstores as [-> | (h & Hhash & Hget)].
  - destruct (store_data_in_database round_literal st profile_metadata
                measurements db) as [db' [profile_id | e]]; reflexivity.
  - destruct skip_duplicates.
    + rewrite Hhash. cbn [param]. rewrite Hget.
      destruct (store_data_in_database round_literal st profile_metadata
                  measurements db) as [db' [profile_id | e]]; reflexivity.
    + destruct (store_data_in_database round_literal st profile_metadata
                  measurements db) as [db' [profile_id | e]]; reflexivity.
Qed.

Lemma process_one_success skip_duplicates profile_metadata measurements db
  db' profile_id n :
  process_one round_literal st skip_duplicates
    (Ok (profile_metadata, measurements)) db
  = (db', success profile_id n) ->
  store_data_in_database round_literal st profile_metadata measurements db
  = (db', Ok profile_id)
  /\ n = length measurements.
Proof.
  unfold process_one, bindDb, lift, ret.
  assert (forall r : database * result (option Z),
            (match r with
             | (db0, Ok a) => (db0, Ok (success a (length measurements)))
             | (db0, Raise e) => (db0, Raise e)
             end = (db', Ok (success profile_id n))
             \/ match
                  match r with
                  | (db0, Ok a) =>
                      (db0, Ok (success a (length measurements)))
                  | (db0, Raise e) => (db0, Raise e)
                  end
                with
                | (db0, Ok r0) => (db0, r0)
                | (db0, Raise e) => (db0, error e)
                end = (db', success profile_id n)) ->
            r = (db', Ok profile_id) /\ n = length measurements) as Hstore.
  { intros [db0 [a | e]] [H | H]; try discriminate;
      injection H as <- <- <-; auto. }
  destruct skip_duplicates.
  - destruct (param "file_hash" (file_hash profile_metadata)) as [h | e];
      [| discriminate].
    destruct (get_profile_id_by_hash db h) as [id |].
    + destruct (truthy (Some id)); [discriminate |].
      intros H. apply Hstore. right. exact H.
    + intros H. apply Hstore. right. exact H.
  - intros H. apply Hstore. right. exact H.
Qed.

Lemma skipped_when_found db profile_metadata measurements h id :
  well_formed db ->
  file_hash profile_metadata = Some h ->
  get_profile_id_by_hash db h = Some id ->
  process_one round_literal st true (Ok (profile_metadata, measurements)) db
  = (db, skipped id).
Proof.
  intros [_ Hrows] Hhash Hget.
  unfold process_one, bindDb, lift, ret. rewrite Hhash. cbn [param].
  rewrite Hget.
  pose proof Hget as (_ & r & Hin & _ & Hid)%get_profile_id_by_hash_existsb.
  rewrite Forall_forall in Hrows.
  destruct (Hrows r Hin) as [Hpos _]. rewrite Hid in Hpos.
  rewrite truthy_positive by lia. reflexivity.
Qed.

(** A file that was ingested with success is found by its hash: the
    identifier that was reported is the one that the look-up gives, and
    the same file again, with the skipping switched on, is skipped with
    that identifier and changes nothing. *)
Theorem ingested_file_is_skipped
  skip_duplicates db profile_metadata measurements h db' profile_id n :
  well_formed db ->
  file_hash profile_metadata = Some h ->
  (String.length h <= 64)%nat ->
  process_one round_literal st skip_duplicates
    (Ok (profile_metadata, measurements)) db
  = (db', success profile_id n) ->
  n = length measurements
  /\ exists id,
       profile_id = Some id
       /\ get_profile_id_by_hash db' h = Some id
       /\ forall again,
            process_one round_literal st true (Ok (profile_metadata, again))
              db'
            = (db', skipped id).
Proof.
  intros Hwf Hhash Hlen Hone.
  assert (well_formed db') as Hwf'.
  { pose proof (well_formed_process_one round_literal st skip_duplicates
                  (Ok (profile_metadata, measurements)) db Hwf) as H.
    rewrite Hone in H. exact H. }
  destruct (process_one_success _ _ _ _ _ _ _ Hone) as [Hstore ->].
  split; [reflexivity |].
  destruct (store_data_in_database_steps _ _ _ _ _ Hstore)
    as [(e & _ & He) | (db1 & pid & Hinsert & Hrows & Hres & _)];
    [discriminate |].
  destruct Hres as [[= <-] | [e He]]; [| discriminate].
  destruct (insert_profile_found round_literal db profile_metadata db1 h
              profile_id Hhash Hlen Hinsert) as (id & -> & Hget & _).
  rewrite <- (get_profile_id_by_hash_rows db1 db' h Hrows) in Hget.
  exists id. split; [reflexivity |]. split; [exact Hget |].
  intros again. apply (skipped_when_found db' _ _ h id Hwf' Hhash Hget).
Qed.

(** A failure after the profile went in is not undone.  When the
    cleaning of the measurements raises for a file that is new to the
    store, the file is reported as an error, but its profile row stays,
    without any measurement; the same file again, with the skipping
    switched on, is then skipped, so its measurements are never
    stored. *)
Theorem failed_ingestion_is_skipped_on_retry
  db profile_metadata measurements h e db1 profile_id :
  well_formed db ->
  file_hash profile_metadata = Some h ->
  (String.length h <= 64)%nat ->
  get_profile_id_by_hash db h = None ->
  measurements <> [] ->
  clean_measurements st (pd_DataFrame st measurements) = Raise e ->
  insert_profile round_literal db profile_metadata = (db1, Ok profile_id) ->
  process_one round_literal st true (Ok (profile_metadata, measurements)) db
  = (db1, error e)
  /\ get_total_records db1 = S (get_total_records db)
  /\ argo_measurements db1 = argo_measurements db
  /\ exists id,
       profile_id = Some id
       /\ get_measurements_by_profile db1 id
          = get_measurements_by_profile db id
       /\ process_one round_literal st true
            (Ok (profile_metadata, measurements)) db1
          = (db1, skipped id).
Proof.
  intros Hwf Hhash Hlen Hfresh Hsome Hclean Hinsert.
  assert (store_data_in_database round_literal st profile_metadata
            measurements db = (db1, Raise e)) as Hstore.
  { unfold store_data_in_database, bindDb, lift, ret. rewrite Hinsert.
    destruct measurements as [| m ms]; [congruence |].
    rewrite Hclean. reflexivity. }
  assert (well_formed db1) as Hwf1.
  { pose proof (well_formed_insert_profile round_literal db
                  profile_metadata Hwf) as H.
    rewrite Hinsert in H. exact H. }
  destruct (insert_profile_found round_literal db profile_metadata db1 h
              profile_id Hhash Hlen Hinsert)
    as (id & -> & Hget & Hnew & _ & Hrows).
  destruct (Hnew Hfresh) as [_ Htotal].
  split.
  { rewrite process_one_stores by eauto. rewrite Hstore. reflexivity. }
  split; [exact Htotal |]. split; [exact Hrows |].
  exists id. split; [reflexivity |]. split.
  - unfold get_measurements_by_profile. rewrite Hrows. reflexivity.
  - apply (skipped_when_found db1 _ _ h id Hwf1 Hhash Hget).
Qed.

(** ** A file without metadata *)

Lemma store_data_in_database_no_float_id db profile_metadata measurements :
  float_id profile_metadata = None ->
  store_data_in_database round_literal st profile_metadata measurements db
  = (db, Raise (KeyError "float_id")).
Proof.
  intros Hnone.
  unfold store_data_in_database, bindDb, insert_profile,
    execute_insert_profile, profile_values.
  rewrite Hnone. reflexivity.
Qed.

(** Metadata without a float identifier, which is what
    [extract_profile_metadata] gives when it fails, cannot be stored:
    the file is never reported as a success and the store stays as it
    was; without the skipping the error is the [KeyError] of the float
    identifier. *)
Theorem ingestion_needs_float_id db profile_metadata measurements :
  float_id profile_metadata = None ->
  (forall skip_duplicates,
     (process_one round_literal st skip_duplicates
        (Ok (profile_metadata, measurements)) db).1 = db
     /\ is_success
          (process_one round_literal st skip_duplicates
             (Ok (profile_metadata, measurements)) db).2 = false)
  /\ process_one round_literal st false
       (Ok (profile_metadata, measurements)) db
     = (db, error (KeyError "float_id")).
Proof.
  intros Hnone.
  pose proof (store_data_in_database_no_float_id db profile_metadata
                measurements Hnone) as Hstore.
  split.
  - intros skip_duplicates. unfold process_one, bindDb, lift, ret.
    destruct skip_duplicates; [| rewrite Hstore; auto].
    destruct (param "file_hash" (file_hash profile_metadata)) as [h | e];
      [| auto].
    destruct (get_profile_id_by_hash db h) as [id |];
      [| rewrite Hstore; auto].
    destruct (truthy (Some id)); [auto | rewrite Hstore; auto].
  - unfold process_one, bindDb, lift, ret. rewrite Hstore. reflexivity.
Qed.

End MoreIngestion.


(** The sample file into the empty store without the skipping, and the
    same file again with it. *)
Lemma ingested_file_is_skipped_witness :
  exists db',
    DataIngestion.process_one DatabaseManager.round_half_away
      Samples.pass_through false
      (Ok (Samples.sample_metadata, [Samples.sample_measurement]))
      DatabaseManager.empty_database
    = (db', DataIngestion.success (Some 1) 1)
    /\ DataIngestion.process_one DatabaseManager.round_half_away
         Samples.pass_through true
         (Ok (Samples.sample_metadata, [Samples.sample_measurement]))
         db'
       = (db', DataIngestion.skipped 1).
Proof.
  destruct (DataIngestion.process_one DatabaseManager.round_half_away
              Samples.pass_through false
              (Ok (Samples.sample_metadata, [Samples.sample_measurement]))
              DatabaseManager.empty_database) as [db' res] eqn:Hone.
  assert (res = DataIngestion.success (Some 1) 1) as ->.
  { apply (f_equal snd) in Hone. vm_compute in Hone.
    symmetry. exact Hone. }
  destruct (ingested_file_is_skipped DatabaseManager.round_half_away
              Samples.pass_through false DatabaseManager.empty_database
              Samples.sample_metadata [Samples.sample_measurement]
              "9e107d9d372bb6826bd81d3542a419d6" db' (Some 1) 1
              well_formed_empty eq_refl)
    as (_ & id & Hid & _ & Hskipped); [simpl; lia | exact Hone |].
  injection Hid as <-.
  exists db'. split; [reflexivity | apply Hskipped].
Defined.

(** The sample file with a transformer whose cleaning fails: an error,
    a profile without measurements, and a skip at the second attempt. *)
Lemma failed_ingestion_is_skipped_on_retry_witness :
  exists db1,
    DataIngestion.process_one DatabaseManager.round_half_away
      MoreSamples.failing_transformer true
      (Ok (Samples.sample_metadata, [Samples.sample_measurement]))
      DatabaseManager.empty_database
    = (db1, DataIngestion.error ValueError)
    /\ Queries.get_total_records db1 = 1%nat
    /\ Queries.get_measurements_by_profile db1 1 = []
    /\ DataIngestion.process_one DatabaseManager.round_half_away
         MoreSamples.failing_transformer true
         (Ok (Samples.sample_metadata, [Samples.sample_measurement]))
         db1
       = (db1, DataIngestion.skipped 1).
Proof.
  destruct (DatabaseManager.insert_profile DatabaseManager.round_half_away
              DatabaseManager.empty_database Samples.sample_metadata)
    as [db1 res] eqn:Hinsert.
  assert (res = Ok (Some 1)) as ->.
  { apply (f_equal snd) in Hinsert. vm_compute in Hinsert.
    symmetry. exact Hinsert. }
  destruct (failed_ingestion_is_skipped_on_retry
              DatabaseManager.round_half_away
              MoreSamples.failing_transformer
              DatabaseManager.empty_database Samples.sample_metadata
              [Samples.sample_measurement]
              "9e107d9d372bb6826bd81d3542a419d6" ValueError db1 (Some 1)
              well_formed_empty eq_refl)
    as (Herror & Htotal & _ & id & Hid & Hget & Hskipped);
    [simpl; lia | reflexivity | discriminate | reflexivity | exact Hinsert |].
  injection Hid as <-.
  exists db1. split; [exact Herror |]. split; [exact Htotal |].
  split; [rewrite Hget; reflexivity | exact Hskipped].
Defined.

(** The metadata that is left of a failed extraction: the hash alone. *)
Lemma ingestion_needs_float_id_witness :
  DataIngestion.process_one DatabaseManager.round_half_away
    Samples.pass_through false
    (Ok (NetCDFProcessor.set_file_hash "0123" NetCDFProcessor.no_metadata,
         [Samples.sample_measurement]))
    Samples.stored_once
  = (Samples.stored_once, DataIngestion.error (KeyError "float_id")).
Proof.
  apply (ingestion_needs_float_id DatabaseManager.round_half_away
           Samples.pass_through Samples.stored_once
           (NetCDFProcessor.set_file_hash "0123" NetCDFProcessor.no_metadata)
           [Samples.sample_measurement] eq_refl).
Defined.

(** In the store of two profiles, the look-up for the identifier 1
    collects the profile with the identifier 2, the newer one. *)
Lemma looked_up_ignores_profile_ids_witness :
  exists frame,
    (Batches.looked_up MoreSamples.two_profiles [Some 1]).1 = [frame]
    /\ Queries.q_id <$> frame = [2].
Proof.
  destruct (looked_up_ignores_profile_ids MoreSamples.two_profiles [Some 1])
    as (_ & Hall & _).
  destruct (Batches.looked_up MoreSamples.two_profiles [Some 1]).1
    as [| frame [| frame' rest]] eqn:Hframes;
    try (vm_compute in Hframes; discriminate).
  exists frame. split; [reflexivity |].
  apply Forall_cons in Hall as [-> _]. reflexivity.
Defined.
